(** * cpp_dynamic_calc: the QA suite and the calculator GUI's dispatcher

    A shallow embedding of the Python glue of the repository:
    - [src/axiom_qa_test_suite.py] (class [AxiomQATestSuite]),
    - [src/tests/integration/core_architecture_test.py], and
    - [src/gui/python/ogulator_gui.py] (classes [CppEngineInterface] and
      [OGULATORCalculatorGUI]).

    Conventions.
    - A Python [str] is a [string]: the bytes of its UTF-8 encoding.
      Substring tests and concatenation are the same on both views; the
      character classes, [lower] and [strip] are given on the ASCII range.
    - Code that can raise runs in a state-and-exception monad; [try]/[except]
      is [try_except].  Exceptions are those deriving from [Exception].
    - Everything outside the interpreter (the engine executable, the daemon
      process, the clock, the file system, the builtin [eval]) is an oracle:
      a field of an environment record, answering call by call.  Time is
      counted in microseconds, and a pause lasts at least as long as asked.
    - [print] calls write to the console only and are left out.

    The first part holds the definitions, the second part the properties. *)

From Stdlib Require Import ZArith NArith List Bool Ascii String Lia.
From stdpp Require Import base option gmap strings list pretty.

Local Open Scope string_scope.
Local Open Scope Z_scope.

(** ** Python strings *)

Module PyStr.

(** [s.startswith(p)] *)
Fixpoint startswith (p s : string) : bool :=
  match p, s with
  | EmptyString, _ => true
  | String a p', String b s' => Ascii.eqb a b && startswith p' s'
  | String _ _, EmptyString => false
  end.

(** [needle in hay] *)
Fixpoint contains (needle hay : string) : bool :=
  startswith needle hay ||
  match hay with
  | EmptyString => false
  | String _ hay' => contains needle hay'
  end.

(** [s * n] *)
Fixpoint mul (s : string) (n : nat) : string :=
  match n with
  | O => EmptyString
  | S n' => s ++ mul s n'
  end.

(** The last character of a string, if it has one. *)
Fixpoint last_char (s : string) : option ascii :=
  match s with
  | EmptyString => None
  | String c EmptyString => Some c
  | String _ s' => last_char s'
  end.

(** [s.endswith("\n")]: the line feed is code point 10. *)
Definition newline : ascii := Ascii.ascii_of_nat 10.

Definition ends_with_newline (s : string) : bool :=
  match last_char s with
  | Some c => Ascii.eqb c newline
  | None => false
  end.

(** Truth value of a string: non-empty. *)
Definition truthy (s : string) : bool :=
  match s with
  | EmptyString => false
  | String _ _ => true
  end.

(** White space and digits of the ASCII range, as [str.isspace],
    [str.strip] and the classes [\s] and [\d] of [re] see them. *)
Definition is_space (c : ascii) : bool :=
  let n := nat_of_ascii c in
  ((9 <=? n) && (n <=? 13) || (28 <=? n) && (n <=? 32))%nat.

Definition is_digit (c : ascii) : bool :=
  let n := nat_of_ascii c in ((48 <=? n) && (n <=? 57))%nat.

(** [s.lower()], on the letters of the ASCII range. *)
Definition lower_char (c : ascii) : ascii :=
  let n := nat_of_ascii c in
  if ((65 <=? n) && (n <=? 90))%nat then ascii_of_nat (n + 32) else c.

Fixpoint lower (s : string) : string :=
  match s with
  | EmptyString => EmptyString
  | String c s' => String (lower_char c) (lower s')
  end.

(** [s.strip()] *)
Fixpoint lstrip (s : string) : string :=
  match s with
  | EmptyString => EmptyString
  | String c s' => if is_space c then lstrip s' else s
  end.

Fixpoint rstrip (s : string) : string :=
  match s with
  | EmptyString => EmptyString
  | String c s' =>
      match rstrip s' with
      | EmptyString => if is_space c then EmptyString else String c EmptyString
      | r => String c r
      end
  end.

Definition strip (s : string) : string := rstrip (lstrip s).

(** [s.split(sep)] for a separator of one character. *)
Fixpoint split (sep : ascii) (s : string) : list string :=
  match s with
  | EmptyString => [EmptyString]
  | String c s' =>
      if Ascii.eqb c sep then EmptyString :: split sep s'
      else match split sep s' with
           | piece :: pieces => String c piece :: pieces
           | [] => [String c EmptyString]
           end
  end.

(** [s.split(sep, 1)[1]]: what follows the first separator, if there is
    one (an [IndexError] otherwise). *)
Fixpoint after_first (sep : ascii) (s : string) : option string :=
  match s with
  | EmptyString => None
  | String c s' => if Ascii.eqb c sep then Some s' else after_first sep s'
  end.

End PyStr.

(** ** Regular expressions, as far as the GUI uses [re.match] *)

Module Re.

Inductive regex : Type :=
| Void                                 (* matches nothing *)
| Eps                                  (* the empty string *)
| Cls (p : ascii -> bool)              (* one character of a class *)
| Cat (r1 r2 : regex)
| Alt (r1 r2 : regex)
| Star (r : regex).

Fixpoint nullable (r : regex) : bool :=
  match r with
  | Void => false
  | Eps => true
  | Cls _ => false
  | Cat r1 r2 => nullable r1 && nullable r2
  | Alt r1 r2 => nullable r1 || nullable r2
  | Star _ => true
  end.

(** The derivative: what may follow after [c] has been read. *)
Fixpoint deriv (c : ascii) (r : regex) : regex :=
  match r with
  | Void => Void
  | Eps => Void
  | Cls p => if p c then Eps else Void
  | Cat r1 r2 =>
      if nullable r1
      then Alt (Cat (deriv c r1) r2) (deriv c r2)
      else Cat (deriv c r1) r2
  | Alt r1 r2 => Alt (deriv c r1) (deriv c r2)
  | Star r1 => Cat (deriv c r1) (Star r1)
  end.

(** Whole-string matching. *)
Fixpoint matches (r : regex) (s : string) : bool :=
  match s with
  | EmptyString => nullable r
  | String c s' => matches (deriv c r) s'
  end.

Definition chr (c : ascii) : regex := Cls (Ascii.eqb c).
Definition plus (r : regex) : regex := Cat r (Star r).
Definition seq_of (rs : list regex) : regex := fold_right Cat Eps rs.

(** [\s], [\d] and the operator class [[+\-*/]]. *)
Definition space : regex := Cls PyStr.is_space.
Definition digit : regex := Cls PyStr.is_digit.
Definition is_operator (c : ascii) : bool :=
  Ascii.eqb c "+" || Ascii.eqb c "-" || Ascii.eqb c "*" || Ascii.eqb c "/".
Definition operator : regex := Cls is_operator.

(** [$] at the end of a pattern: the end of the string, or the line feed
    that ends the string. *)
Definition eol : regex := Alt Eps (chr PyStr.newline).

(** [re.match(pattern, s)] for a pattern [^body$]: [body] has to match
    from the start; [$] lets one final line feed through. *)
Definition re_match (body : regex) (s : string) : bool :=
  matches (Cat body eol) s.

(** Can a match start with [c]? *)
Fixpoint first (r : regex) (c : ascii) : bool :=
  match r with
  | Void => false
  | Eps => false
  | Cls p => p c
  | Cat r1 r2 => first r1 c || nullable r1 && first r2 c
  | Alt r1 r2 => first r1 c || first r2 c
  | Star r1 => first r1 c
  end.

(** A regex that visibly matches nothing. *)
Fixpoint is_void (r : regex) : bool :=
  match r with
  | Void => true
  | Cat r1 r2 => is_void r1 || is_void r2
  | Alt r1 r2 => is_void r1 && is_void r2
  | _ => false
  end.

End Re.

(** ** Exceptions and the monad of test code *)

Inductive exc_class : Type :=
| TimeoutExpired      (* subprocess.TimeoutExpired *)
| OtherException.     (* any other class deriving from Exception *)

Record pyexc : Type := PyExc { exc_cls : exc_class; exc_str : string }.

Inductive outcome (A : Type) : Type :=
| Ret (a : A)
| Raise (e : pyexc).
Arguments Ret {A} a.
Arguments Raise {A} e.

Definition is_timeout (e : pyexc) : bool :=
  match exc_cls e with
  | TimeoutExpired => true
  | OtherException => false
  end.

Section Monad.
Context {S : Type}.

Definition M (A : Type) : Type := S -> outcome A * S.

Definition ret {A} (a : A) : M A := fun s => (Ret a, s).

Definition bind {A B} (m : M A) (k : A -> M B) : M B :=
  fun s =>
    match m s with
    | (Ret a, s') => k a s'
    | (Raise e, s') => (Raise e, s')
    end.

Definition raise {A} (e : pyexc) : M A := fun s => (Raise e, s).

(** [try: body  except Exception as e: handler(e)] *)
Definition try_except {A} (body : M A) (handler : pyexc -> M A) : M A :=
  fun s =>
    match body s with
    | (Ret a, s') => (Ret a, s')
    | (Raise e, s') => handler e s'
    end.

Definition get : M S := fun s => (Ret s, s).
Definition gets {A} (f : S -> A) : M A := fun s => (Ret (f s), s).
Definition modify (f : S -> S) : M unit := fun s => (Ret tt, f s).
End Monad.
Arguments M : clear implicits.

#[global] Instance M_ret {S} : MRet (M S) := @ret S.
#[global] Instance M_bind {S} : MBind (M S) := fun A B k m => bind m k.

(** [subprocess.CompletedProcess] with captured text output. *)
Record CompletedProcess : Type :=
  { returncode : Z; stdout : string; stderr : string }.

(** ** The QA suite: [src/axiom_qa_test_suite.py] *)

Module QA.

(** The world outside the test process.  Calls are numbered in the order
    in which the suite makes them, so an oracle may answer every call
    differently.  Durations are in microseconds and never negative. *)
Record Env : Type := {
  (* subprocess.run(argv, capture_output=True, text=True, timeout=...)
     after k earlier calls: the time it takes and how it ends *)
  subprocess_run : nat -> list string -> N * outcome CompletedProcess;
  (* psutil.Process().memory_info().rss of the test process once k
     subprocess.run calls have been made *)
  memory_rss : nat -> Z;
  (* subprocess.Popen(argv, stdin=PIPE, stdout=PIPE, stderr=PIPE, ...):
     the exception it raises, if any *)
  popen : list string -> option pyexc;
  (* daemon_process.poll() after the start-up pause *)
  daemon_poll : option Z;
  (* daemon_process.stdin.write(data) and .flush() *)
  stdin_write : string -> option pyexc;
  stdin_flush : option pyexc;
  (* daemon_process.stdout.readable() before the k-th read *)
  stdout_readable : nat -> bool;
  (* the k-th daemon_process.stdout.read(1): how long it blocks, and the
     character read (the empty string at end of file) *)
  stdout_read1 : nat -> N * outcome string;
  (* by how much the k-th time.sleep oversleeps *)
  oversleep : nat -> N;
  (* os.path.exists(path), and open(path).read() *)
  path_exists : string -> bool;
  read_text : string -> outcome string
}.

(** [self.results]: one dictionary of recorded strings per section. *)
Record Results : Type := {
  architecture_tests : gmap string string;
  performance_tests : gmap string string;
  functional_tests : gmap string string;
  security_tests : gmap string string;
  overall_status : string
}.

(** [__init__] *)
Definition initial_results : Results :=
  {| architecture_tests := ∅; performance_tests := ∅;
     functional_tests := ∅; security_tests := ∅;
     overall_status := "UNKNOWN" |}.

(** The suite object together with the bookkeeping of the world. *)
Record State : Type := {
  results : Results;
  clock : Z;                      (* time.time(), microseconds *)
  run_log : list (list string);   (* the argument vectors of the
                                     subprocess.run calls, oldest first *)
  reads : nat;                    (* read(1) calls made so far *)
  read_log : list (Z * string);   (* the reads that returned: the time at
                                     which each was started, and its answer *)
  sleeps : nat;                   (* time.sleep calls made so far *)
  stdin_log : list string;        (* data written to the daemon, oldest first *)
  terminated : bool               (* daemon_process.terminate() was called *)
}.

(** The number of subprocess.run calls made so far. *)
Definition runs (s : State) : nat := length (run_log s).

Definition initial_state (t0 : Z) : State :=
  {| results := initial_results; clock := t0; run_log := []; reads := 0;
     read_log := []; sleeps := 0; stdin_log := []; terminated := false |}.

Definition with_results (f : Results -> Results) (s : State) : State :=
  {| results := f (results s); clock := clock s; run_log := run_log s;
     reads := reads s; read_log := read_log s; sleeps := sleeps s;
     stdin_log := stdin_log s; terminated := terminated s |}.

Definition advance (d : N) (s : State) : State :=
  {| results := results s; clock := clock s + Z.of_N d; run_log := run_log s;
     reads := reads s; read_log := read_log s; sleeps := sleeps s;
     stdin_log := stdin_log s; terminated := terminated s |}.

Definition log_run (argv : list string) (s : State) : State :=
  {| results := results s; clock := clock s; run_log := run_log s ++ [argv];
     reads := reads s; read_log := read_log s; sleeps := sleeps s;
     stdin_log := stdin_log s; terminated := terminated s |}.

Definition count_read (s : State) : State :=
  {| results := results s; clock := clock s; run_log := run_log s;
     reads := S (reads s); read_log := read_log s; sleeps := sleeps s;
     stdin_log := stdin_log s; terminated := terminated s |}.

Definition log_read (t : Z) (char : string) (s : State) : State :=
  {| results := results s; clock := clock s; run_log := run_log s;
     reads := reads s; read_log := read_log s ++ [(t, char)];
     sleeps := sleeps s; stdin_log := stdin_log s;
     terminated := terminated s |}.

Definition count_sleep (s : State) : State :=
  {| results := results s; clock := clock s; run_log := run_log s;
     reads := reads s; read_log := read_log s; sleeps := S (sleeps s);
     stdin_log := stdin_log s; terminated := terminated s |}.

Definition log_stdin (data : string) (s : State) : State :=
  {| results := results s; clock := clock s; run_log := run_log s;
     reads := reads s; read_log := read_log s; sleeps := sleeps s;
     stdin_log := stdin_log s ++ [data]; terminated := terminated s |}.

Definition set_terminated (s : State) : State :=
  {| results := results s; clock := clock s; run_log := run_log s;
     reads := reads s; read_log := read_log s; sleeps := sleeps s;
     stdin_log := stdin_log s; terminated := true |}.

(** [self.results[section][test] = value] *)
Definition set_architecture (k v : string) (r : Results) : Results :=
  {| architecture_tests := <[k:=v]> (architecture_tests r);
     performance_tests := performance_tests r;
     functional_tests := functional_tests r;
     security_tests := security_tests r;
     overall_status := overall_status r |}.

Definition set_performance (k v : string) (r : Results) : Results :=
  {| architecture_tests := architecture_tests r;
     performance_tests := <[k:=v]> (performance_tests r);
     functional_tests := functional_tests r;
     security_tests := security_tests r;
     overall_status := overall_status r |}.

Definition set_functional (k v : string) (r : Results) : Results :=
  {| architecture_tests := architecture_tests r;
     performance_tests := performance_tests r;
     functional_tests := <[k:=v]> (functional_tests r);
     security_tests := security_tests r;
     overall_status := overall_status r |}.

Definition set_security (k v : string) (r : Results) : Results :=
  {| architecture_tests := architecture_tests r;
     performance_tests := performance_tests r;
     functional_tests := functional_tests r;
     security_tests := <[k:=v]> (security_tests r);
     overall_status := overall_status r |}.

(** How far [test_daemon_handshake] got. *)
Inductive handshake : Type :=
| NotRead                     (* the reading loop was not reached, or an
                                 exception ended it *)
| OutOfFuel                   (* the iteration bound of the model was hit *)
| Read (response : string).   (* the loop ended with this buffer *)

(** [not self.axiom_path]: [None] and the empty string are false. *)
Definition path_missing (axiom_path : option string) : bool :=
  match axiom_path with
  | None => true
  | Some p => negb (PyStr.truthy p)
  end.

(** The path as an element of an argument vector.  *)
Definition path_arg (axiom_path : option string) : string :=
  default "" axiom_path.

Section Suite.
Variable E : Env.
Variable axiom_path : option string.

Abbreviation T := (M State).

Definition record_architecture (k v : string) : T unit :=
  modify (with_results (set_architecture k v)).
Definition record_performance (k v : string) : T unit :=
  modify (with_results (set_performance k v)).
Definition record_functional (k v : string) : T unit :=
  modify (with_results (set_functional k v)).
Definition record_security (k v : string) : T unit :=
  modify (with_results (set_security k v)).

(** [subprocess.run(argv, capture_output=True, text=True, timeout=...)] *)
Definition run (argv : list string) : T CompletedProcess :=
  fun s =>
    let '(d, o) := subprocess_run E (runs s) argv in
    (o, advance d (log_run argv s)).

(** [time.time()] *)
Definition time_time : T Z := gets clock.

(** [time.sleep(d)]: at least [d] microseconds pass. *)
Definition time_sleep (d : N) : T unit :=
  fun s => (Ret tt, advance (d + oversleep E (sleeps s)) (count_sleep s)).

(** [psutil.Process().memory_info().rss] *)
Definition memory_info_rss : T Z := gets (fun s => memory_rss E (runs s)).

(** *** Section 1: [section_1_architecture_verification] *)

Definition SENTINEL : string := "__END_OF_RESPONSE__".

(** The string literal ["2+2\\n"] of the source: an escaped backslash
    followed by the letter n. *)
Definition test_command : string := "2+2\n".

Definition option_raise (o : option pyexc) : T unit :=
  match o with
  | None => mret tt
  | Some e => raise e
  end.

(** [subprocess.Popen([self.axiom_path, "--daemon"], ...)]; an argument
    vector holding [None] is a [TypeError]. *)
Definition Popen_daemon : T unit :=
  match axiom_path with
  | None =>
      raise (PyExc OtherException
               "expected str, bytes or os.PathLike object, not NoneType")
  | Some p => option_raise (popen E [p; "--daemon"])
  end.

Definition stdin_write_flush (data : string) : T unit :=
  option_raise (stdin_write E data);;
  modify (log_stdin data);;
  option_raise (stdin_flush E).

(** [daemon_process.stdout.read(1)] *)
Definition stdout_read : T string :=
  fun s =>
    let '(d, o) := stdout_read1 E (reads s) in
    match o with
    | Ret char => (Ret char, advance d (log_read (clock s) char (count_read s)))
    | Raise e => (Raise e, advance d (count_read s))
    end.

(** The [while time.time() - start_time < 5] loop.  [fuel] bounds the
    number of iterations; [None] means the bound was too small. *)
Fixpoint read_response (fuel : nat) (start_time : Z) (response : string)
  : T (option string) :=
  match fuel with
  | O => mret None
  | S fuel' =>
      now ← time_time;
      if now - start_time <? 5000000 then
        k ← gets reads;
        if stdout_readable E k then
          char ← stdout_read;
          if PyStr.truthy char then
            let response' := response ++ char in
            if PyStr.contains SENTINEL response'
            then mret (Some response')                       (* break *)
            else time_sleep 10000;; read_response fuel' start_time response'
          else time_sleep 10000;; read_response fuel' start_time response
        else time_sleep 10000;; read_response fuel' start_time response
      else mret (Some response)
  end.

(** Five seconds of ten-millisecond pauses. *)
Definition read_fuel : nat := 501.

(** The body of [test_daemon_handshake], for a reading loop of at most
    [fuel] iterations.  The Python function returns nothing; the
    embedding hands back how far it got, with the accumulated
    [response] when the reading loop was left normally. *)
Definition daemon_handshake (fuel : nat) : T handshake :=
  try_except
    (Popen_daemon;;
     time_sleep 2000000;;
     if bool_decide (daemon_poll E = None) then
       stdin_write_flush test_command;;
       start_time ← time_time;
       r ← read_response fuel start_time "";
       match r with
       | None => mret OutOfFuel
       | Some response =>
           modify set_terminated;;
           (if PyStr.contains SENTINEL response
            then record_architecture "daemon_handshake" "PASS"
            else record_architecture "daemon_handshake"
                   "FAIL - Protocol violation");;
           mret (Read response)
       end
     else
       record_architecture "daemon_handshake" "FAIL - Daemon crash";;
       mret NotRead)
    (fun e =>
       record_architecture "daemon_handshake" ("FAIL - " ++ exc_str e);;
       mret NotRead).

(** [test_daemon_handshake] *)
Definition test_daemon_handshake : T handshake := daemon_handshake read_fuel.

Definition critical_files : list string :=
  [ "src/main.cpp"; "include/dynamic_calc.h"; "CMakeLists.txt" ].

Fixpoint scan_files (files remaining_ogulator : list string)
  : T (list string) :=
  match files with
  | [] => mret remaining_ogulator
  | file_path :: rest =>
      if path_exists E file_path then
        content ← (fun s => (read_text E file_path, s));
        if PyStr.contains "OGULATOR" content || PyStr.contains "Ogulator" content
        then scan_files rest (remaining_ogulator ++ [file_path])
        else scan_files rest remaining_ogulator
      else scan_files rest remaining_ogulator
  end.

Definition test_namespace_purity : T unit :=
  remaining_ogulator ← scan_files critical_files [];
  match remaining_ogulator with
  | _ :: _ => record_architecture "namespace_purity" "FAIL"
  | [] => record_architecture "namespace_purity" "PASS"
  end.

Definition IDENTITY : string := "AXIOM Engine v3.0".

(** Test 1.1, the binary identity check. *)
Definition binary_identity_check : T unit :=
  try_except
    (result ← run [path_arg axiom_path; "--help"];
     if PyStr.contains IDENTITY (stdout result)
     then record_architecture "binary_identity" "PASS"
     else record_architecture "binary_identity" "FAIL")
    (fun e => record_architecture "binary_identity" ("FAIL - " ++ exc_str e)).

Definition section_1_architecture_verification : T bool :=
  if path_missing axiom_path then
    record_architecture "binary_identity" "FAIL - Executable not found";;
    mret false
  else
    binary_identity_check;;
    test_daemon_handshake;;
    test_namespace_purity;;
    mret true.

(** *** Section 2: [test_latency_ping] and [test_throughput_flood] *)

(** The [for i in range(100)] loop; [false] when the function returned
    from inside the loop. *)
Fixpoint latency_loop (indices : list nat) : T bool :=
  match indices with
  | [] => mret true
  | i :: rest =>
      result ← run [path_arg axiom_path; "1+1"];
      if negb (returncode result =? 0) || negb (PyStr.contains "2" (stdout result))
      then record_performance "latency" ("FAIL - Calc " ++ pretty i);;
           mret false
      else latency_loop rest
  end.

(** [avg_latency = (total_time / 100) * 1000] is in milliseconds, the
    clock in microseconds: [avg_latency < b] is [total < b * 100000]. *)
Definition test_latency_ping : T unit :=
  if path_missing axiom_path then mret tt
  else
    try_except
      (start_time ← time_time;
       completed ← latency_loop (seq 0 100);
       if completed : bool then
         now ← time_time;
         let total_time := now - start_time in
         if total_time <? 10 * 100000
         then record_performance "latency" "PASS - SENNA SPEED"
         else if total_time <? 100 * 100000
         then record_performance "latency" "PASS - F1 SPEED"
         else record_performance "latency" "FAIL - Too slow"
       else mret tt)
      (fun e => record_performance "latency" ("FAIL - " ++ exc_str e)).

(** The [for i in range(10)] loop of the throughput test. *)
Fixpoint flood_loop (indices : list nat) : T unit :=
  match indices with
  | [] => mret tt
  | i :: rest =>
      let matrix_cmd := "linear" in
      run [path_arg axiom_path; matrix_cmd];; flood_loop rest
  end.

Definition test_throughput_flood : T unit :=
  if path_missing axiom_path then mret tt
  else
    try_except
      (initial_memory ← memory_info_rss;
       start_time ← time_time;
       flood_loop (seq 0 10);;
       now ← time_time;
       let total_time := now - start_time in      (* only printed *)
       final_memory ← memory_info_rss;
       let memory_growth := final_memory - initial_memory in
       if memory_growth <? 100 * 1024 * 1024
       then record_performance "throughput" "PASS"
       else record_performance "throughput" "WARN - Memory growth")
      (fun e => record_performance "throughput" ("FAIL - " ++ exc_str e)).

(** *** Section 3: [test_linear_algebra] *)
Definition test_linear_algebra : T unit :=
  if path_missing axiom_path then mret tt
  else
    try_except
      (result ← run [path_arg axiom_path; "2 * 3"];
       if PyStr.contains "6" (stdout result)
       then record_functional "linear_algebra" "PASS"
       else record_functional "linear_algebra" "FAIL")
      (fun e => record_functional "linear_algebra" ("FAIL - " ++ exc_str e)).

(** *** Section 4: [test_fuzzing] and [test_buffer_overflow] *)
Definition malicious_inputs : list string :=
  [ "hgfdjhgf";
    "1/0";
    "sqrt(-1)";
    "integrate(x, [[1,2]";
    PyStr.mul ")" 1000;
    PyStr.mul "x" 10000;
    "\x00\x01\x02";
    "../../../etc/passwd";
    "; rm -rf /";
    "' OR '1'='1" ].

(** The body of the [for] loop, with the local counter [crashes] passed
    through. *)
Definition fuzz_one (crashes : nat) (malicious_input : string) : T nat :=
  try_except
    (result ← run [path_arg axiom_path; malicious_input];
     if returncode result <? 0 then mret (S crashes) else mret crashes)
    (fun e =>
       if is_timeout e
       then mret crashes      (* except subprocess.TimeoutExpired *)
       else mret crashes).    (* except Exception *)

Fixpoint fuzz_loop (inputs : list string) (crashes : nat) : T nat :=
  match inputs with
  | [] => mret crashes
  | i :: rest => c ← fuzz_one crashes i; fuzz_loop rest c
  end.

Definition test_fuzzing : T unit :=
  if path_missing axiom_path then mret tt
  else
    crashes ← fuzz_loop malicious_inputs 0%nat;
    if Nat.eqb crashes 0
    then record_security "fuzzing" "PASS"
    else record_security "fuzzing" ("FAIL - " ++ pretty crashes ++ " crashes").

Definition long_input : string := "1+" ++ PyStr.mul "2+" 10000 ++ "3".

Definition test_buffer_overflow : T unit :=
  if path_missing axiom_path then mret tt
  else
    try_except
      (result ← run [path_arg axiom_path; long_input];
       if 0 <=? returncode result
       then record_security "buffer_overflow" "PASS"
       else record_security "buffer_overflow" "FAIL - Crash")
      (fun e =>
         if is_timeout e
         then record_security "buffer_overflow" "PASS - Timeout"
         else record_security "buffer_overflow" ("FAIL - " ++ exc_str e)).

Definition section_4_security_stability : T unit :=
  test_fuzzing;; test_buffer_overflow.

End Suite.
End QA.

(** ** The core architecture test:
       [src/tests/integration/core_architecture_test.py] *)

Module CoreTest.
Import QA.

Section Test.
Variable E : Env.

Abbreviation T := (M State).

Definition possible_paths : list string :=
  [ "ninja-build/axiom.exe"; "build/axiom.exe"; "cmake-build-debug/axiom.exe" ].

(** The first candidate path that exists. *)
Fixpoint first_existing (paths : list string) : option string :=
  match paths with
  | [] => None
  | path :: rest => if path_exists E path then Some path else first_existing rest
  end.

Definition test_cases : list (string * string) :=
  [ ("2+2", "4"); ("sqrt(16)", "4");
    ("3.14159265358979", "3.14159265358979"); ("max(1,2,3,4,5)", "5") ].

(** Test 2: the counter [passed] over the test cases. *)
Fixpoint core_operations (axiom_path : string) (cases : list (string * string))
  (passed : nat) : T nat :=
  match cases with
  | [] => mret passed
  | (expr, expected) :: rest =>
      passed' ←
        try_except
          (result ← run E [axiom_path; expr];
           if (returncode result =? 0) && PyStr.contains expected (stdout result)
           then mret (S passed) else mret passed)
          (fun e => mret passed);
      core_operations axiom_path rest passed'
  end.

(** Test 3: ten timed runs; the times, in microseconds, are only printed. *)
Fixpoint benchmark (axiom_path : string) (indices : list nat) (times : list Z)
  : T (list Z) :=
  match indices with
  | [] => mret times
  | i :: rest =>
      times' ←
        try_except
          (start ← time_time;
           run E [axiom_path; "2+2"];;
           end_ ← time_time;
           mret (times ++ [end_ - start])%list)
          (fun e => mret times);
      benchmark axiom_path rest times'
  end.

Definition enterprise_tests : list (string * string) :=
  [ ("--benchmark", "benchmark") ].

(** Test 4: the counter [enterprise_passed]. *)
Fixpoint enterprise (axiom_path : string) (tests : list (string * string))
  (enterprise_passed : nat) : T nat :=
  match tests with
  | [] => mret enterprise_passed
  | (flag, keyword) :: rest =>
      passed' ←
        try_except
          (result ← run E [axiom_path; flag];
           if PyStr.contains (PyStr.lower keyword) (PyStr.lower (stdout result))
              || (returncode result =? 0)
           then mret (S enterprise_passed) else mret enterprise_passed)
          (fun e => mret enterprise_passed);
      enterprise axiom_path rest passed'
  end.

(** Test 1: whether the architecture is confirmed. *)
Definition architecture_verification (axiom_path : string) : T bool :=
  try_except
    (result ← run E [axiom_path; "--help"];
     mret (PyStr.contains "AXIOM Engine v3.0" (stdout result)))
    (fun e => mret false).

(** [test_core_architecture]; [success_rate >= b] for
    [success_rate = (total_score / max_score) * 100] is
    [b * max_score <= 100 * total_score]. *)
Definition test_core_architecture : T bool :=
  match first_existing possible_paths with
  | None => mret false
  | Some axiom_path =>
      confirmed ← architecture_verification axiom_path;
      if confirmed : bool then
        passed ← core_operations axiom_path test_cases 0%nat;
        benchmark axiom_path (seq 0 10) [];;
        enterprise_passed ← enterprise axiom_path enterprise_tests 0%nat;
        let total_score := Z.of_nat (passed + enterprise_passed) in
        let max_score := Z.of_nat (length test_cases + length enterprise_tests) in
        if 80 * max_score <=? 100 * total_score then mret true
        else if 60 * max_score <=? 100 * total_score then mret true
        else mret false
      else mret false
  end.

End Test.
End CoreTest.

(** ** The calculator GUI: [src/gui/python/ogulator_gui.py] *)

Module GUI.

(** Values kept in the result dictionaries.  A float is only ever a time
    in milliseconds rounded to one decimal; it is kept in tenths. *)
Inductive pyval : Type :=
| VNone
| VBool (b : bool)
| VStr (s : string)
| VTenths (t : Z).

(** [bool(d.get(k))] *)
Definition truth (v : option pyval) : bool :=
  match v with
  | None | Some VNone => false
  | Some (VBool b) => b
  | Some (VStr s) => PyStr.truthy s
  | Some (VTenths t) => negb (t =? 0)
  end.

(** A value inside an f-string. *)
Definition fmt (v : pyval) : string :=
  match v with
  | VNone => "None"
  | VBool true => "True"
  | VBool false => "False"
  | VStr s => s
  | VTenths t => pretty (t / 10) ++ "." ++ pretty (t mod 10)
  end.

(** [round((t1 - t0) * 1000, 1)] for a duration given in microseconds;
    a tie, which the binary float decides in Python, goes upwards. *)
Definition round_ms (us : N) : Z := (Z.of_N us + 50) / 100.

(** The objects the evaluation environment binds names to. *)
Inductive pyobj : Type :=
| EmptyDict                    (* {} *)
| Builtin (name : string)      (* abs, round, pow, min, max *)
| MathAttr (name : string)     (* math.sin, ..., math.pi, math.e *)
| NumpyModule                  (* numpy *)
| NumpyAttr (name : string).   (* np.array, np.sum, np.mean, np.std *)

(** The interpreter: the builtins [eval] and [str]. *)
Record Python : Type := {
  Value : Type;
  py_eval : string -> gmap string pyobj -> outcome Value;
  py_str : Value -> outcome string
}.

(** What the GUI does to the world, in order. *)
Inductive event : Type :=
| EvEval (command : string) (env : gmap string pyobj)   (* eval(command, env) *)
| EvRun (argv : list string)                            (* subprocess.run(argv, ...) *)
| EvAfter (callback : string)                           (* root.after(0, callback) *)
| EvOutput (text tag : string)                          (* add_output(text, tag) *)
| EvStatus (message : string)                           (* set_status(message) *)
| EvClearInput                                          (* clear_input() *)
| EvProgressStop                                        (* progress_bar.stop() *)
| EvLabel (widget text : string).                       (* widget.config(text=...) *)

Definition is_run (ev : event) : bool :=
  match ev with
  | EvRun _ => true
  | _ => false
  end.

Definition is_error_output (ev : event) : bool :=
  match ev with
  | EvOutput _ tag => String.eqb tag "error"
  | _ => false
  end.

(** [CppEngineInterface] *)
Record CppEngineInterface : Type := { executable_path : option string }.

(** [OGULATORCalculatorGUI], and the trace of what it did. *)
Record Gui : Type := {
  cpp_engine : option CppEngineInterface;
  engine_available : bool;
  current_mode : string;
  python_repl_mode : bool;
  available_packages : gmap string bool;
  runs : nat;                 (* subprocess.run calls made so far *)
  trace : list event
}.

Definition emit (ev : event) (g : Gui) : Gui :=
  {| cpp_engine := cpp_engine g; engine_available := engine_available g;
     current_mode := current_mode g; python_repl_mode := python_repl_mode g;
     available_packages := available_packages g; runs := runs g;
     trace := trace g ++ [ev] |}.

Definition count_run (g : Gui) : Gui :=
  {| cpp_engine := cpp_engine g; engine_available := engine_available g;
     current_mode := current_mode g; python_repl_mode := python_repl_mode g;
     available_packages := available_packages g; runs := S (runs g);
     trace := trace g |}.

Definition set_python_repl_mode (b : bool) (g : Gui) : Gui :=
  {| cpp_engine := cpp_engine g; engine_available := engine_available g;
     current_mode := current_mode g; python_repl_mode := b;
     available_packages := available_packages g; runs := runs g;
     trace := trace g |}.

Definition set_current_mode (m : string) (g : Gui) : Gui :=
  {| cpp_engine := cpp_engine g; engine_available := engine_available g;
     current_mode := m; python_repl_mode := python_repl_mode g;
     available_packages := available_packages g; runs := runs g;
     trace := trace g |}.

(** The four patterns of [is_simple_arithmetic], without their anchors. *)
Definition simple_patterns : list Re.regex :=
  let s := Re.Star Re.space in
  let d := Re.plus Re.digit in
  let op := Re.operator in
  [ (* ^\s*\d+\s*[+\-*/]\s*\d+\s*$ *)
    Re.seq_of [s; d; s; op; s; d; s];
    (* ^\s*\(\s*\d+\s*[+\-*/]\s*\d+\s*\)\s*[+\-*/]\s*\d+\s*$ *)
    Re.seq_of [s; Re.chr "("; s; d; s; op; s; d; s; Re.chr ")"; s; op; s; d; s];
    (* ^\s*\d+\s*\*\*\s*\d+\s*$ *)
    Re.seq_of [s; d; s; Re.chr "*"; Re.chr "*"; s; d; s];
    (* ^\s*\d+\s*[+\-*/]\s*\d+\s*[+\-*/]\s*\d+\s*$ *)
    Re.seq_of [s; d; s; op; s; d; s; op; s; d; s] ].

Definition is_simple_arithmetic (command : string) : bool :=
  existsb (fun pattern => Re.re_match pattern command) simple_patterns.

(** [safe_dict] of [python_math_fallback], before NumPy is added. *)
Definition safe_dict_math : list (string * pyobj) :=
  [ ("__builtins__", EmptyDict);
    ("abs", Builtin "abs"); ("round", Builtin "round"); ("pow", Builtin "pow");
    ("min", Builtin "min"); ("max", Builtin "max");
    ("sin", MathAttr "sin"); ("cos", MathAttr "cos"); ("tan", MathAttr "tan");
    ("asin", MathAttr "asin"); ("acos", MathAttr "acos"); ("atan", MathAttr "atan");
    ("log", MathAttr "log"); ("log10", MathAttr "log10"); ("exp", MathAttr "exp");
    ("sqrt", MathAttr "sqrt"); ("pi", MathAttr "pi"); ("e", MathAttr "e");
    ("degrees", MathAttr "degrees"); ("radians", MathAttr "radians");
    ("factorial", MathAttr "factorial"); ("ceil", MathAttr "ceil");
    ("floor", MathAttr "floor") ].

(** The argument of [safe_dict.update] when NumPy is available. *)
Definition safe_dict_numpy : list (string * pyobj) :=
  [ ("np", NumpyModule); ("array", NumpyAttr "array"); ("sum", NumpyAttr "sum");
    ("mean", NumpyAttr "mean"); ("std", NumpyAttr "std") ].

(** [d.update(other)]: the entries of [other] win. *)
Definition dict_update {A} (d other : gmap string A) : gmap string A := other ∪ d.

Definition safe_dict (numpy : bool) : gmap string pyobj :=
  let d := list_to_map safe_dict_math in
  if numpy then dict_update d (list_to_map safe_dict_numpy) else d.

(** The names bound in [safe_dict], [__builtins__] apart. *)
Definition whitelist (numpy : bool) : list string :=
  [ "abs"; "round"; "pow"; "min"; "max"; "sin"; "cos"; "tan"; "asin"; "acos";
    "atan"; "log"; "log10"; "exp"; "sqrt"; "pi"; "e"; "degrees"; "radians";
    "factorial"; "ceil"; "floor" ]
  ++ (if numpy then [ "np"; "array"; "sum"; "mean"; "std" ] else []).

(** [mode_map] of [change_mode_command] *)
Definition mode_map : gmap string string :=
  list_to_map
    [ ("algebraic", "ALGEBRAIC"); ("linear", "LINEAR SYSTEM");
      ("stats", "STATISTICS"); ("symbolic", "SYMBOLIC"); ("plot", "PLOTTING");
      ("units", "UNITS"); ("python", "PYTHON"); ("numpy", "NUMPY");
      ("scipy", "SCIPY"); ("matplotlib", "MATPLOTLIB"); ("pandas", "PANDAS");
      ("sympy", "SYMPY") ].

(** The messages that mark a line of engine output as package loading
    noise. *)
Definition loading_messages : list string :=
  [ "loaded successfully"; "NumPy"; "SciPy"; "Matplotlib"; "Pandas"; "SymPy" ].

Definition clean_lines (result_text : string) : list string :=
  let lines := PyStr.split PyStr.newline result_text in
  map PyStr.strip
    (filter (fun line =>
               Is_true (PyStr.truthy (PyStr.strip line) &&
                        negb (existsb (fun msg => PyStr.contains msg line)
                                loading_messages)))
       lines).

Section Calculator.
(** The interpreter, and the [k]-th [subprocess.run]: the time it takes
    in microseconds and how it ends. *)
Variable P : Python.
Variable subprocess_run : nat -> list string -> N * outcome CompletedProcess.

Abbreviation T := (M Gui).
Abbreviation dict := (gmap string pyval).

Definition do (ev : event) : T unit := modify (emit ev).

(** [eval(command, env)] *)
Definition eval (command : string) (env : gmap string pyobj) : T (Value P) :=
  fun g => (py_eval P command env, emit (EvEval command env) g).

(** [str(v)] *)
Definition str (v : Value P) : T string := fun g => (py_str P v, g).

(** [subprocess.run([...], capture_output=True, text=True, timeout=3.0,
    ...)], with the time it took. *)
Definition run (argv : list string) : T (N * CompletedProcess) :=
  fun g =>
    let '(d, o) := subprocess_run (runs g) argv in
    let g' := count_run (emit (EvRun argv) g) in
    match o with
    | Ret result => (Ret (d, result), g')
    | Raise e => (Raise e, g')
    end.

(** [CppEngineInterface.execute_command] *)
Definition execute_command (self : CppEngineInterface) (command : string)
  : T dict :=
  match executable_path self with
  | None | Some EmptyString =>
      mret (list_to_map
              [ ("success", VBool false);
                ("error", VStr "C++ engine not available");
                ("fallback_needed", VBool true) ])
  | Some path =>
      try_except
        ('(execution_time, result) ← run [path; command];
         if returncode result =? 0 then
           let result_text := PyStr.strip (stdout result) in
           match last (clean_lines result_text) with
           | Some final_result =>
               mret (list_to_map
                       [ ("success", VBool true);
                         ("result", VStr final_result);
                         ("execution_time", VTenths (round_ms execution_time));
                         ("senna_speed", VBool (execution_time <? 100000)%N);
                         ("f1_speed", VBool (execution_time <? 200000)%N) ])
           | None =>
               mret (list_to_map
                       [ ("success", VBool true);
                         ("result", VStr "Processed");
                         ("execution_time", VTenths (round_ms execution_time)) ])
           end
         else
           mret (list_to_map
                   [ ("success", VBool false);
                     ("error",
                      VStr (if PyStr.truthy (stderr result)
                            then PyStr.strip (stderr result)
                            else "Execution failed"));
                     ("fallback_needed", VBool true) ]))
        (fun e =>
           if is_timeout e then
             mret (list_to_map
                     [ ("success", VBool false);
                       ("error", VStr "C++ engine timeout (3s) - using Python fallback");
                       ("fallback_needed", VBool true) ])
           else
             mret (list_to_map
                     [ ("success", VBool false);
                       ("error", VStr (exc_str e));
                       ("fallback_needed", VBool true) ]))
  end.

(** [OGULATORCalculatorGUI.python_math_fallback] *)
Definition python_math_fallback (command : string) : T dict :=
  try_except
    (numpy ← gets (fun g => available_packages g !! "numpy");
     let safe_dict := safe_dict (default false numpy) in
     result ← eval command safe_dict;
     text ← str result;
     mret (list_to_map
             [ ("success", VBool true);
               ("result", VStr text);
               ("fallback", VBool true) ]))
    (fun e =>
       mret (list_to_map
               [ ("success", VBool false);
                 ("result", VNone);
                 ("error", VStr (exc_str e)) ])).

(** [change_mode_command] *)
Definition change_mode_command (mode : string) : T dict :=
  match mode_map !! mode with
  | Some name =>
      modify (set_current_mode name);;
      do (EvLabel "mode_label" ("Mode: " ++ name));;
      mret (list_to_map
              [ ("success", VBool true);
                ("result", VStr ("✓ Switched to " ++ name ++ " mode")) ])
  | None =>
      mret (list_to_map
              [ ("success", VBool false);
                ("result", VNone);
                ("error", VStr ("Unknown mode: " ++ mode)) ])
  end.

(** The second half of [execute_math_command]: the engine when there is
    one, with the local evaluator as its fallback, and the local
    evaluator alone otherwise. *)
Definition engine_then_fallback (command : string) : T dict :=
  (* Try C++ engine for complex operations *)
  g ← get;
  match (if engine_available g then cpp_engine g else None) with
  | Some engine =>
      cpp_result ← execute_command engine command;
      if truth (cpp_result !! "success") then mret cpp_result
      else
        (* If C++ fails, try Python fallback *)
        fallback_result ← python_math_fallback command;
        if truth (fallback_result !! "success")
        then mret (<["cpp_failed" := VBool true]> fallback_result)
        else mret cpp_result
  | None =>
      (* Pure Python fallback *)
      python_math_fallback command
  end.

(** [execute_math_command] *)
Definition execute_math_command (command : string) : T dict :=
  if String.eqb (PyStr.lower command) "help" then
    do (EvAfter "show_help");;
    mret (list_to_map
            [ ("success", VBool true);
              ("result", VStr "Help dialog opened");
              ("special", VBool true) ])
  else if PyStr.startswith "mode " (PyStr.lower command) then
    match PyStr.after_first " " command with
    | Some mode => change_mode_command mode
    | None => raise (PyExc OtherException "list index out of range")
    end
  else if bool_decide (PyStr.lower command ∈ ["python"; "py"; "repl"]) then
    modify (set_python_repl_mode true);;
    mret (list_to_map
            [ ("success", VBool true);
              ("result",
               VStr ("=== Python Interactive REPL Mode ===" ++
                     String PyStr.newline "Type exit() to return to calculator mode"));
              ("mode_change", VBool true) ])
  else
    (* Smart fallback: Try Python first for simple arithmetic (faster) *)
    fast ←
      (if is_simple_arithmetic command then
         fallback_result ← python_math_fallback command;
         if truth (fallback_result !! "success")
         then mret (Some (<["fast_eval" := VBool true]> fallback_result))
         else mret None
       else mret None);
    match fast with
    | Some fallback_result => mret fallback_result      (* return *)
    | None => engine_then_fallback command
    end.

(** The success branch of [handle_command_result]: how a result is
    shown. *)
Definition show_result (result : dict) : T unit :=
  if truth (result !! "result") then
    let result_text := fmt (default VNone (result !! "result")) in
    let exec_time :=                 (* result.get('execution_time', 0) *)
      match result !! "execution_time" with
      | Some t => fmt t
      | None => "0"
      end in
    if truth (result !! "senna_speed") then
      do (EvOutput ("🏎️ " ++ result_text ++ " (SENNA SPEED: " ++ exec_time ++ "ms!)") "result")
    else if truth (result !! "f1_speed") then
      do (EvOutput ("🏁 " ++ result_text ++ " (F1 SPEED: " ++ exec_time ++ "ms)") "result")
    else if truth (result !! "execution_time") then
      do (EvOutput ("🚀 " ++ result_text ++ " (C++ engine: " ++ exec_time ++ "ms)") "result")
    else if truth (result !! "fast_eval") then
      do (EvOutput ("⚡ " ++ result_text ++ " (Fast Python)") "result")
    else if truth (result !! "fallback") then
      do (EvOutput ("🐍 " ++ result_text ++ " (Python fallback)") "result")
    else if truth (result !! "cpp_failed") then
      do (EvOutput ("🐍 " ++ result_text ++ " (C++ timeout → Python)") "result")
    else if truth (result !! "is_python") then
      do (EvOutput (">>> " ++ result_text) "result")
    else
      do (EvOutput ("🚀 " ++ result_text ++ " (C++ engine)") "result")
  else mret tt.

(** The last lines of [handle_command_result], also run before the
    early [return]. *)
Definition clear_unless_repl (result : dict) : T unit :=
  g ← get;
  if negb (python_repl_mode g) && negb (truth (result !! "special"))
  then do EvClearInput
  else mret tt.

(** [handle_command_result] *)
Definition handle_command_result (result : dict) (command : string) : T unit :=
  do EvProgressStop;;
  (if truth (result !! "mode_change") then
     g ← get;
     if python_repl_mode g
     then do (EvLabel "input_mode_label" "🐍 Python REPL")
     else do (EvLabel "input_mode_label" "Normal Mode")
   else mret tt);;
  match result !! "success" with
  | None => raise (PyExc OtherException "'success'")
  | Some success =>
      if truth (Some success) then
        show_result result;;
        do (EvStatus "Ready");;
        clear_unless_repl result
      else
        let error_msg := fmt (default (VStr "Unknown error") (result !! "error")) in
        returned ←
          (if truth (result !! "fallback_needed") then
             (* Try Python fallback automatically for this specific command *)
             try_except
               (fallback_result ← python_math_fallback command;
                if truth (fallback_result !! "success") then
                  let result_text := fmt (default VNone (fallback_result !! "result")) in
                  do (EvOutput ("🐍 " ++ result_text ++ " (Auto-fallback)") "result");;
                  do (EvStatus "Ready");;
                  clear_unless_repl result;;
                  mret true                 (* return: fallback worked *)
                else mret false)
               (fun _ => mret false)
           else mret false);
        if returned : bool then mret tt
        else
          do (EvOutput ("❌ Error: " ++ error_msg) "error");;
          do (EvStatus "Ready");;
          clear_unless_repl result
  end.

End Calculator.
End GUI.

(** ** A fragment of Python's expressions

    [eval] is a builtin of the interpreter, not code of the repository.
    To run the GUI's code on concrete commands, this module gives the
    meaning of a small fragment of Python's expression language: decimal
    integer literals, names, parentheses, unary and binary [+] and [-],
    [*], and the short-circuit operators [and] and [or], evaluated from
    left to right as CPython does.  Whatever lies outside the fragment is
    answered by the exception [unmodelled]. *)

Module PyFragment.
Import GUI.

Inductive token : Type :=
| TNum (digits : string)
| TName (name : string)
| TSym (c : ascii).

Definition is_letter (c : ascii) : bool :=
  let n := nat_of_ascii c in
  ((65 <=? n) && (n <=? 90) || (97 <=? n) && (n <=? 122) || (n =? 95))%nat.

Definition is_symbol (c : ascii) : bool :=
  Ascii.eqb c "+" || Ascii.eqb c "-" || Ascii.eqb c "*" ||
  Ascii.eqb c "(" || Ascii.eqb c ")".

(** The token being read. *)
Inductive lexing : Type :=
| Idle
| InNum (digits : string)
| InName (name : string).

Definition flush (st : lexing) : list token :=
  match st with
  | Idle => []
  | InNum d => [TNum d]
  | InName x => [TName x]
  end.

(** A character met between tokens. *)
Definition lex_start (c : ascii) : option (list token * lexing) :=
  if Ascii.eqb c " " then Some ([], Idle)
  else if PyStr.is_digit c then Some ([], InNum (String c EmptyString))
  else if is_letter c then Some ([], InName (String c EmptyString))
  else if is_symbol c then Some ([TSym c], Idle)
  else None.

Fixpoint lex (s : string) (st : lexing) : option (list token) :=
  match s with
  | EmptyString => Some (flush st)
  | String c s' =>
      match st with
      | InNum d =>
          if PyStr.is_digit c then lex s' (InNum (d ++ String c EmptyString))
          else if is_letter c || Ascii.eqb c "." then None
          else '(toks, st') ← lex_start c;
               rest ← lex s' st';
               Some (TNum d :: app toks rest)
      | InName x =>
          if is_letter c || PyStr.is_digit c
          then lex s' (InName (x ++ String c EmptyString))
          else '(toks, st') ← lex_start c;
               rest ← lex s' st';
               Some (TName x :: app toks rest)
      | Idle =>
          '(toks, st') ← lex_start c;
          rest ← lex s' st';
          Some (app toks rest)
      end
  end.

Inductive expr : Type :=
| ENum (z : Z)
| EName (x : string)
| EPos (a : expr)
| ENeg (a : expr)
| EAdd (a b : expr)
| ESub (a b : expr)
| EMul (a b : expr)
| EAnd (a b : expr)
| EOr (a b : expr).

Definition keywords : list string :=
  [ "False"; "None"; "True"; "and"; "as"; "assert"; "async"; "await";
    "break"; "class"; "continue"; "def"; "del"; "elif"; "else"; "except";
    "finally"; "for"; "from"; "global"; "if"; "import"; "in"; "is";
    "lambda"; "nonlocal"; "not"; "or"; "pass"; "raise"; "return"; "try";
    "while"; "with"; "yield" ].

Definition digit_value (c : ascii) : Z := Z.of_nat (nat_of_ascii c) - 48.

Fixpoint number_value (acc : Z) (digits : string) : Z :=
  match digits with
  | EmptyString => acc
  | String c d => number_value (10 * acc + digit_value c) d
  end.

(** A decimal literal; one with a leading zero is left out. *)
Definition literal (digits : string) : option Z :=
  match digits with
  | String "0" (String _ _) => None
  | _ => Some (number_value 0 digits)
  end.

(** Recursive descent, lowest precedence first:
    [or], [and], [+ -], [*], unary [+ -], atoms. *)
Fixpoint parse_or (fuel : nat) (ts : list token) : option (expr * list token) :=
  match fuel with
  | O => None
  | S fuel' =>
      let parse_atom (ts : list token) : option (expr * list token) :=
        match ts with
        | TNum d :: ts' => z ← literal d; Some (ENum z, ts')
        | TName x :: ts' =>
            if bool_decide (x ∈ keywords) then None else Some (EName x, ts')
        | TSym "(" :: ts' =>
            '(e, ts'') ← parse_or fuel' ts';
            match ts'' with
            | TSym ")" :: ts''' => Some (e, ts''')
            | _ => None
            end
        | _ => None
        end in
      let fix parse_unary (n : nat) (ts : list token) : option (expr * list token) :=
        match n with
        | O => None
        | S n' =>
            match ts with
            | TSym "-" :: ts' => '(e, r) ← parse_unary n' ts'; Some (ENeg e, r)
            | TSym "+" :: ts' => '(e, r) ← parse_unary n' ts'; Some (EPos e, r)
            | _ => parse_atom ts
            end
        end in
      let fix more_prod (n : nat) (lhs : expr) (ts : list token) : option (expr * list token) :=
        match n with
        | O => None
        | S n' =>
            match ts with
            | TSym "*" :: ts' =>
                '(rhs, r) ← parse_unary fuel ts'; more_prod n' (EMul lhs rhs) r
            | _ => Some (lhs, ts)
            end
        end in
      let parse_prod (ts : list token) :=
        '(lhs, r) ← parse_unary fuel ts; more_prod fuel lhs r in
      let fix more_sum (n : nat) (lhs : expr) (ts : list token) : option (expr * list token) :=
        match n with
        | O => None
        | S n' =>
            match ts with
            | TSym "+" :: ts' => '(rhs, r) ← parse_prod ts'; more_sum n' (EAdd lhs rhs) r
            | TSym "-" :: ts' => '(rhs, r) ← parse_prod ts'; more_sum n' (ESub lhs rhs) r
            | _ => Some (lhs, ts)
            end
        end in
      let parse_sum (ts : list token) :=
        '(lhs, r) ← parse_prod ts; more_sum fuel lhs r in
      let fix more_and (n : nat) (lhs : expr) (ts : list token) : option (expr * list token) :=
        match n with
        | O => None
        | S n' =>
            match ts with
            | TName "and" :: ts' => '(rhs, r) ← parse_sum ts'; more_and n' (EAnd lhs rhs) r
            | _ => Some (lhs, ts)
            end
        end in
      let parse_and (ts : list token) :=
        '(lhs, r) ← parse_sum ts; more_and fuel lhs r in
      let fix more_or (n : nat) (lhs : expr) (ts : list token) : option (expr * list token) :=
        match n with
        | O => None
        | S n' =>
            match ts with
            | TName "or" :: ts' => '(rhs, r) ← parse_and ts'; more_or n' (EOr lhs rhs) r
            | _ => Some (lhs, ts)
            end
        end in
      '(lhs, r) ← parse_and ts; more_or fuel lhs r
  end.

(** The expression a command stands for, when it lies in the fragment. *)
Definition parse (command : string) : option expr :=
  ts ← lex command Idle;
  '(e, rest) ← parse_or (S (length ts)) ts;
  match rest with
  | [] => Some e
  | _ :: _ => None
  end.

Inductive value : Type :=
| VInt (z : Z)
| VObj (o : pyobj).

(** [bool(v)] *)
Definition truthy (v : value) : bool :=
  match v with
  | VInt z => negb (z =? 0)
  | VObj EmptyDict => false
  | VObj _ => true
  end.

Inductive result : Type :=
| Ok (v : value)
| Err (e : pyexc)
| Unmodelled.

Definition NameError (x : string) : pyexc :=
  PyExc OtherException ("name '" ++ x ++ "' is not defined").

Definition arith (f : Z -> Z -> Z) (a b : result) : result :=
  match a with
  | Ok (VInt x) =>
      match b with
      | Ok (VInt y) => Ok (VInt (f x y))
      | Ok (VObj _) => Unmodelled
      | other => other
      end
  | Ok (VObj _) =>
      match b with
      | Ok _ => Unmodelled
      | other => other
      end
  | other => other
  end.

Definition arith1 (f : Z -> Z) (a : result) : result :=
  match a with
  | Ok (VInt x) => Ok (VInt (f x))
  | Ok (VObj _) => Unmodelled
  | other => other
  end.

Fixpoint eval_expr (env : gmap string pyobj) (e : expr) : result :=
  match e with
  | ENum z => Ok (VInt z)
  | EName x =>
      match env !! x with
      | Some o => Ok (VObj o)
      | None => Err (NameError x)
      end
  | EPos a => arith1 (fun x => x) (eval_expr env a)
  | ENeg a => arith1 Z.opp (eval_expr env a)
  | EAdd a b =>
      match eval_expr env a with
      | Ok va => arith Z.add (Ok va) (eval_expr env b)
      | other => other
      end
  | ESub a b =>
      match eval_expr env a with
      | Ok va => arith Z.sub (Ok va) (eval_expr env b)
      | other => other
      end
  | EMul a b =>
      match eval_expr env a with
      | Ok va => arith Z.mul (Ok va) (eval_expr env b)
      | other => other
      end
  | EAnd a b =>
      match eval_expr env a with
      | Ok va => if truthy va then eval_expr env b else Ok va
      | other => other
      end
  | EOr a b =>
      match eval_expr env a with
      | Ok va => if truthy va then Ok va else eval_expr env b
      | other => other
      end
  end.

(** The names the evaluation of an expression looks up, in order. *)
Fixpoint lookups (env : gmap string pyobj) (e : expr) : list string :=
  let then_ (a b : expr) :=
    app (lookups env a)
      match eval_expr env a with
      | Ok _ => lookups env b
      | _ => []
      end in
  match e with
  | ENum _ => []
  | EName x => [x]
  | EPos a | ENeg a => lookups env a
  | EAdd a b | ESub a b | EMul a b => then_ a b
  | EAnd a b =>
      app (lookups env a)
        match eval_expr env a with
        | Ok va => if truthy va then lookups env b else []
        | _ => []
        end
  | EOr a b =>
      app (lookups env a)
        match eval_expr env a with
        | Ok va => if truthy va then [] else lookups env b
        | _ => []
        end
  end.

Definition unmodelled : pyexc :=
  PyExc OtherException "outside the modelled fragment".

(** The fragment as an interpreter. *)
Definition fragment_eval (command : string) (env : gmap string pyobj)
  : outcome value :=
  match parse command with
  | Some e =>
      match eval_expr env e with
      | Ok v => Ret v
      | Err e => Raise e
      | Unmodelled => Raise unmodelled
      end
  | None => Raise unmodelled
  end.

(** [str] of an integer of moderate size. *)
Definition fragment_str (v : value) : outcome string :=
  match v with
  | VInt z => if Z.abs z <? 10 ^ 1000 then Ret (pretty z) else Raise unmodelled
  | VObj _ => Raise unmodelled
  end.

Definition python : Python :=
  {| Value := value; py_eval := fragment_eval; py_str := fragment_str |}.

End PyFragment.


(** ** Vocabulary of the statements about the QA suite *)

Module QASpec.
Import QA.

(** A run that ended in a crash: it returned, with a negative code. *)
Definition crashed (o : outcome CompletedProcess) : bool :=
  match o with
  | Ret result => returncode result <? 0
  | Raise _ => false
  end.

(** How the runs of [path] on each of [inputs] end, the first of them
    after [k] earlier runs. *)
Fixpoint outcomes (E : Env) (k : nat) (path : string) (inputs : list string)
  : list (outcome CompletedProcess) :=
  match inputs with
  | [] => []
  | input :: rest =>
      (subprocess_run E k [path; input]).2 :: outcomes E (S k) path rest
  end.

Definition crash_count (os : list (outcome CompletedProcess)) : nat :=
  length (filter (fun o => Is_true (crashed o)) os).

(** The buffer after the reads [new] were appended to [response]. *)
Definition accumulate (response : string) (new : list (Z * string)) : string :=
  fold_left (fun buf tc => buf ++ tc.2) new response.

(** The state after [time.sleep(0.01)]. *)
Definition slept (E : Env) (s : State) : State :=
  advance (10000 + oversleep E (sleeps s)) (count_sleep s).

(** What the reading loop of the handshake leaves alone. *)
Definition loop_frame (s s' : State) : Prop :=
  results s' = results s ∧ run_log s' = run_log s ∧
  stdin_log s' = stdin_log s ∧ terminated s' = terminated s ∧
  clock s ≤ clock s'.

(** What the reading loop does, started in state [s] with the buffer
    [response], when it ends as [r].  The reads it makes are logged in
    order; each was started inside the window of five seconds and while
    the buffer held no sentinel; the final buffer is the old one followed
    by what the reads returned.  A loop that ends with a buffer without
    the sentinel has run out of its window; one that an exception cuts
    short has no sentinel in its buffer; one that runs out of [fuel] had
    too little of it for the window. *)
Definition loop_post (start_time : Z) (response : string) (s : State)
  (fuel : nat) (r : outcome (option string) * State) : Prop :=
  ∃ new : list (Z * string),
    loop_frame s r.2 ∧
    read_log r.2 = (read_log s ++ new)%list ∧
    Forall (fun tc => tc.1 - start_time < 5000000) new ∧
    (∀ before after, new = (before ++ after)%list → after ≠ [] →
       PyStr.contains SENTINEL (accumulate response before) = false) ∧
    match r.1 with
    | Ret (Some buffer) =>
        buffer = accumulate response new ∧
        (PyStr.contains SENTINEL buffer = false →
         5000000 ≤ clock r.2 - start_time)
    | Ret None =>
        fuel = 0%nat ∨
        clock s - start_time + 10000 * (Z.of_nat fuel - 1) < 5000000
    | Raise e =>
        PyStr.contains SENTINEL (accumulate response new) = false
    end.

(** The value of [start_time] in a handshake entered in state [s]: the
    clock after the pause of two seconds. *)
Definition handshake_start (E : Env) (s : State) : Z :=
  clock s + Z.of_N (2000000 + oversleep E (sleeps s)).

(** What a handshake leaves alone: the log of runs, and all recorded
    results but its own. *)
Definition handshake_frame (s s' : State) : Prop :=
  run_log s' = run_log s ∧
  performance_tests (results s') = performance_tests (results s) ∧
  functional_tests (results s') = functional_tests (results s) ∧
  security_tests (results s') = security_tests (results s) ∧
  ∀ k, k ≠ "daemon_handshake" →
       architecture_tests (results s') !! k = architecture_tests (results s) !! k.

(** The state in which the reading loop of a handshake is entered. *)
Definition loop_entry (E : Env) (s : State) : State :=
  log_stdin test_command
    (advance (2000000 + oversleep E (sleeps s)) (count_sleep s)).

(** A run of the latency test that counts as good. *)
Definition calc_ok (o : outcome CompletedProcess) : bool :=
  match o with
  | Ret result => (returncode result =? 0) && PyStr.contains "2" (stdout result)
  | Raise _ => false
  end.

(** Whether a run returned at all. *)
Definition returned (o : outcome CompletedProcess) : bool :=
  match o with
  | Ret _ => true
  | Raise _ => false
  end.

(** The number of leading elements that satisfy [f]. *)
Fixpoint leading {A} (f : A -> bool) (l : list A) : nat :=
  match l with
  | x :: l' => if f x then S (leading f l') else 0
  | [] => 0
  end.

(** The eighth claim of the specification, read to the letter: the latency
    test makes its hundred runs of [1+1], and the throughput test records
    PASS exactly when the resident memory of the test process has grown
    by less than 100 MiB over the runs the test made. *)
Definition repeated_invocation_as_stated
  (E : Env) (axiom_path : option string) (s : State) : Prop :=
  let s1 := (test_latency_ping E axiom_path s).2 in
  let s2 := (test_throughput_flood E axiom_path s).2 in
  run_log s1 = (run_log s ++ repeat [path_arg axiom_path; "1+1"] 100)%list ∧
  (performance_tests (results s2) !! "throughput" = Some "PASS" ↔
   memory_rss E (runs s2) - memory_rss E (runs s) < 100 * 1024 * 1024).

End QASpec.

(** ** Sample worlds *)

Module Samples.
Import QA.

Definition timeout : pyexc :=
  PyExc TimeoutExpired "Command '['build/axiom', '1+1']' timed out after 1 seconds".

(** The characters a well-behaved daemon answers [2+2] with. *)
Definition daemon_answer : list string :=
  map (fun c => String c EmptyString) (list_ascii_of_string "4__END_OF_RESPONSE__").

(** An engine that computes: it identifies itself, knows the answers the
    suite asks for, and as a daemon it answers at once. *)
Definition env_good : Env :=
  {| subprocess_run := fun _ argv =>
       (2000%N,
        Ret {| returncode := 0;
               stdout :=
                 match argv with
                 | [_; "--help"] => "AXIOM Engine v3.0"
                 | [_; "2 * 3"] => "6"
                 | [_; "1+1"] => "2"
                 | _ => "0"
                 end;
               stderr := "" |});
     memory_rss := fun k => 50000000 + 4096 * Z.of_nat k;
     popen := fun _ => None;
     daemon_poll := None;
     stdin_write := fun _ => None;
     stdin_flush := None;
     stdout_readable := fun _ => true;
     stdout_read1 := fun k => (100%N, Ret (nth k daemon_answer ""));
     oversleep := fun _ => 50%N;
     path_exists := fun _ => false;
     read_text := fun _ => Ret "" |}.

(** An engine that hangs: every run ends in [TimeoutExpired], and the
    daemon never writes anything.  The test process does not grow. *)
Definition env_hanging : Env :=
  {| subprocess_run := fun _ _ => (1000000%N, Raise timeout);
     memory_rss := fun _ => 50000000;
     popen := fun _ => None;
     daemon_poll := None;
     stdin_write := fun _ => None;
     stdin_flush := None;
     stdout_readable := fun _ => false;
     stdout_read1 := fun _ => (0%N, Ret "");
     oversleep := fun _ => 0%N;
     path_exists := fun _ => false;
     read_text := fun _ => Ret "" |}.

Definition found : option string := Some "build/axiom".

End Samples.

(** ** Vocabulary of the statements about the GUI *)

Module GUISpec.
Import GUI.

(** The engine invocation fails: there is no executable, or the run
    raises (a timeout or any other exception), or it exits with a code
    other than zero. *)
Definition engine_failed
  (subprocess_run : nat -> list string -> N * outcome CompletedProcess)
  (self : CppEngineInterface) (command : string) (g : Gui) : bool :=
  match executable_path self with
  | None | Some EmptyString => true
  | Some path =>
      match (subprocess_run (runs g) [path; command]).2 with
      | Ret result => negb (returncode result =? 0)
      | Raise _ => true
      end
  end.

(** The environment [python_math_fallback] evaluates in, for a GUI in
    state [g]. *)
Definition fallback_env (g : Gui) : gmap string pyobj :=
  safe_dict (default false (available_packages g !! "numpy")).

(** What [python_math_fallback] answers when evaluation succeeded with
    the text [text], and when it raised [e]. *)
Definition fallback_success (text : string) : gmap string pyval :=
  list_to_map
    [ ("success", VBool true); ("result", VStr text); ("fallback", VBool true) ].

Definition fallback_failure (e : pyexc) : gmap string pyval :=
  list_to_map
    [ ("success", VBool false); ("result", VNone); ("error", VStr (exc_str e)) ].

(** What [CppEngineInterface.execute_command] answers when the engine
    invocation failed, [msg] being the error text. *)
Definition engine_failure (msg : string) : gmap string pyval :=
  list_to_map
    [ ("success", VBool false); ("error", VStr msg);
      ("fallback_needed", VBool true) ].

(** What [handle_command_result] does when the automatic fallback has
    produced [text]. *)
Definition auto_fallback_events (g : Gui) (command text : string) : list event :=
  [ EvProgressStop;
    EvEval command (fallback_env g);
    EvOutput ("🐍 " ++ text ++ " (Auto-fallback)") "result";
    EvStatus "Ready" ]
  ++ (if python_repl_mode g then [] else [EvClearInput]).

(** The characters a simple-arithmetic command can start with. *)
Definition starts_simple (c : ascii) : bool :=
  PyStr.is_space c || PyStr.is_digit c || Ascii.eqb c "(".

(** The names that occur in an expression of the fragment. *)
Fixpoint names (e : PyFragment.expr) : list string :=
  match e with
  | PyFragment.ENum _ => []
  | PyFragment.EName x => [x]
  | PyFragment.EPos a | PyFragment.ENeg a => names a
  | PyFragment.EAdd a b | PyFragment.ESub a b | PyFragment.EMul a b
  | PyFragment.EAnd a b | PyFragment.EOr a b => app (names a) (names b)
  end.

(** The last part of the tenth claim of the specification, read to the
    letter, for a command of the fragment: whenever the expression
    mentions a name that the environment does not bind, the fallback
    answers with a failure and an error message. *)
Definition name_rule_as_stated (g : Gui) (command : string) : Prop :=
  ∀ e x,
    PyFragment.parse command = Some e →
    x ∈ names e →
    fallback_env g !! x = None →
    ∃ d msg,
      (python_math_fallback PyFragment.python command g).1 = Ret d ∧
      d !! "success" = Some (VBool false) ∧
      d !! "error" = Some (VStr msg).

End GUISpec.

(** ** Sample calculators *)

Module GUISamples.
Import GUI.

(** A calculator that found its engine, without any scientific package. *)
Definition gui_start : Gui :=
  {| cpp_engine := Some {| executable_path := Some "build/cpp_dynamic_calc" |};
     engine_available := true;
     current_mode := "ALGEBRAIC";
     python_repl_mode := false;
     available_packages :=
       list_to_map [ ("numpy", false); ("scipy", false); ("matplotlib", false);
                     ("pandas", false); ("sympy", false) ];
     runs := 0;
     trace := [] |}.

(** An engine that rejects everything with exit code 1. *)
Definition engine_rejecting (k : nat) (argv : list string)
  : N * outcome CompletedProcess :=
  (1500%N, Ret {| returncode := 1; stdout := ""; stderr := "Error: parse error" |}).

(** An engine that answers 42 to everything, in two milliseconds. *)
Definition engine_42 (k : nat) (argv : list string)
  : N * outcome CompletedProcess :=
  (2000%N, Ret {| returncode := 0; stdout := "42"; stderr := "" |}).

End GUISamples.

(** ** The rest of the QA suite: [src/axiom_qa_test_suite.py] *)

Module QAFull.
Import QA.

(** [find_axiom_executable]: the candidates, in the order in which they
    are tried. *)
Definition possible_paths : list string :=
  [ "ninja-build/axiom.exe"; "build/axiom.exe"; "build/Debug/axiom.exe";
    "build/Release/axiom.exe"; "cmake-build-debug/axiom.exe";
    "build-ninja/axiom.exe"; "axiom.exe"; "build/axiom"; "build/Debug/axiom";
    "cmake-build-debug/axiom"; "build-ninja/axiom"; "ninja-build/axiom";
    "axiom" ].

(** The [for path in possible_paths] loop. *)
Fixpoint first_existing (E : Env) (paths : list string) : option string :=
  match paths with
  | [] => None
  | path :: rest => if path_exists E path then Some path else first_existing E rest
  end.

Definition find_axiom_executable (E : Env) : option string :=
  first_existing E possible_paths.

(** How [generate_report] reads one recorded result. *)
Inductive verdict : Type := Passed | Failed | Neither.

Definition classify (result : string) : verdict :=
  if PyStr.contains "PASS" result then Passed
  else if PyStr.contains "FAIL" result then Failed
  else Neither.

Definition is_passed (result : string) : bool :=
  match classify result with Passed => true | _ => false end.

Definition is_failed (result : string) : bool :=
  match classify result with Failed => true | _ => false end.

(** The recorded results of all sections. *)
Definition entries (r : Results) : list string :=
  ((map_to_list (architecture_tests r)).*2 ++
   (map_to_list (performance_tests r)).*2 ++
   (map_to_list (functional_tests r)).*2 ++
   (map_to_list (security_tests r)).*2)%list.

Definition total_tests (r : Results) : nat := length (entries r).
Definition passed_tests (r : Results) : nat :=
  length (filter (fun v => Is_true (is_passed v)) (entries r)).
Definition failed_tests (r : Results) : nat :=
  length (filter (fun v => Is_true (is_failed v)) (entries r)).

Definition SUCCESS : string := "🎉 AXIOM TRANSFORMATION: SUCCESS".
Definition PARTIAL_SUCCESS : string := "⚠️ AXIOM TRANSFORMATION: PARTIAL SUCCESS".
Definition FAILURE : string := "💥 AXIOM TRANSFORMATION: FAILURE".

(** [pass_rate = (passed_tests / total_tests * 100) if total_tests > 0
    else 0], compared with a bound [b]: [pass_rate >= b] is
    [b * total_tests <= 100 * passed_tests] when there are tests. *)
Definition pass_rate_ge (b : Z) (passed total : nat) : bool :=
  if (0 <? total)%nat
  then b * Z.of_nat total <=? 100 * Z.of_nat passed
  else b <=? 0.

Definition assessment (passed total : nat) : string :=
  if pass_rate_ge 80 passed total then SUCCESS
  else if pass_rate_ge 60 passed total then PARTIAL_SUCCESS
  else FAILURE.

Definition set_overall_status (status : string) (r : Results) : Results :=
  {| architecture_tests := architecture_tests r;
     performance_tests := performance_tests r;
     functional_tests := functional_tests r;
     security_tests := security_tests r;
     overall_status := status |}.

Section Suite.
Variable E : Env.
Variable axiom_path : option string.
(** [json.dump(self.results, f, indent=2)] into the freshly opened report
    file: the exception it raises, if any. *)
Variable write_report : Results -> option pyexc.

Abbreviation T := (M State).

(** [subprocess.run([self.axiom_path, arg], ...)] where nothing has
    checked the path: [None] in an argument vector is a [TypeError]. *)
Definition run_unchecked (arg : string) : T CompletedProcess :=
  match axiom_path with
  | None =>
      raise (PyExc OtherException
               "expected str, bytes or os.PathLike object, not NoneType")
  | Some path => run E [path; arg]
  end.

(** [test_concurrency_stress] *)
Definition test_concurrency_stress : T unit :=
  record_performance "concurrency" "NOT_IMPLEMENTED".

(** [section_2_performance_stress_testing] *)
Definition section_2_performance_stress_testing : T unit :=
  test_latency_ping E axiom_path;;
  test_throughput_flood E axiom_path;;
  test_concurrency_stress.

Definition symbolic_test_cases : list (string * string) :=
  [ ("symbolic", "Expected mode switch confirmation") ].

(** The loop of [test_symbolic_core], with the flag [symbolic_working]
    passed through. *)
Fixpoint symbolic_loop (cases : list (string * string)) (symbolic_working : bool)
  : T bool :=
  match cases with
  | [] => mret symbolic_working
  | (test_input, expected) :: rest =>
      working ←
        try_except
          (result ← run E [path_arg axiom_path; test_input];
           if returncode result =? 0 then mret true else mret symbolic_working)
          (fun e => mret symbolic_working);
      symbolic_loop rest working
  end.

(** [test_symbolic_core] *)
Definition test_symbolic_core : T unit :=
  if path_missing axiom_path then mret tt
  else
    symbolic_working ← symbolic_loop symbolic_test_cases false;
    record_functional "symbolic" (if symbolic_working : bool then "PARTIAL" else "FAIL").

(** [test_precision_check]: the one test that does not look at
    [self.axiom_path] first. *)
Definition test_precision_check : T unit :=
  try_except
    (result ← run_unchecked "0.1 + 0.2";
     if returncode result =? 0
     then record_functional "precision" "PASS"
     else record_functional "precision" "FAIL")
    (fun e => record_functional "precision" ("FAIL - " ++ exc_str e)).

(** [section_3_functional_audit] *)
Definition section_3_functional_audit : T unit :=
  test_symbolic_core;;
  test_linear_algebra E axiom_path;;
  test_precision_check.

(** [generate_report].  The Python function returns nothing; the
    embedding hands back the dictionary that was written to the report
    file. *)
Definition generate_report : T Results :=
  r ← gets results;
  let total_tests := total_tests r in
  let passed_tests := passed_tests r in
  let overall_status := assessment passed_tests total_tests in
  modify (with_results (set_overall_status overall_status));;
  report ← gets results;
  match write_report report with
  | Some e => raise e
  | None => mret report
  end.

(** [run_full_test_suite] *)
Definition run_full_test_suite : T Results :=
  section_1_architecture_verification E axiom_path;;
  section_2_performance_stress_testing;;
  section_3_functional_audit;;
  section_4_security_stability E axiom_path;;
  generate_report.

End Suite.

(** The main program: a fresh suite object, whose constructor looks for
    the executable, runs the full suite. *)
Definition main (E : Env) (write_report : Results -> option pyexc) (t0 : Z)
  : outcome Results * State :=
  run_full_test_suite E (find_axiom_executable E) write_report (initial_state t0).

End QAFull.

(** ** Vocabulary of the statements about the whole suite *)

Module QAFullSpec.
Import QA QAFull.

(** The computation [m] always returns, after having recorded some text
    under the key [k] of one section, and nothing else. *)
Definition records {A} (set : string -> string -> Results -> Results)
  (k : string) (m : M State A) : Prop :=
  ∀ s, ∃ a v s', m s = (Ret a, s') ∧ results s' = set k v (results s).

(** The results of a suite that ran through all its tests on a fresh
    object: eleven entries, two of which are fixed texts. *)
Definition complete_results (a1 a2 a3 p1 p2 f1 f2 f3 s1 s2 status : string)
  : Results :=
  {| architecture_tests :=
       <["namespace_purity" := a3]>
         (<["daemon_handshake" := a2]> (<["binary_identity" := a1]> ∅));
     performance_tests :=
       <["concurrency" := "NOT_IMPLEMENTED"]>
         (<["throughput" := p2]> (<["latency" := p1]> ∅));
     functional_tests :=
       <["precision" := f3]>
         (<["linear_algebra" := f2]> (<["symbolic" := f1]> ∅));
     security_tests :=
       <["buffer_overflow" := s2]> (<["fuzzing" := s1]> ∅);
     overall_status := status |}.

End QAFullSpec.

(** ** Vocabulary for the verdict of the core architecture test *)

Module CoreSpec.
Import QA CoreTest.

(** What the first test looks for in the answer to [--help]. *)
Definition confirmed (o : outcome CompletedProcess) : bool :=
  match o with
  | Ret result => PyStr.contains "AXIOM Engine v3.0" (stdout result)
  | Raise _ => false
  end.

(** A run that scores in the second test. *)
Definition operation_ok (expected : string) (o : outcome CompletedProcess) : bool :=
  match o with
  | Ret result => (returncode result =? 0) && PyStr.contains expected (stdout result)
  | Raise _ => false
  end.

(** A run that scores in the fourth test. *)
Definition feature_ok (keyword : string) (o : outcome CompletedProcess) : bool :=
  match o with
  | Ret result =>
      PyStr.contains (PyStr.lower keyword) (PyStr.lower (stdout result))
      || (returncode result =? 0)
  | Raise _ => false
  end.

(** The scoring runs among the answers of the engine, the first of them
    being run number [k]. *)
Fixpoint operations_passed (E : Env) (axiom_path : string) (k : nat)
  (cases : list (string * string)) : nat :=
  match cases with
  | [] => 0
  | (expr, expected) :: rest =>
      (if operation_ok expected (subprocess_run E k [axiom_path; expr]).2
       then 1 else 0)
      + operations_passed E axiom_path (S k) rest
  end.

Fixpoint features_passed (E : Env) (axiom_path : string) (k : nat)
  (tests : list (string * string)) : nat :=
  match tests with
  | [] => 0
  | (flag, keyword) :: rest =>
      (if feature_ok keyword (subprocess_run E k [axiom_path; flag]).2
       then 1 else 0)
      + features_passed E axiom_path (S k) rest
  end.

(** The score of a test whose [--help] run is run number [k]: the four
    operations are runs [k+1] to [k+4], the ten timed runs follow, and the
    enterprise feature is run [k+15]. *)
Definition total_score (E : Env) (axiom_path : string) (k : nat) : nat :=
  operations_passed E axiom_path (k + 1) test_cases
  + features_passed E axiom_path (k + 15) enterprise_tests.

(** The sixteen argument vectors of a test that gets past the first. *)
Definition all_runs (axiom_path : string) : list (list string) :=
  ([[axiom_path; "--help"]]
   ++ map (fun c => [axiom_path; c.1]) test_cases
   ++ replicate 10 [axiom_path; "2+2"]
   ++ map (fun t => [axiom_path; t.1]) enterprise_tests)%list.

End CoreSpec.

(** ** Sample worlds with builds on disk *)

Module CoreSamples.
Import QA.

(** The world [E] with other files on disk. *)
Definition with_paths (on_disk : string -> bool) (E : Env) : Env :=
  {| subprocess_run := subprocess_run E; memory_rss := memory_rss E;
     popen := popen E; daemon_poll := daemon_poll E;
     stdin_write := stdin_write E; stdin_flush := stdin_flush E;
     stdout_readable := stdout_readable E; stdout_read1 := stdout_read1 E;
     oversleep := oversleep E; path_exists := on_disk;
     read_text := read_text E |}.

(** A CLion debug build next to a release build. *)
Definition env_two_builds : Env :=
  with_paths (fun path => String.eqb path "cmake-build-debug/axiom.exe"
                          || String.eqb path "build/Release/axiom.exe")
             Samples.env_good.

(** A single Ninja build. *)
Definition env_ninja : Env :=
  with_paths (String.eqb "ninja-build/axiom.exe") Samples.env_good.

End CoreSamples.

(** ** The rest of the calculator GUI: the Python REPL and the worker
       thread of [src/gui/python/ogulator_gui.py] *)

Module GUIFull.
Import GUI.

(** What a call into the interpreter can throw.  [except Exception]
    catches the first two kinds and lets the third pass. *)
Inductive thrown : Type :=
| SyntaxError (msg : string)
| OtherError (e : pyexc)              (* another class deriving from Exception *)
| NotAnException (name : string).     (* SystemExit, KeyboardInterrupt, GeneratorExit *)

Inductive ending (A : Type) : Type :=
| Returned (a : A)
| Threw (t : thrown).
Arguments Returned {A} a.
Arguments Threw {A} t.

(** [isinstance(t, Exception)] *)
Definition is_exception (t : thrown) : bool :=
  match t with
  | SyntaxError _ | OtherError _ => true
  | NotAnException _ => false
  end.

(** [str(t)] *)
Definition thrown_str (t : thrown) : string :=
  match t with
  | SyntaxError msg => msg
  | OtherError e => exc_str e
  | NotAnException name => name
  end.

(** The interpreter behind the REPL: its objects, the modules the REPL
    offers, and the builtins [eval], [exec] and [str].  [eval] and [exec]
    work on the dictionary they are given: they answer with the way they
    ended and with the dictionary as they left it. *)
Record Interpreter : Type := {
  Obj : Type;
  builtins_module : Obj;               (* __builtins__ *)
  numpy_module : Obj;
  scipy_module : Obj;
  math_module : Obj;
  math_attr : string -> Obj;           (* math.sin, ..., math.pi *)
  is_None : Obj -> bool;
  obj_str : Obj -> ending string;
  eval_in : string -> gmap string Obj -> ending Obj * gmap string Obj;
  exec_in : string -> gmap string Obj -> ending unit * gmap string Obj
}.

(** The calls the REPL makes into the interpreter. *)
Inductive call (I : Interpreter) : Type :=
| CallEval (command : string) (globals : gmap string (Obj I))
| CallExec (command : string) (globals : gmap string (Obj I)).
Arguments CallEval {I} command globals.
Arguments CallExec {I} command globals.

(** The calculator with the namespace of its REPL. *)
Record Session (I : Interpreter) : Type := {
  gui : Gui;
  python_globals : gmap string (Obj I);
  calls : list (call I)
}.
Arguments gui {I} s.
Arguments python_globals {I} s.
Arguments calls {I} s.

Definition with_gui {I} (f : Gui -> Gui) (s : Session I) : Session I :=
  {| gui := f (gui s); python_globals := python_globals s; calls := calls s |}.

Definition log_call {I} (c : call I) (s : Session I) : Session I :=
  {| gui := gui s; python_globals := python_globals s;
     calls := calls s ++ [c] |}.

(** [self.python_globals.update(exec_globals)] *)
Definition update_globals {I} (exec_globals : gmap string (Obj I))
  (s : Session I) : Session I :=
  {| gui := gui s;
     python_globals := dict_update (python_globals s) exec_globals;
     calls := calls s |}.

(** A method of the calculator proper, run on the session. *)
Definition lift {I A} (m : M Gui A) (s : Session I) : ending A * Session I :=
  match m (gui s) with
  | (Ret a, g) => (Returned a, with_gui (fun _ => g) s)
  | (Raise e, g) => (Threw (OtherError e), with_gui (fun _ => g) s)
  end.

Definition exit_words : list string := [ "exit()"; "quit()"; "exit"; "quit" ].

(** The names the REPL takes from [math]. *)
Definition math_names : list string :=
  [ "sin"; "cos"; "tan"; "pi"; "e"; "sqrt"; "log" ].

(** [exec_globals] of [execute_python_command], as it is handed to
    [eval]. *)
Definition exec_globals (I : Interpreter) (packages : gmap string bool)
  (python_globals : gmap string (Obj I)) : gmap string (Obj I) :=
  let g0 : gmap string (Obj I) := {[ "__builtins__" := builtins_module I ]} in
  let g1 :=
    if default false (packages !! "numpy")
    then <["numpy" := numpy_module I]> (<["np" := numpy_module I]> g0)
    else g0 in
  let g2 :=
    if default false (packages !! "scipy")
    then <["scipy" := scipy_module I]> (<["sp" := scipy_module I]> g1)
    else g1 in
  let g3 :=
    dict_update g2
      (list_to_map
         (("math", math_module I)
          :: map (fun name => (name, math_attr I name)) math_names)) in
  dict_update g3 python_globals.

Definition exit_result : gmap string pyval :=
  list_to_map
    [ ("success", VBool true); ("result", VStr "=== Exited Python REPL ===");
      ("mode_change", VBool true) ].

Definition python_success (text : string) : gmap string pyval :=
  list_to_map
    [ ("success", VBool true); ("result", VStr text); ("is_python", VBool true) ].

Definition python_failure (msg : string) : gmap string pyval :=
  list_to_map
    [ ("success", VBool false); ("result", VNone); ("error", VStr msg);
      ("is_python", VBool true) ].

(** [error_result] of [execute_command_thread] *)
Definition error_result (msg : string) : gmap string pyval :=
  list_to_map
    [ ("success", VBool false); ("result", VNone); ("error", VStr msg) ].

(** How a worker thread ends: with the call of [handle_command_result]
    it has scheduled, or with the exception that killed it. *)
Inductive thread_end : Type :=
| Scheduled (result : gmap string pyval)
| Died (t : thrown).

(** The modes of the buttons of [create_left_panel]. *)
Definition basic_modes : list string :=
  [ "algebraic"; "linear"; "stats"; "symbolic"; "plot"; "units" ].
Definition python_modes : list string :=
  [ "python"; "numpy"; "scipy"; "matplotlib"; "pandas"; "sympy" ].

Section Repl.
Variable P : Python.
Variable subprocess_run : nat -> list string -> N * outcome CompletedProcess.
Variable I : Interpreter.

(** [except Exception as e: return {...}] around the body of
    [execute_python_command] *)
Definition caught (t : thrown) (s : Session I)
  : ending (gmap string pyval) * Session I :=
  if is_exception t then (Returned (python_failure (thrown_str t)), s)
  else (Threw t, s).

(** The inner [try] of [execute_python_command]: the command as an
    expression.  [str] is taken not to touch the namespace. *)
Definition evaluate_expression (command : string)
  (globals : gmap string (Obj I)) (s : Session I)
  : ending (gmap string pyval) * gmap string (Obj I) * Session I :=
  let '(r, globals1) := eval_in I command globals in
  let s1 := log_call (CallEval command globals) s in
  match r with
  | Returned result =>
      let s2 := update_globals globals1 s1 in
      if is_None I result then (Returned (python_success ""), globals1, s2)
      else
        match obj_str I result with
        | Returned text => (Returned (python_success text), globals1, s2)
        | Threw t => (Threw t, globals1, s2)
        end
  | Threw t => (Threw t, globals1, s1)
  end.

(** [execute_python_command] *)
Definition execute_python_command (command : string) (s : Session I)
  : ending (gmap string pyval) * Session I :=
  if bool_decide (PyStr.lower command ∈ exit_words) then
    (Returned exit_result, with_gui (set_python_repl_mode false) s)
  else
    let globals :=
      exec_globals I (available_packages (gui s)) (python_globals s) in
    (* Try to evaluate as expression *)
    match evaluate_expression command globals s with
    | (Returned result, _, s1) => (Returned result, s1)
    | (Threw (SyntaxError _), globals1, s1) =>
        (* Try to execute as statement *)
        let '(r, globals2) := exec_in I command globals1 in
        let s2 := log_call (CallExec command globals1) s1 in
        match r with
        | Returned _ => (Returned (python_success ""), update_globals globals2 s2)
        | Threw t => caught t s2
        end
    | (Threw t, _, s1) => caught t s1
    end.

(** [execute_command_thread]; [root.after] only queues the call. *)
Definition execute_command_thread (command : string) (s : Session I)
  : thread_end * Session I :=
  let '(r, s') :=
    if python_repl_mode (gui s) then execute_python_command command s
    else lift (execute_math_command P subprocess_run command) s in
  match r with
  | Returned result => (Scheduled result, s')
  | Threw t =>
      if is_exception t then (Scheduled (error_result (thrown_str t)), s')
      else (Died t, s')
  end.

(** [change_mode], the command of the mode buttons. *)
Definition change_mode (mode : string) (s : Session I) : thread_end * Session I :=
  execute_command_thread ("mode " ++ mode) s.

(** The main loop runs the call a worker has queued. *)
Definition run_queued (command : string) (r : thread_end * Session I)
  : ending unit * Session I :=
  match r.1 with
  | Scheduled result => lift (handle_command_result P result command) r.2
  | Died _ => (Returned tt, r.2)
  end.

(** A command from its worker thread to the end of its handler, no other
    command being under way. *)
Definition submit (command : string) (s : Session I) : ending unit * Session I :=
  run_queued command (execute_command_thread command s).

End Repl.
End GUIFull.

(** ** Vocabulary of the statements about the whole GUI *)

Module GUIFullSpec.
Import GUI GUIFull.

(** A text without a line feed. *)
Definition one_line (text : string) : bool :=
  negb (PyStr.contains (String PyStr.newline EmptyString) text).

(** A text without any of the package loading messages. *)
Definition no_loading_message (text : string) : bool :=
  negb (existsb (fun msg => PyStr.contains msg text) loading_messages).

Definition is_eval (ev : event) : bool :=
  match ev with
  | EvEval _ _ => true
  | _ => false
  end.

Definition is_output (ev : event) : bool :=
  match ev with
  | EvOutput _ _ => true
  | _ => false
  end.

Definition is_status (ev : event) : bool :=
  match ev with
  | EvStatus _ => true
  | _ => false
  end.

(** What the math-command dispatcher may do to the world on [command]
    from the state [g]: evaluate the command in the restricted
    environment, run the engine it has on the command, queue the help
    dialog, and set the mode label. *)
Definition dispatcher_event (g : Gui) (command : string) (ev : event) : Prop :=
  match ev with
  | EvEval c env => c = command ∧ env = GUISpec.fallback_env g
  | EvRun argv =>
      engine_available g = true ∧
      ∃ path, cpp_engine g = Some {| executable_path := Some path |} ∧
              path ≠ "" ∧ argv = [path; command]
  | EvAfter callback => callback = "show_help"
  | EvLabel widget _ => widget = "mode_label"
  | _ => False
  end.

(** The line [handle_command_result] shows for an engine answer [text]
    that took [us] microseconds; [timed] tells whether the answer carries
    the speed marks. *)
Definition engine_line (timed : bool) (us : N) (text : string) : string :=
  let ms := fmt (VTenths (round_ms us)) in
  if timed && (us <? 100000)%N then
    "🏎️ " ++ text ++ " (SENNA SPEED: " ++ ms ++ "ms!)"
  else if timed && (us <? 200000)%N then
    "🏁 " ++ text ++ " (F1 SPEED: " ++ ms ++ "ms)"
  else if negb (round_ms us =? 0) then
    "🚀 " ++ text ++ " (C++ engine: " ++ ms ++ "ms)"
  else "🚀 " ++ text ++ " (C++ engine)".

(** The events of [handle_command_result] that depend on the result
    only through its marks: the label of the input mode, and the clearing
    of the input. *)
Definition mode_label (d : gmap string pyval) (g : Gui) : list event :=
  if truth (d !! "mode_change")
  then [EvLabel "input_mode_label"
          (if python_repl_mode g then "🐍 Python REPL" else "Normal Mode")]
  else [].

Definition clearing (d : gmap string pyval) (g : Gui) : list event :=
  if negb (python_repl_mode g) && negb (truth (d !! "special"))
  then [EvClearInput] else [].

(** A result dictionary as the handler expects it: a boolean under
    [success], with a text under [result] when it is true and a message
    under [error] when it is false. *)
Definition well_formed (d : gmap string pyval) : Prop :=
  ∃ b, d !! "success" = Some (VBool b) ∧
       if b then ∃ text, d !! "result" = Some (VStr text)
       else ∃ msg, d !! "error" = Some (VStr msg).

(** The text the local evaluator gets for a command, if it gets one. *)
Definition local_value (P : Python) (command : string)
  (env : gmap string pyobj) : option string :=
  match py_eval P command env with
  | Ret v =>
      match py_str P v with
      | Ret text => Some text
      | Raise _ => None
      end
  | Raise _ => None
  end.

(** The settings the dispatcher reads and never writes. *)
Definition same_settings (g g' : Gui) : Prop :=
  cpp_engine g' = cpp_engine g ∧ engine_available g' = engine_available g ∧
  available_packages g' = available_packages g.

End GUIFullSpec.


(** ** A sample REPL *)

Module GUIFullSamples.
Import GUI GUIFull.

(** A toy interpreter on integers, zero standing for [None]: a bound
    name evaluates to its value, [x = 7] binds, [del x] unbinds, [exit(0)]
    raises [SystemExit], and everything else is a syntax error. *)
Definition toy : Interpreter :=
  {| Obj := Z;
     builtins_module := 1; numpy_module := 2; scipy_module := 3; math_module := 4;
     math_attr := fun _ => 5;
     is_None := Z.eqb 0;
     obj_str := fun v => Returned (pretty v);
     eval_in := fun command ns =>
       match ns !! command with
       | Some v => (Returned v, ns)
       | None =>
           if String.eqb command "exit(0)"
           then (Threw (NotAnException "SystemExit"), ns)
           else (Threw (SyntaxError "invalid syntax"), ns)
       end;
     exec_in := fun command ns =>
       if String.eqb command "x = 7" then (Returned tt, <["x" := 7]> ns)
       else if String.eqb command "del x" then (Returned tt, delete "x" ns)
       else (Threw (SyntaxError "invalid syntax"), ns) |}.

(** The calculator as it starts, and in REPL mode with [x] bound. *)
Definition session_start : Session toy :=
  {| gui := GUISamples.gui_start; python_globals := ∅; calls := [] |}.

Definition session_x : Session toy :=
  {| gui := set_python_repl_mode true GUISamples.gui_start;
     python_globals := {[ "x" := 7 ]};
     calls := [] |}.

End GUIFullSamples.

(** ** Finding and building the engine of the GUI:
       [src/gui/python/ogulator_gui.py] *)

Module GUIEngine.
Import GUI.

(** The files below the directory of the script: whether a path exists,
    and how [str] renders it. *)
Record Files : Type := {
  file_exists : string -> bool;
  path_str : string -> string
}.

(** [possible_paths] of [find_cpp_executable], below [current_dir]. *)
Definition possible_paths : list string :=
  [ "build-ninja/cpp_dynamic_calc.exe"; "build/cpp_dynamic_calc.exe";
    "build-ninja/Debug/cpp_dynamic_calc.exe"; "build/Debug/cpp_dynamic_calc.exe";
    "cmake-build-debug/cpp_dynamic_calc.exe"; "build-ninja/cpp_dynamic_calc";
    "build/cpp_dynamic_calc" ].

Fixpoint first_existing (F : Files) (paths : list string) : option string :=
  match paths with
  | [] => None
  | path :: rest =>
      if file_exists F path then Some (path_str F path) else first_existing F rest
  end.

(** [find_cpp_executable] *)
Definition find_cpp_executable (F : Files) : option string :=
  first_existing F possible_paths.

Definition set_cpp_engine (engine : option CppEngineInterface) (g : Gui) : Gui :=
  {| cpp_engine := engine; engine_available := engine_available g;
     current_mode := current_mode g; python_repl_mode := python_repl_mode g;
     available_packages := available_packages g; runs := runs g;
     trace := trace g |}.

Definition set_engine_available (b : bool) (g : Gui) : Gui :=
  {| cpp_engine := cpp_engine g; engine_available := b;
     current_mode := current_mode g; python_repl_mode := python_repl_mode g;
     available_packages := available_packages g; runs := runs g;
     trace := trace g |}.

(** How the build commands of [try_build_engine] end. *)
Inductive build_end : Type :=
| BuildDone
| CalledProcessError (msg : string)    (* a command exited with a non-zero code *)
| BuildTimeout                         (* subprocess.TimeoutExpired *)
| BuildRaised (e : pyexc).             (* any other exception *)

(** The build tools: whether [fast_build.ps1] is there, and how each
    command ends. *)
Record Builder : Type := {
  has_fast_build : bool;
  fast_build : build_end;
  cmake_configure : build_end;
  cmake_build : build_end
}.

Section Engine.
Variable F : Files.
Variable B : Builder.

(** [init_cpp_engine] *)
Definition init_cpp_engine : M Gui bool :=
  match find_cpp_executable F with
  | Some executable_path =>
      if PyStr.truthy executable_path then
        modify (set_cpp_engine (Some {| executable_path := Some executable_path |}));;
        mret true
      else mret false
  | None => mret false
  end.

(** The engine part of [__init__]. *)
Definition init_engine : M Gui unit :=
  modify (set_cpp_engine None);;
  available ← init_cpp_engine;
  modify (set_engine_available available).

(** The build commands of [build_thread], in their order. *)
Definition run_build : build_end :=
  if has_fast_build B then fast_build B
  else
    match cmake_configure B with
    | BuildDone => cmake_build B
    | failed => failed
    end.

(** [build_thread] of [try_build_engine]; the calls it queues for the
    main loop are recorded in the order in which it queues them. *)
Definition build_thread : M Gui unit :=
  match run_build with
  | BuildDone =>
      (* Check if engine is now available *)
      found ← init_cpp_engine;
      if found : bool then
        modify (set_engine_available true);;
        GUI.do (EvOutput "✅ C++ engine built and loaded successfully!" "success");;
        GUI.do (EvLabel "engine_label" "🟢 C++ Engine Ready")
      else
        GUI.do (EvOutput "❌ Engine built but executable not found" "error")
  | CalledProcessError e => GUI.do (EvOutput ("❌ Build failed: " ++ e) "error")
  | BuildTimeout => GUI.do (EvOutput "❌ Build timed out" "error")
  | BuildRaised e => GUI.do (EvOutput ("❌ Build error: " ++ exc_str e) "error")
  end;;
  GUI.do EvProgressStop;;
  GUI.do (EvStatus "Ready").

End Engine.
End GUIEngine.

Module GUIEngineSpec.
Import GUI GUIEngine.

(** The flag and the engine object agree: the flag is set exactly when
    there is an engine object, and the object then has a path that is not
    empty. *)
Definition agrees (g : Gui) : Prop :=
  match cpp_engine g with
  | Some engine =>
      engine_available g = true ∧
      ∃ path, executable_path engine = Some path ∧ path ≠ ""
  | None => engine_available g = false
  end.

(** A directory with a Ninja build, and build tools that work. *)
Definition files_ninja : Files :=
  {| file_exists := String.eqb "build-ninja/cpp_dynamic_calc";
     path_str := fun path => "/opt/ogulator/" ++ path |}.

Definition builder_cmake : Builder :=
  {| has_fast_build := false; fast_build := BuildDone;
     cmake_configure := BuildDone; cmake_build := BuildDone |}.

End GUIEngineSpec.

(** * Properties *)

(** ** Stepping through monadic code *)

Lemma bind_run {S A B} (m : M S A) (k : A -> M S B) (s : S) :
  (m ≫= k) s = match m s with
               | (Ret a, s') => k a s'
               | (Raise e, s') => (Raise e, s')
               end.
Proof. reflexivity. Qed.

Lemma try_except_run {S A} (body : M S A) (handler : pyexc -> M S A) (s : S) :
  try_except body handler s = match body s with
                              | (Ret a, s') => (Ret a, s')
                              | (Raise e, s') => handler e s'
                              end.
Proof. reflexivity. Qed.

Module QAProps.
Import QA.

Section Facts.
Variable E : Env.
Variable axiom_path : option string.

Lemma run_run (argv : list string) (s : State) :
  run E argv s =
  ((subprocess_run E (runs s) argv).2,
   advance (subprocess_run E (runs s) argv).1 (log_run argv s)).
Proof. unfold run. by destruct (subprocess_run E (runs s) argv). Qed.

(** C6.  The linear-algebra test records PASS exactly when the run of
    the executable with the one argument [2 * 3] returns and its
    standard output contains [6]; a returned output without [6] is
    recorded as FAIL, an exception as FAIL with its message.  The test
    makes this one call, and does nothing when no executable was found. *)
Theorem linear_algebra_pass_iff (s : State) :
  let argv := [path_arg axiom_path; "2 * 3"] in
  let o := (subprocess_run E (runs s) argv).2 in
  let s' := (test_linear_algebra E axiom_path s).2 in
  let recorded := functional_tests (results s') !! "linear_algebra" in
  if path_missing axiom_path then s' = s
  else
    run_log s' = (run_log s ++ [argv])%list ∧
    (recorded = Some "PASS" ↔
     ∃ result, o = Ret result ∧ PyStr.contains "6" (stdout result) = true) ∧
    match o with
    | Ret result =>
        if PyStr.contains "6" (stdout result)
        then recorded = Some "PASS" else recorded = Some "FAIL"
    | Raise e => recorded = Some ("FAIL - " ++ exc_str e)
    end.
Proof.
  intros argv o s' recorded. subst s' recorded.
  unfold test_linear_algebra.
  destruct (path_missing axiom_path); [done|].
  rewrite try_except_run, bind_run, run_run. fold argv. fold o.
  destruct o as [result|e]; cbn.
  - destruct (PyStr.contains "6" (stdout result)) eqn:H6; cbn;
      rewrite lookup_insert_eq; split_and!; try done.
    + split; [eauto|done].
    + split; [done|]. intros (r & Hr & Hc). congruence.
  - rewrite lookup_insert_eq. split_and!; try done.
    split; [done|]. by intros (r & Hr & _).
Qed.

(** The loop of the fuzzing test: the counter grows by the number of
    crashed runs, the runs are logged, nothing is recorded. *)
Lemma fuzz_loop_run (inputs : list string) (crashes : nat) (s : State) :
  ∃ s',
    fuzz_loop E axiom_path inputs crashes s =
      (Ret (crashes + QASpec.crash_count
                        (QASpec.outcomes E (runs s) (path_arg axiom_path) inputs))%nat, s') ∧
    results s' = results s ∧
    run_log s' = (run_log s ++ map (fun i => [path_arg axiom_path; i]) inputs)%list.
Proof.
  revert crashes s. induction inputs as [|input rest IH]; intros crashes s.
  - exists s. cbn. rewrite Nat.add_0_r, app_nil_r. done.
  - cbn [fuzz_loop]. rewrite bind_run. unfold fuzz_one.
    rewrite try_except_run, bind_run, run_run.
    set (o := (subprocess_run E (runs s) [path_arg axiom_path; input]).2).
    set (s1 := advance _ _).
    assert (Hs1 : results s1 = results s ∧
                  run_log s1 = (run_log s ++ [[path_arg axiom_path; input]])%list)
      by done.
    destruct Hs1 as [Hres Hlog].
    assert (Hruns : runs s1 = S (runs s)).
    { unfold runs. rewrite Hlog, length_app. cbn. lia. }
    cbn [QASpec.outcomes]. fold o.
    assert (Hstep : ∀ c, ∃ s',
               fuzz_loop E axiom_path rest c s1 =
                 (Ret (c + QASpec.crash_count
                              (QASpec.outcomes E (S (runs s)) (path_arg axiom_path) rest))%nat, s') ∧
               results s' = results s ∧
               run_log s' = (run_log s ++ map (fun i => [path_arg axiom_path; i])
                                           (input :: rest))%list).
    { intros c. destruct (IH c s1) as (s' & Heq & Hr & Hl).
      exists s'. rewrite Heq, Hruns, Hr, Hl, Hres, Hlog.
      split_and!; [done|done|]. by rewrite <- app_assoc. }
    unfold QASpec.crash_count. rewrite filter_cons.
    destruct o as [result|e]; cbn [QASpec.crashed].
    + destruct (returncode result <? 0) eqn:Hrc.
      * destruct (Hstep (S crashes)) as (s' & Heq & Hr & Hl).
        exists s'. cbn. rewrite Heq.
        rewrite decide_True by done. cbn [length].
        split_and!; [|done|done]. do 2 f_equal. unfold QASpec.crash_count. lia.
      * destruct (Hstep crashes) as (s' & Heq & Hr & Hl).
        exists s'. cbn. rewrite Heq.
        rewrite decide_False by (by intros []). done.
    + destruct (Hstep crashes) as (s' & Heq & Hr & Hl).
      exists s'. rewrite decide_False by (by intros []).
      destruct (is_timeout e); cbn; rewrite Heq; done.
Qed.

(** C2.  The fuzzing test runs the executable once on each of its ten
    inputs; a run counts as a crash exactly when it returns a negative
    code (a code of zero or more, and an exception, never do), and PASS
    is recorded exactly when no run of the ten crashed. *)
Theorem fuzzing_counts_crashes (s : State) :
  let path := path_arg axiom_path in
  let os := QASpec.outcomes E (runs s) path malicious_inputs in
  let s' := (test_fuzzing E axiom_path s).2 in
  let recorded := security_tests (results s') !! "fuzzing" in
  length malicious_inputs = 10%nat ∧
  (∀ crashes input st,
     (fuzz_one E axiom_path crashes input st).1 =
     Ret (if QASpec.crashed (subprocess_run E (runs st) [path; input]).2
          then S crashes else crashes)) ∧
  (∀ result, QASpec.crashed (Ret result) = true ↔ returncode result < 0) ∧
  if path_missing axiom_path then s' = s
  else
    run_log s' = (run_log s ++ map (fun i => [path; i]) malicious_inputs)%list ∧
    (recorded = Some "PASS" ↔ QASpec.crash_count os = 0%nat) ∧
    (recorded = Some "PASS" ∨
     recorded = Some ("FAIL - " ++ pretty (QASpec.crash_count os) ++ " crashes")).
Proof.
  intros path os s' recorded. split_and!.
  - reflexivity.
  - intros crashes input st. unfold fuzz_one.
    rewrite try_except_run, bind_run, run_run. fold path.
    destruct (subprocess_run E (runs st) [path; input]).2 as [result|e];
      cbn [QASpec.crashed].
    + by destruct (returncode result <? 0).
    + by destruct (is_timeout e).
  - intros result. cbn. apply Z.ltb_lt.
  - subst s' recorded. unfold test_fuzzing.
    destruct (path_missing axiom_path); [done|].
    rewrite bind_run.
    destruct (fuzz_loop_run malicious_inputs 0 s) as (s1 & Heq & Hres & Hlog).
    rewrite Heq. fold path os. rewrite Nat.add_0_l.
    destruct (QASpec.crash_count os) as [|n] eqn:Hn.
    + cbn. rewrite lookup_insert_eq. split_and!; [done| |by left].
      done.
    + cbn -[pretty]. rewrite lookup_insert_eq.
      split_and!; [done| |by right]. split; [|done].
      intros [=].
Qed.

(** C7.  A run that ends in [TimeoutExpired] is not held against the
    engine: the fuzzing loop leaves its crash counter as it was, and the
    buffer-overflow test records PASS - Timeout. *)
Theorem timeout_is_not_failure
  (s : State) (crashes : nat) (input : string) (e : pyexc) :
  is_timeout e = true →
  ((subprocess_run E (runs s) [path_arg axiom_path; input]).2 = Raise e →
   (fuzz_one E axiom_path crashes input s).1 = Ret crashes) ∧
  (path_missing axiom_path = false →
   (subprocess_run E (runs s) [path_arg axiom_path; long_input]).2 = Raise e →
   security_tests (results (test_buffer_overflow E axiom_path s).2)
     !! "buffer_overflow" = Some "PASS - Timeout").
Proof.
  intros He. split.
  - intros Ho. unfold fuzz_one.
    rewrite try_except_run, bind_run, run_run, Ho, He. done.
  - intros Hp Ho. unfold test_buffer_overflow. rewrite Hp.
    rewrite try_except_run, bind_run, run_run, Ho, He. cbn.
    by rewrite lookup_insert_eq.
Qed.

(** *** The daemon handshake *)

(** One turn of the reading loop. *)
Lemma read_response_step (fuel : nat) (start_time : Z) (response : string)
  (s : State) :
  read_response E (S fuel) start_time response s =
  if clock s - start_time <? 5000000 then
    if stdout_readable E (reads s) then
      let d := (stdout_read1 E (reads s)).1 in
      match (stdout_read1 E (reads s)).2 with
      | Ret char =>
          let s1 := advance d (log_read (clock s) char (count_read s)) in
          if PyStr.truthy char then
            if PyStr.contains SENTINEL (response ++ char)
            then (Ret (Some (response ++ char)), s1)
            else read_response E fuel start_time (response ++ char)
                   (QASpec.slept E s1)
          else read_response E fuel start_time response (QASpec.slept E s1)
      | Raise e => (Raise e, advance d (count_read s))
      end
    else read_response E fuel start_time response (QASpec.slept E s)
  else (Ret (Some response), s).
Proof.
  cbn [read_response]. rewrite bind_run. cbn [time_time gets].
  destruct (clock s - start_time <? 5000000); [|done].
  rewrite bind_run. cbn [gets].
  destruct (stdout_readable E (reads s)); [|done].
  rewrite bind_run. unfold stdout_read.
  destruct (stdout_read1 E (reads s)) as [d [char|e]]; cbn [fst snd]; [|done].
  destruct (PyStr.truthy char); [|done].
  by destruct (PyStr.contains SENTINEL (response ++ char)).
Qed.

Lemma loop_frame_refl (s : State) : QASpec.loop_frame s s.
Proof. unfold QASpec.loop_frame. split_and!; [done..|lia]. Qed.

Lemma loop_frame_trans (s1 s2 s3 : State) :
  QASpec.loop_frame s1 s2 → QASpec.loop_frame s2 s3 → QASpec.loop_frame s1 s3.
Proof.
  unfold QASpec.loop_frame. intros (?&?&?&?&?) (?&?&?&?&?).
  split_and!; [congruence..|lia].
Qed.

Lemma accumulate_app (response : string) (l1 l2 : list (Z * string)) :
  QASpec.accumulate response (l1 ++ l2) =
  QASpec.accumulate (QASpec.accumulate response l1) l2.
Proof. apply fold_left_app. Qed.

Lemma string_app_nil_r (a : string) : a ++ "" = a.
Proof.
  induction a as [|c a IH]; [done|].
  change (String c (a ++ "") = String c a). by f_equal.
Qed.

(** Going on with the loop after the reads [pre] were made. *)
Lemma loop_post_extend (start_time : Z) (response response' : string)
  (s s1 : State) (fuel : nat) (pre : list (Z * string))
  (r : outcome (option string) * State) :
  clock s - start_time < 5000000 →
  QASpec.loop_frame s s1 →
  clock s + 10000 ≤ clock s1 →
  read_log s1 = (read_log s ++ pre)%list →
  Forall (fun tc => tc.1 - start_time < 5000000) pre →
  response' = QASpec.accumulate response pre →
  (∀ before after, pre = (before ++ after)%list → after ≠ [] →
     PyStr.contains SENTINEL (QASpec.accumulate response before) = false) →
  PyStr.contains SENTINEL response' = false →
  QASpec.loop_post start_time response' s1 fuel r →
  QASpec.loop_post start_time response s (S fuel) r.
Proof.
  intros Hwin Hframe Hclock Hlog Hpre -> Hbefore Hfree
    (new & Hf & Hl & Hall & Hsplit & Hout).
  exists (pre ++ new)%list. split_and!.
  - by eapply loop_frame_trans.
  - by rewrite Hl, Hlog, <- app_assoc.
  - by apply Forall_app.
  - intros before after Heq Hne.
    apply app_eq_inv in Heq as [(k & Hk & ->)|(k & -> & ->)].
    + destruct k as [|x k].
      * rewrite app_nil_r in Hk. by subst before.
      * by apply (Hbefore before (x :: k)).
    + rewrite accumulate_app. by apply (Hsplit k after).
  - destruct r.1 as [[buffer|]|e].
    + by rewrite accumulate_app.
    + right. destruct Hout as [->|Hout]; lia.
    + by rewrite accumulate_app.
Qed.

(** The reading loop, when it starts from a buffer without the
    sentinel. *)
Lemma read_response_run (fuel : nat) (start_time : Z) (response : string)
  (s : State) :
  PyStr.contains SENTINEL response = false →
  QASpec.loop_post start_time response s fuel
    (read_response E fuel start_time response s).
Proof.
  revert response s.
  induction fuel as [|fuel IH]; intros response s Hfree.
  { exists []. cbn. rewrite app_nil_r.
    refine (conj (loop_frame_refl s) (conj eq_refl (conj (Forall_nil_2 _) (conj _ _)))).
    - intros before after Hnew Hne. destruct before, after; done.
    - by left. }
  rewrite read_response_step.
  destruct (clock s - start_time <? 5000000) eqn:Hwin; cycle 1.
  { exists []. cbn. rewrite app_nil_r.
    refine (conj (loop_frame_refl s) (conj eq_refl (conj (Forall_nil_2 _) (conj _ _)))).
    - intros before after Hnew Hne. destruct before, after; done.
    - split; [done|]. intros _. apply Z.ltb_ge in Hwin. lia. }
  apply Z.ltb_lt in Hwin.
  destruct (stdout_readable E (reads s)); cycle 1.
  { (* not readable: pause and go on *)
    apply (loop_post_extend start_time response response s (QASpec.slept E s)
             fuel []); try done.
    - unfold QASpec.loop_frame. cbn. split_and!; [done..|lia].
    - cbn. lia.
    - cbn. by rewrite app_nil_r.
    - intros before after Hnew Hne. destruct before, after; done.
    - by apply IH. }
  cbn zeta.
  destruct (stdout_read1 E (reads s)) as [d [char|e]]; cbn [fst snd]; cycle 1.
  { (* the read raises *)
    exists []. cbn. rewrite app_nil_r.
    refine (conj _ (conj eq_refl (conj (Forall_nil_2 _) (conj _ Hfree)))).
    - unfold QASpec.loop_frame. cbn. split_and!; [done..|lia].
    - intros before after Hnew Hne. destruct before, after; done. }
  assert (Hone : ∀ before after : list (Z * string),
             [(clock s, char)] = (before ++ after)%list → after ≠ [] →
             PyStr.contains SENTINEL (QASpec.accumulate response before) = false).
  { intros [|x before] after Heq Hne; [done|].
    destruct before, after; done. }
  assert (Hin : Forall (fun tc : Z * string => tc.1 - start_time < 5000000)
                  [(clock s, char)]) by by apply Forall_singleton.
  set (s1 := advance d (log_read (clock s) char (count_read s))).
  assert (Hs1 : QASpec.loop_frame s s1).
  { unfold QASpec.loop_frame. cbn. split_and!; [done..|lia]. }
  assert (Hs2 : QASpec.loop_frame s (QASpec.slept E s1)).
  { unfold QASpec.loop_frame. cbn. split_and!; [done..|lia]. }
  assert (Hclock : clock s + 10000 ≤ clock (QASpec.slept E s1)) by (cbn; lia).
  destruct (PyStr.truthy char) eqn:Hchar.
  - destruct (PyStr.contains SENTINEL (response ++ char)) eqn:Hsent.
    + (* the sentinel has arrived: break *)
      exists [(clock s, char)]. cbn [fst snd].
      refine (conj Hs1 (conj eq_refl (conj Hin (conj Hone _)))).
      split; [done|]. cbn. congruence.
    + apply (loop_post_extend start_time response (response ++ char) s
               (QASpec.slept E s1) fuel [(clock s, char)]); try done.
      by apply IH.
  - (* end of file: nothing was read *)
    destruct char; [|done].
    apply (loop_post_extend start_time response response s
             (QASpec.slept E s1) fuel [(clock s, "")]); try done.
    + cbn. by rewrite string_app_nil_r.
    + by apply IH.
Qed.

Lemma handshake_frame_record (s s' : State) (v : string) :
  QASpec.loop_frame s s' ∨ s' = s →
  ∀ s0, run_log s = run_log s0 → results s = results s0 →
  ∀ f : State → State,
    (∀ x, results (f x) = results x ∧ run_log (f x) = run_log x) →
    QASpec.handshake_frame s0
      (with_results (set_architecture "daemon_handshake" v) (f s')).
Proof.
  intros Hs s0 Hlog Hres f Hf.
  assert (results s' = results s ∧ run_log s' = run_log s) as [Hr Hl].
  { destruct Hs as [(?&?&_)| ->]; done. }
  destruct (Hf s') as [Hfr Hfl].
  unfold QASpec.handshake_frame. cbn.
  rewrite Hfr, Hfl, Hr, Hl, Hres, Hlog.
  split_and!; try done.
  intros k Hk. by rewrite lookup_insert_ne.
Qed.

(** The handshake, path by path: it fails before anything was sent, or
    after the command was sent, or the reading loop was entered and
    ended with a buffer. *)
Lemma daemon_handshake_run (fuel : nat) (s s' : State) (o : outcome handshake) :
  daemon_handshake E axiom_path fuel s = (o, s') →
  let recorded := architecture_tests (results s') !! "daemon_handshake" in
  QASpec.handshake_frame s s' ∧
  ((o = Ret NotRead ∧ stdin_log s' = stdin_log s ∧
    ∃ msg, recorded = Some ("FAIL - " ++ msg)) ∨
   (o = Ret NotRead ∧ stdin_log s' = (stdin_log s ++ [test_command])%list ∧
    ∃ msg, recorded = Some ("FAIL - " ++ msg)) ∨
   (o = Ret OutOfFuel ∧ (fuel <= 500)%nat) ∨
   (∃ response s1,
      o = Ret (Read response) ∧
      stdin_log s' = (stdin_log s ++ [test_command])%list ∧
      terminated s' = true ∧
      clock s' = clock s1 ∧ read_log s' = read_log s1 ∧
      QASpec.loop_post (QASpec.handshake_start E s) ""
        (QASpec.loop_entry E s) fuel (Ret (Some response), s1) ∧
      recorded = Some (if PyStr.contains SENTINEL response
                       then "PASS" else "FAIL - Protocol violation"))).
Proof.
  intros Hrun recorded. subst recorded.
  unfold daemon_handshake in Hrun.
  rewrite try_except_run, bind_run in Hrun.
  assert (Hid : ∀ x : State, results (id x) = results x ∧ run_log (id x) = run_log x)
    by done.
  (* Popen *)
  destruct (Popen_daemon E axiom_path s) as [[[]|e] s0] eqn:Hpopen; cycle 1.
  { assert (s0 = s) as ->.
    { unfold Popen_daemon, option_raise in Hpopen.
      destruct axiom_path; [destruct (popen E _)|]; by inversion Hpopen. }
    inversion Hrun; subst o s'. split.
    - by apply (handshake_frame_record s s _ (or_intror eq_refl) s eq_refl eq_refl id).
    - left. cbn. rewrite lookup_insert_eq. eauto. }
  assert (s0 = s) as ->.
  { unfold Popen_daemon, option_raise in Hpopen.
    destruct axiom_path; [destruct (popen E _)|]; by inversion Hpopen. }
  clear Hpopen.
  rewrite bind_run in Hrun. cbn [time_sleep] in Hrun.
  set (s1 := advance (2000000 + oversleep E (sleeps s)) (count_sleep s)) in *.
  destruct (bool_decide (daemon_poll E = None)); cycle 1.
  { inversion Hrun; subst o s'. split.
    - by apply (handshake_frame_record s1 s1 _ (or_intror eq_refl) s eq_refl eq_refl id).
    - left. cbn. rewrite lookup_insert_eq. eauto. }
  rewrite bind_run in Hrun. unfold stdin_write_flush in Hrun.
  rewrite bind_run in Hrun. unfold option_raise in Hrun.
  destruct (stdin_write E test_command) as [e|].
  { inversion Hrun; subst o s'. split.
    - by apply (handshake_frame_record s1 s1 _ (or_intror eq_refl) s eq_refl eq_refl id).
    - left. cbn. rewrite lookup_insert_eq. eauto. }
  cbn [mret M_ret ret] in Hrun. rewrite bind_run in Hrun.
  cbn [modify] in Hrun.
  change (log_stdin test_command s1) with (QASpec.loop_entry E s) in Hrun.
  set (s2 := QASpec.loop_entry E s) in *.
  destruct (stdin_flush E) as [e|].
  { inversion Hrun; subst o s'. split.
    - by apply (handshake_frame_record s2 s2 _ (or_intror eq_refl) s eq_refl eq_refl id).
    - right; left. cbn. rewrite lookup_insert_eq. eauto. }
  cbn [mret M_ret ret] in Hrun. rewrite bind_run in Hrun.
  cbn [time_time gets] in Hrun. rewrite bind_run in Hrun.
  change (clock s2) with (QASpec.handshake_start E s) in Hrun.
  pose proof (read_response_run fuel (QASpec.handshake_start E s) "" s2 eq_refl)
    as Hloop.
  destruct (read_response E fuel (QASpec.handshake_start E s) "" s2)
    as [[[response|]|e] s3].
  - (* the loop ended with a buffer *)
    rewrite bind_run in Hrun. cbn [modify] in Hrun. rewrite bind_run in Hrun.
    pose proof Hloop as (new & Hframe & _).
    cbn [snd] in Hframe.
    destruct (PyStr.contains SENTINEL response) eqn:Hsent;
      cbn in Hrun; inversion Hrun; subst o s'.
    + split.
      * by apply (handshake_frame_record s2 s3 _ (or_introl Hframe) s eq_refl eq_refl
                    set_terminated).
      * do 3 right. exists response, s3. cbn.
        destruct Hframe as (_ & _ & Hin & _). rewrite Hin.
        rewrite lookup_insert_eq, Hsent. done.
    + split.
      * by apply (handshake_frame_record s2 s3 _ (or_introl Hframe) s eq_refl eq_refl
                    set_terminated).
      * do 3 right. exists response, s3. cbn.
        destruct Hframe as (_ & _ & Hin & _). rewrite Hin.
        rewrite lookup_insert_eq, Hsent. done.
  - (* the bound on the iterations was hit: it was below 501 *)
    destruct Hloop as (new & Hframe & _ & _ & _ & Hout).
    cbn [fst snd] in Hout, Hframe.
    inversion Hrun; subst o s'. split.
    + destruct Hframe as (Hr & Hl & _). unfold QASpec.handshake_frame.
      rewrite Hr, Hl. done.
    + right; right; left. split; [done|].
      destruct Hout as [Hout|Hout]; [lia|].
      assert (clock s2 = QASpec.handshake_start E s) as Hc by done.
      rewrite Hc in Hout. lia.
  - (* an exception in the loop *)
    destruct Hloop as (new & Hframe & _). cbn [snd] in Hframe.
    inversion Hrun; subst o s'. split.
    + by apply (handshake_frame_record s2 s3 _ (or_introl Hframe) s eq_refl eq_refl id).
    + right; left. cbn. destruct Hframe as (_ & _ & Hin & _). rewrite Hin.
      rewrite lookup_insert_eq. eauto.
Qed.

Lemma test_daemon_handshake_total (s : State) :
  ∃ h, (test_daemon_handshake E axiom_path s).1 = Ret h ∧ h ≠ OutOfFuel.
Proof.
  unfold test_daemon_handshake.
  destruct (daemon_handshake E axiom_path read_fuel s) as [o s'] eqn:Hrun.
  apply daemon_handshake_run in Hrun as (_ & Hcases). cbn [fst].
  destruct Hcases as [(-> & _)|[(-> & _)|[(_ & Hfuel)|(response & s1 & -> & _)]]];
    [by exists NotRead|by exists NotRead| |by exists (Read response)].
  unfold read_fuel in Hfuel. lia.
Qed.

(** C1.  What the handshake writes to the standard input of the daemon
    is the constant [test_command] and nothing else; that constant is
    the five characters 2, +, 2, backslash, n: it ends with the letter
    n and not with a line feed. *)
Theorem handshake_sends_backslash_n (s : State) :
  let s' := (test_daemon_handshake E axiom_path s).2 in
  (stdin_log s' = stdin_log s ∨
   stdin_log s' = (stdin_log s ++ [test_command])%list) ∧
  test_command
    = String "2" (String "+" (String "2" (String "\" (String "n" EmptyString)))) ∧
  PyStr.last_char test_command = Some "n"%char ∧
  PyStr.ends_with_newline test_command = false.
Proof.
  intros s'. split; [|done]. subst s'.
  destruct (test_daemon_handshake_total s) as (h & Hh & Hne).
  unfold test_daemon_handshake in *.
  destruct (daemon_handshake E axiom_path read_fuel s) as [o s'] eqn:Hrun.
  apply daemon_handshake_run in Hrun as (_ & Hcases). cbn [fst snd] in *.
  destruct Hcases as [(_ & Hlog & _)|[(_ & Hlog & _)|[(-> & _)|(r & s1 & _ & Hlog & _)]]];
    [by left|by right| |by right].
  by inversion Hh.
Qed.


(** *** Section 1 as a whole *)

Lemma scan_files_state (files remaining : list string) (s : State) :
  (scan_files E files remaining s).2 = s.
Proof.
  revert remaining. induction files as [|f files IH]; intros remaining; [done|].
  cbn [scan_files]. destruct (path_exists E f); [|apply IH].
  rewrite bind_run. destruct (read_text E f) as [content|e]; [|done].
  destruct (_ || _); apply IH.
Qed.

Lemma test_namespace_purity_frame (s : State) :
  let s' := (test_namespace_purity E s).2 in
  run_log s' = run_log s ∧
  ∀ k, k ≠ "namespace_purity" →
       architecture_tests (results s') !! k = architecture_tests (results s) !! k.
Proof.
  unfold test_namespace_purity. rewrite bind_run.
  pose proof (scan_files_state critical_files [] s) as Hscan.
  destruct (scan_files E critical_files [] s) as [[remaining|e] s1];
    cbn [snd] in Hscan; subst s1; [|done].
  destruct remaining; cbn; (split; [done|]);
    intros k Hk; by rewrite lookup_insert_ne.
Qed.

(** Without the identification string the core architecture test gives
    up at once. *)
Lemma core_architecture_needs_identity (s : State) :
  match CoreTest.first_existing E CoreTest.possible_paths with
  | None => CoreTest.test_core_architecture E s = (Ret false, s)
  | Some path =>
      match (subprocess_run E (runs s) [path; "--help"]).2 with
      | Ret result =>
          PyStr.contains IDENTITY (stdout result) = true ∨
          (CoreTest.test_core_architecture E s).1 = Ret false
      | Raise e => (CoreTest.test_core_architecture E s).1 = Ret false
      end
  end.
Proof.
  unfold CoreTest.test_core_architecture.
  destruct (CoreTest.first_existing E CoreTest.possible_paths) as [path|]; [|done].
  rewrite bind_run. unfold CoreTest.architecture_verification.
  rewrite try_except_run, bind_run, run_run.
  destruct (subprocess_run E (runs s) [path; "--help"]).2 as [result|e]; [|done].
  cbn [mret M_ret ret]. change "AXIOM Engine v3.0" with IDENTITY.
  destruct (PyStr.contains IDENTITY (stdout result)); [by left|by right].
Qed.

(** C5.  Section 1 records PASS for the binary identity exactly when
    the run of the executable with [--help] returns and its standard
    output contains the identification string; any other output is
    recorded as FAIL, an exception as FAIL with its message, and a
    missing executable as FAIL without any run.  Nothing that section 1
    does afterwards changes this entry or runs the executable again.
    The core architecture test makes the same check on the executable
    it finds, and returns False at once when the check fails. *)
Theorem binary_identity_pass_iff (s : State) :
  let argv := [path_arg axiom_path; "--help"] in
  let o := (subprocess_run E (runs s) argv).2 in
  let s' := (section_1_architecture_verification E axiom_path s).2 in
  let recorded := architecture_tests (results s') !! "binary_identity" in
  IDENTITY = "AXIOM Engine v3.0" ∧
  match CoreTest.first_existing E CoreTest.possible_paths with
  | None => CoreTest.test_core_architecture E s = (Ret false, s)
  | Some path =>
      match (subprocess_run E (runs s) [path; "--help"]).2 with
      | Ret result =>
          PyStr.contains IDENTITY (stdout result) = true ∨
          (CoreTest.test_core_architecture E s).1 = Ret false
      | Raise e => (CoreTest.test_core_architecture E s).1 = Ret false
      end
  end ∧
  if path_missing axiom_path
  then recorded = Some "FAIL - Executable not found" ∧ run_log s' = run_log s
  else
    run_log s' = (run_log s ++ [argv])%list ∧
    (recorded = Some "PASS" ↔
     ∃ result, o = Ret result ∧ PyStr.contains IDENTITY (stdout result) = true) ∧
    match o with
    | Ret result =>
        if PyStr.contains IDENTITY (stdout result)
        then recorded = Some "PASS" else recorded = Some "FAIL"
    | Raise e => recorded = Some ("FAIL - " ++ exc_str e)
    end.
Proof.
  intros argv o s' recorded. split; [done|].
  split; [apply core_architecture_needs_identity|]. subst s' recorded.
  unfold section_1_architecture_verification.
  destruct (path_missing axiom_path).
  { rewrite bind_run. cbn. by rewrite lookup_insert_eq. }
  rewrite bind_run.
  (* the check itself *)
  assert (∃ s1,
    binary_identity_check E axiom_path s = (Ret tt, s1) ∧
    run_log s1 = (run_log s ++ [argv])%list ∧
    match o with
    | Ret result =>
        if PyStr.contains IDENTITY (stdout result)
        then architecture_tests (results s1) !! "binary_identity" = Some "PASS"
        else architecture_tests (results s1) !! "binary_identity" = Some "FAIL"
    | Raise e =>
        architecture_tests (results s1) !! "binary_identity"
        = Some ("FAIL - " ++ exc_str e)
    end) as (s1 & -> & Hlog1 & Hrec1).
  { unfold binary_identity_check.
    rewrite try_except_run, bind_run, run_run. fold argv o.
    destruct o as [result|e]; cbn.
    - destruct (PyStr.contains IDENTITY (stdout result)); cbn;
        eexists; (split; [done|]); cbn; by rewrite lookup_insert_eq.
    - eexists; (split; [done|]); cbn; by rewrite lookup_insert_eq. }
  (* the rest of the section leaves the entry and the log alone *)
  rewrite bind_run.
  destruct (test_daemon_handshake_total s1) as (h & Hh & _).
  unfold test_daemon_handshake in *.
  destruct (daemon_handshake E axiom_path read_fuel s1) as [o2 s2] eqn:Hrun.
  apply daemon_handshake_run in Hrun as ((Hlog2 & _ & _ & _ & Harch2) & _).
  cbn [fst] in Hh. subst o2.
  rewrite bind_run.
  pose proof (test_namespace_purity_frame s2) as (Hlog3 & Harch3).
  destruct (test_namespace_purity E s2) as [[[]|e] s3];
    cbn [snd fst mret M_ret ret] in *.
  - rewrite Hlog3, Hlog2, Harch3, Harch2 by done. split; [done|].
    split; [|done].
    destruct o as [result|e]; [destruct (PyStr.contains IDENTITY (stdout result)) eqn:Hc|];
      rewrite Hrec1.
    + split; [eauto|done].
    + split; [intros [=]|]. intros (r & [= <-] & Hr). congruence.
    + split; [intros [=]|]. by intros (r & [=] & _).
  - rewrite Hlog3, Hlog2, Harch3, Harch2 by done. split; [done|].
    split; [|done].
    destruct o as [result|e']; [destruct (PyStr.contains IDENTITY (stdout result)) eqn:Hc|];
      rewrite Hrec1.
    + split; [eauto|done].
    + split; [intros [=]|]. intros (r & [= <-] & Hr). congruence.
    + split; [intros [=]|]. by intros (r & [=] & _).
Qed.

(** *** The repeated runs of section 2 *)

Lemma repeat_snoc {A} (x : A) (n : nat) :
  (x :: repeat x n = repeat x n ++ [x])%list.
Proof. induction n as [|n IH]; [done|]. cbn. by rewrite <- IH. Qed.

Lemma leading_all {A} (f : A → bool) (l : list A) :
  forallb f l = true → QASpec.leading f l = length l.
Proof.
  induction l as [|x l IH]; [done|]. cbn.
  destruct (f x); [|done]. intros H. by rewrite IH.
Qed.

Lemma outcomes_length (k : nat) (path : string) (inputs : list string) :
  length (QASpec.outcomes E k path inputs) = length inputs.
Proof.
  revert k. induction inputs as [|i inputs IH]; intros k; [done|].
  cbn. by rewrite IH.
Qed.

(** The loop of the latency test runs [1+1] until a run is not good,
    that run included. *)
Lemma latency_loop_run (indices : list nat) (s : State) :
  let path := path_arg axiom_path in
  let os := QASpec.outcomes E (runs s) path (map (fun _ => "1+1") indices) in
  let r := latency_loop E axiom_path indices s in
  run_log r.2 =
    (run_log s ++ repeat [path; "1+1"]
                    (Nat.min (length indices) (S (QASpec.leading QASpec.calc_ok os))))%list.
Proof.
  intros path. revert s. induction indices as [|i rest IH]; intros s.
  - cbn. by rewrite app_nil_r.
  - cbn [latency_loop map QASpec.outcomes QASpec.leading length].
    rewrite bind_run, run_run. fold path.
    set (o := (subprocess_run E (runs s) [path; "1+1"]).2).
    set (s1 := advance _ _).
    assert (Hlog : run_log s1 = (run_log s ++ [[path; "1+1"]])%list) by done.
    assert (Hruns : runs s1 = S (runs s)).
    { unfold runs. rewrite Hlog, length_app. cbn. lia. }
    assert (Hstop : run_log s1 =
              (run_log s ++ repeat [path; "1+1"] (S (length rest) `min` 1))%list).
    { rewrite Hlog. by replace (S (length rest) `min` 1)%nat with 1%nat by lia. }
    destruct o as [result|e]; cbn [QASpec.calc_ok]; [|done].
    destruct (returncode result =? 0); cbn [negb orb andb];
      [|by rewrite bind_run].
    destruct (PyStr.contains "2" (stdout result)); cbn [negb];
      [|by rewrite bind_run].
    specialize (IH s1). cbn zeta in IH. rewrite Hruns in IH.
    rewrite IH, Hlog, <- app_assoc. done.
Qed.

(** The loop of the throughput test runs [linear] until a run raises. *)
Lemma flood_loop_run (indices : list nat) (s : State) :
  let path := path_arg axiom_path in
  let os := QASpec.outcomes E (runs s) path (map (fun _ => "linear") indices) in
  let r := flood_loop E axiom_path indices s in
  results r.2 = results s ∧
  run_log r.2 =
    (run_log s ++ repeat [path; "linear"]
                    (Nat.min (length indices) (S (QASpec.leading QASpec.returned os))))%list ∧
  match r.1 with
  | Ret _ => forallb QASpec.returned os = true
  | Raise e => forallb QASpec.returned os = false
  end.
Proof.
  intros path. revert s. induction indices as [|i rest IH]; intros s.
  - cbn. by rewrite app_nil_r.
  - cbn [flood_loop map QASpec.outcomes QASpec.leading length forallb].
    rewrite bind_run, run_run. fold path.
    set (o := (subprocess_run E (runs s) [path; "linear"]).2).
    set (s1 := advance _ _).
    assert (Hlog : run_log s1 = (run_log s ++ [[path; "linear"]])%list) by done.
    assert (Hres : results s1 = results s) by done.
    assert (Hruns : runs s1 = S (runs s)).
    { unfold runs. rewrite Hlog, length_app. cbn. lia. }
    destruct o as [result|e]; cbn [QASpec.returned andb fst snd].
    2: { rewrite Hlog. by replace (S (length rest) `min` 1)%nat with 1%nat by lia. }
    specialize (IH s1). cbn zeta in IH. rewrite Hruns in IH.
    destruct IH as (IHres & IHlog & IHout).
    rewrite IHres, IHlog, Hlog, Hres, <- app_assoc.
    done.
Qed.

(** C8, as the code has it.  The latency test runs [1+1] one call after
    the other, at most a hundred times: it stops after the first run
    that exits with a non-zero code, prints no 2 or raises, and makes
    all hundred runs when none does.  The throughput test runs [linear]
    up to ten times, and records PASS exactly when all ten runs return
    and the resident memory of the test process has grown by less than
    100 MiB over them; it records a warning when they return and the
    memory has grown by more, and FAIL when a run raises. *)
Theorem repeated_invocation_tests (s : State) :
  let path := path_arg axiom_path in
  let os1 := QASpec.outcomes E (runs s) path (repeat "1+1" 100) in
  let good := QASpec.leading QASpec.calc_ok os1 in
  let s1 := (test_latency_ping E axiom_path s).2 in
  let os2 := QASpec.outcomes E (runs s) path (repeat "linear" 10) in
  let s2 := (test_throughput_flood E axiom_path s).2 in
  let growth := memory_rss E (runs s + 10) - memory_rss E (runs s) in
  let recorded := performance_tests (results s2) !! "throughput" in
  if path_missing axiom_path then s1 = s ∧ s2 = s
  else
    run_log s1 = (run_log s ++ repeat [path; "1+1"] (Nat.min 100 (S good)))%list ∧
    run_log s2 =
      (run_log s ++ repeat [path; "linear"]
                      (Nat.min 10 (S (QASpec.leading QASpec.returned os2))))%list ∧
    (recorded = Some "PASS" ↔
     forallb QASpec.returned os2 = true ∧ growth < 100 * 1024 * 1024) ∧
    (if forallb QASpec.returned os2
     then recorded = Some (if growth <? 100 * 1024 * 1024
                           then "PASS" else "WARN - Memory growth")
     else ∃ msg, recorded = Some ("FAIL - " ++ msg)).
Proof.
  intros path os1 good s1 os2 s2 growth recorded.
  subst s1 s2 recorded.
  unfold test_latency_ping, test_throughput_flood.
  destruct (path_missing axiom_path); [done|].
  split; [|].
  { (* latency *)
    rewrite try_except_run, bind_run. cbn [time_time gets].
    rewrite bind_run.
    pose proof (latency_loop_run (seq 0 100) s) as Hloop. cbn zeta in Hloop.
    change (map (λ _ : nat, "1+1") (seq 0 100)) with (repeat "1+1" 100) in Hloop.
    change (length (seq 0 100)) with 100%nat in Hloop.
    fold path os1 good in Hloop.
    destruct (latency_loop E axiom_path (seq 0 100) s) as [[[]|e] s1];
      cbn [snd] in Hloop; [|done|done].
    rewrite bind_run. cbn [time_time gets].
    repeat (match goal with |- context [if ?b then _ else _] => destruct b end);
      done. }
  (* throughput *)
  rewrite try_except_run, bind_run. cbn [memory_info_rss gets].
  rewrite bind_run. cbn [time_time gets]. rewrite bind_run.
  pose proof (flood_loop_run (seq 0 10) s) as Hloop. cbn zeta in Hloop.
  change (map (λ _ : nat, "linear") (seq 0 10)) with (repeat "linear" 10) in Hloop.
  change (length (seq 0 10)) with 10%nat in Hloop.
  fold path os2 in Hloop.
  destruct (flood_loop E axiom_path (seq 0 10) s) as [[[]|e] s2];
    cbn [fst snd] in Hloop; destruct Hloop as (Hres & Hlog & Hall).
  - rewrite bind_run. cbn [time_time gets].
    rewrite bind_run. cbn [memory_info_rss gets].
    assert (Hruns : runs s2 = (runs s + 10)%nat).
    { unfold runs. rewrite Hlog, length_app, repeat_length.
      rewrite (leading_all _ _ Hall). subst os2.
      by rewrite outcomes_length, repeat_length. }
    rewrite Hruns, Hall. fold growth.
    destruct (growth <? 100 * 1024 * 1024) eqn:Hg; cbn;
      rewrite lookup_insert_eq; (split; [done|]); split; try done.
    + split; [|done]. intros _. split; [done|]. by apply Z.ltb_lt.
    + split; [intros [=]|]. intros [_ Hlt]. apply Z.ltb_ge in Hg. lia.
  - rewrite Hall. cbn. rewrite lookup_insert_eq.
    split; [done|]. split; [|by eexists].
    split; [intros [=]|]. by intros [[=] _].
Qed.

End Facts.

(** A hanging engine at work: one timeout in the fuzzing loop, and the
    buffer-overflow test. *)
Lemma timeout_is_not_failure_witness :
  (fuzz_one Samples.env_hanging Samples.found 0 "1/0" (initial_state 0)).1
    = Ret 0%nat ∧
  security_tests
    (results (test_buffer_overflow Samples.env_hanging Samples.found
                (initial_state 0)).2) !! "buffer_overflow"
    = Some "PASS - Timeout".
Proof.
  destruct (timeout_is_not_failure Samples.env_hanging Samples.found
              (initial_state 0) 0 "1/0" Samples.timeout eq_refl) as [H1 _].
  destruct (timeout_is_not_failure Samples.env_hanging Samples.found
              (initial_state 0) 0 "1/0" Samples.timeout eq_refl) as [_ H2].
  split; [apply H1; reflexivity | apply H2; reflexivity].
Defined.

(** C8 read to the letter fails on a hanging engine: the latency test
    stops after one run instead of a hundred, and the throughput test
    records FAIL although the test process has not grown at all. *)
Lemma repeated_invocation_counterexample :
  let E := Samples.env_hanging in
  let s := initial_state 0 in
  let s1 := (test_latency_ping E Samples.found s).2 in
  let s2 := (test_throughput_flood E Samples.found s).2 in
  run_log s1 = [["build/axiom"; "1+1"]] ∧
  memory_rss E (runs s2) - memory_rss E (runs s) = 0 ∧
  performance_tests (results s2) !! "throughput"
    = Some ("FAIL - " ++ exc_str Samples.timeout) ∧
  ¬ QASpec.repeated_invocation_as_stated E Samples.found s.
Proof.
  split_and!; [done|done|done|].
  intros [H _]. vm_compute in H. inversion H.
Qed.

(** The suite on an engine that computes. *)
Example good_engine_passes :
  let s := initial_state 0 in
  let s1 := (section_1_architecture_verification Samples.env_good Samples.found s).2 in
  let s3 := (test_linear_algebra Samples.env_good Samples.found s1).2 in
  let s4 := (section_4_security_stability Samples.env_good Samples.found s3).2 in
  architecture_tests (results s4) !! "binary_identity" = Some "PASS" ∧
  architecture_tests (results s4) !! "daemon_handshake" = Some "PASS" ∧
  functional_tests (results s4) !! "linear_algebra" = Some "PASS" ∧
  security_tests (results s4) !! "fuzzing" = Some "PASS" ∧
  security_tests (results s4) !! "buffer_overflow" = Some "PASS" ∧
  stdin_log s4 = ["2+2\n"] ∧
  length (read_log s4) = 20%nat.
Proof. vm_compute. done. Qed.

(** The suite on an engine that hangs: the handshake gives up when its
    five seconds are over, after the pause of two seconds and five hundred
    pauses of ten milliseconds, without a single read. *)
Example hanging_engine_fails :
  let s := initial_state 0 in
  let r := test_daemon_handshake Samples.env_hanging Samples.found s in
  r.1 = Ret (Read "") ∧
  architecture_tests (results r.2) !! "daemon_handshake"
    = Some "FAIL - Protocol violation" ∧
  sleeps r.2 = 501%nat ∧ reads r.2 = 0%nat ∧ clock r.2 = 7000000 ∧
  performance_tests
    (results (test_latency_ping Samples.env_good Samples.found s).2) !! "latency"
    = Some "PASS - SENNA SPEED" ∧
  performance_tests
    (results (test_throughput_flood Samples.env_good Samples.found s).2)
    !! "throughput" = Some "PASS".
Proof. vm_compute. done. Qed.

End QAProps.

(** ** Regular expressions *)

Module ReProps.
Import Re.

Lemma is_void_not_nullable (r : regex) : is_void r = true → nullable r = false.
Proof.
  induction r as [| |p|r1 IH1 r2 IH2|r1 IH1 r2 IH2|r IH]; cbn; try done.
  - intros [H|H]%orb_true_iff; [rewrite (IH1 H)|rewrite (IH2 H)]; cbn;
      [done|by destruct (nullable r1)].
  - intros [H1 H2]%andb_true_iff. by rewrite (IH1 H1), (IH2 H2).
Qed.

Lemma is_void_deriv (c : ascii) (r : regex) :
  is_void r = true → is_void (deriv c r) = true.
Proof.
  induction r as [| |p|r1 IH1 r2 IH2|r1 IH1 r2 IH2|r IH]; cbn; try done.
  - intros [H|H]%orb_true_iff.
    + rewrite (is_void_not_nullable _ H). cbn. by rewrite (IH1 H).
    + destruct (nullable r1); cbn; rewrite ?H, ?(IH2 H), ?orb_true_r; done.
  - intros [H1 H2]%andb_true_iff. by rewrite (IH1 H1), (IH2 H2).
Qed.

Lemma is_void_no_match (s : string) (r : regex) :
  is_void r = true → matches r s = false.
Proof.
  revert r. induction s as [|c s IH]; intros r Hr; cbn.
  - by apply is_void_not_nullable.
  - apply IH. by apply is_void_deriv.
Qed.

Lemma deriv_first (c : ascii) (r : regex) :
  first r c = false → is_void (deriv c r) = true.
Proof.
  induction r as [| |p|r1 IH1 r2 IH2|r1 IH1 r2 IH2|r IH]; cbn; try done.
  - by intros ->.
  - intros [H1 H2]%orb_false_iff.
    destruct (nullable r1); cbn in *; rewrite (IH1 H1); [|done].
    by rewrite (IH2 H2).
  - intros [H1 H2]%orb_false_iff. by rewrite (IH1 H1), (IH2 H2).
  - intros H. by rewrite (IH H).
Qed.

(** A match starts with a character of the first set. *)
Lemma matches_first (c : ascii) (s : string) (r : regex) :
  matches r (String c s) = true → first r c = true.
Proof.
  cbn. intros Hm. destruct (first r c) eqn:Hf; [done|].
  by rewrite (is_void_no_match s _ (deriv_first c r Hf)) in Hm.
Qed.

End ReProps.

(** ** The calculator *)

Module GUIProps.
Import GUI.

(** The first sets of the four patterns. *)
Lemma first_simple (c : ascii) :
  existsb (fun pattern => Re.first (Re.Cat pattern Re.eol) c) simple_patterns
  = GUISpec.starts_simple c.
Proof. destruct c as [[] [] [] [] [] [] [] []]; vm_compute; reflexivity. Qed.

(** White space, digits and the parenthesis are not letters. *)
Lemma starts_simple_no_letter (c : ascii) :
  GUISpec.starts_simple c = true →
  PyStr.lower_char c ≠ "h"%char ∧ PyStr.lower_char c ≠ "m"%char ∧
  PyStr.lower_char c ≠ "p"%char ∧ PyStr.lower_char c ≠ "r"%char.
Proof.
  destruct c as [[] [] [] [] [] [] [] []]; vm_compute; intros H;
    try discriminate H; repeat split; discriminate.
Qed.

(** A simple-arithmetic command is not empty, and starts with white
    space, a digit or a parenthesis. *)
Lemma simple_head (command : string) :
  is_simple_arithmetic command = true →
  ∃ c rest, command = String c rest ∧ GUISpec.starts_simple c = true.
Proof.
  destruct command as [|c rest]; [by vm_compute|].
  intros Hs. exists c, rest. split; [done|].
  rewrite <- first_simple.
  unfold is_simple_arithmetic in Hs.
  apply existsb_exists in Hs as (pattern & Hin & Hm).
  apply existsb_exists. exists pattern. split; [done|].
  by apply (ReProps.matches_first c rest).
Qed.

(** Such a command is none of the special commands of the dispatcher. *)
Lemma simple_not_special (command : string) :
  is_simple_arithmetic command = true →
  String.eqb (PyStr.lower command) "help" = false ∧
  PyStr.startswith "mode " (PyStr.lower command) = false ∧
  bool_decide (PyStr.lower command ∈ ["python"; "py"; "repl"]) = false.
Proof.
  intros (c & rest & -> & Hc)%simple_head.
  apply starts_simple_no_letter in Hc as (Hh & Hm & Hp & Hr).
  cbn [PyStr.lower]. split_and!.
  - cbn. apply Ascii.eqb_neq in Hh. by rewrite Hh.
  - assert (Ascii.eqb "m" (PyStr.lower_char c) = false) as Hm'.
    { apply Ascii.eqb_neq. congruence. }
    change (Ascii.eqb "m" (PyStr.lower_char c) &&
            PyStr.startswith "ode " (PyStr.lower rest) = false).
    by rewrite Hm'.
  - apply bool_decide_eq_false. intros Hin.
    repeat (apply elem_of_cons in Hin as [Hin|Hin]; [by inversion Hin|]).
    by apply elem_of_nil in Hin.
Qed.

Section Facts.
Variable P : Python.
Variable subprocess_run : nat -> list string -> N * outcome CompletedProcess.

(** The fallback evaluator, in one step. *)
Lemma python_math_fallback_run (command : string) (g : Gui) :
  python_math_fallback P command g =
  (Ret match py_eval P command (GUISpec.fallback_env g) with
       | Ret v =>
           match py_str P v with
           | Ret text => GUISpec.fallback_success text
           | Raise e => GUISpec.fallback_failure e
           end
       | Raise e => GUISpec.fallback_failure e
       end,
   emit (EvEval command (GUISpec.fallback_env g)) g).
Proof.
  unfold python_math_fallback.
  rewrite try_except_run, bind_run. cbn [gets]. rewrite bind_run.
  unfold eval. fold (GUISpec.fallback_env g).
  destruct (py_eval P command (GUISpec.fallback_env g)) as [v|e]; [|done].
  rewrite bind_run. unfold str.
  by destruct (py_str P v) as [text|e].
Qed.

(** The local evaluator leaves one event, and changes nothing else. *)
Lemma fallback_truth_success (text : string) :
  truth (GUISpec.fallback_success text !! "success") = true.
Proof. reflexivity. Qed.

Lemma fallback_truth_failure (e : pyexc) :
  truth (GUISpec.fallback_failure e !! "success") = false.
Proof. reflexivity. Qed.

(** The engine interface leaves at most one event: its run. *)
Lemma execute_command_trace (self : CppEngineInterface) (command : string)
  (g : Gui) :
  ∃ d later,
    (execute_command subprocess_run self command g).1 = Ret d ∧
    trace (execute_command subprocess_run self command g).2
      = (trace g ++ later)%list.
Proof.
  unfold execute_command.
  destruct (executable_path self) as [[|c path]|].
  1,3: eexists _, []; split; [done|]; by rewrite app_nil_r.
  rewrite try_except_run, bind_run. unfold run.
  destruct (subprocess_run (runs g) [String c path; command]) as [d [result|e]].
  - destruct (returncode result =? 0);
      [destruct (last (clean_lines (PyStr.strip (stdout result))))|];
      eexists _, [_]; done.
  - destruct (is_timeout e); eexists _, [_]; done.
Qed.

Lemma engine_then_fallback_trace (command : string) (g : Gui) :
  ∃ later,
    trace (engine_then_fallback P subprocess_run command g).2
    = (trace g ++ later)%list.
Proof.
  unfold engine_then_fallback. rewrite bind_run. cbn [get].
  destruct (if engine_available g then cpp_engine g else None) as [engine|].
  - rewrite bind_run.
    destruct (execute_command_trace engine command g) as (d & later & Hd & Ht).
    destruct (execute_command subprocess_run engine command g) as [o g1].
    cbn [fst snd] in *. subst o.
    destruct (truth (d !! "success")).
    + by exists later.
    + rewrite bind_run, python_math_fallback_run.
      eexists (later ++ [_])%list.
      destruct (truth (_ !! "success")); cbn; by rewrite Ht, <- app_assoc.
  - rewrite python_math_fallback_run. by eexists [_].
Qed.

(** The dispatcher on a simple-arithmetic command. *)
Lemma execute_math_command_simple (command : string) (g : Gui) :
  is_simple_arithmetic command = true →
  let env := GUISpec.fallback_env g in
  let g1 := emit (EvEval command env) g in
  execute_math_command P subprocess_run command g =
  match py_eval P command env with
  | Ret v =>
      match py_str P v with
      | Ret text =>
          (Ret (<["fast_eval" := VBool true]> (GUISpec.fallback_success text)), g1)
      | Raise _ => engine_then_fallback P subprocess_run command g1
      end
  | Raise _ => engine_then_fallback P subprocess_run command g1
  end.
Proof.
  intros Hsimple env g1.
  destruct (simple_not_special command Hsimple) as (Hhelp & Hmode & Hrepl).
  unfold execute_math_command. rewrite Hhelp, Hmode, Hrepl, Hsimple.
  rewrite !bind_run, python_math_fallback_run. fold env g1.
  destruct (py_eval P command env) as [v|e];
    [destruct (py_str P v) as [text|e]|].
  - by rewrite fallback_truth_success.
  - by rewrite fallback_truth_failure.
  - by rewrite fallback_truth_failure.
Qed.


(** *** Failure of the engine *)

(** The engine interface always answers with a dictionary: a success,
    or a failure that asks for the fallback. *)
Lemma execute_command_run (self : CppEngineInterface) (command : string)
  (g : Gui) :
  ∃ d,
    (execute_command subprocess_run self command g).1 = Ret d ∧
    if GUISpec.engine_failed subprocess_run self command g
    then ∃ msg, d = GUISpec.engine_failure msg
    else d !! "success" = Some (VBool true).
Proof.
  unfold execute_command, GUISpec.engine_failed.
  destruct (executable_path self) as [[|c path]|].
  1,3: eexists; split; [done|]; by eexists.
  rewrite try_except_run, bind_run. unfold run.
  destruct (subprocess_run (runs g) [String c path; command]) as [d [result|e]];
    cbn [fst snd].
  - destruct (returncode result =? 0); cbn [negb].
    + destruct (last (clean_lines (PyStr.strip (stdout result))));
        eexists; (split; [done|]); reflexivity.
    + eexists; split; [done|]. by eexists.
  - destruct (is_timeout e); eexists; (split; [done|]); by eexists.
Qed.

(** The result handler on a failed engine result, when the local
    evaluator succeeds. *)
Lemma handle_engine_failure (msg command : string) (g : Gui) (v : Value P)
  (text : string) :
  py_eval P command (GUISpec.fallback_env g) = Ret v →
  py_str P v = Ret text →
  handle_command_result P (GUISpec.engine_failure msg) command g =
  (Ret tt,
   fold_left (fun g ev => emit ev g) (GUISpec.auto_fallback_events g command text) g).
Proof.
  intros Heval Hstr. unfold handle_command_result.
  rewrite bind_run. cbn [do modify].
  change (truth (GUISpec.engine_failure msg !! "mode_change")) with false.
  cbn iota. rewrite bind_run. cbn [mret M_ret ret].
  change (GUISpec.engine_failure msg !! "success") with (Some (VBool false)).
  cbn iota. change (truth (Some (VBool false))) with false. cbn iota.
  change (truth (GUISpec.engine_failure msg !! "fallback_needed")) with true.
  cbn iota. rewrite bind_run, try_except_run, bind_run.
  rewrite python_math_fallback_run.
  change (GUISpec.fallback_env (emit EvProgressStop g)) with (GUISpec.fallback_env g).
  rewrite Heval, Hstr, fallback_truth_success.
  unfold clear_unless_repl.
  change (truth (GUISpec.engine_failure msg !! "special")) with false.
  change (fmt (default VNone (GUISpec.fallback_success text !! "result")))
    with text.
  unfold GUISpec.auto_fallback_events.
  unfold mbind, M_bind, bind, do, modify, get, mret, M_ret, ret.
  cbn [python_repl_mode emit negb andb].
  destruct (python_repl_mode g); reflexivity.
Qed.

Lemma trace_emit_all (events : list event) (g : Gui) :
  trace (fold_left (fun g ev => emit ev g) events g) = (trace g ++ events)%list.
Proof.
  revert g. induction events as [|ev events IH]; intros g; cbn.
  - by rewrite app_nil_r.
  - rewrite IH. cbn. by rewrite <- app_assoc.
Qed.

(** C4.  Whatever the command, the engine interface answers with a
    dictionary.  When the invocation fails (no executable, a non-zero
    exit code, a timeout or another exception) the dictionary says so
    and is marked as needing the fallback; and whenever the local
    evaluator then evaluates the same command successfully, the result
    handler shows its value as a result of the automatic fallback and
    shows no error. *)
Theorem engine_failure_falls_back (self : CppEngineInterface)
  (command : string) (g0 : Gui) :
  GUISpec.engine_failed subprocess_run self command g0 = true →
  ∃ cpp_result,
    (execute_command subprocess_run self command g0).1 = Ret cpp_result ∧
    cpp_result !! "success" = Some (VBool false) ∧
    cpp_result !! "fallback_needed" = Some (VBool true) ∧
    ∀ g v text,
      py_eval P command (GUISpec.fallback_env g) = Ret v →
      py_str P v = Ret text →
      let h := handle_command_result P cpp_result command g in
      h.1 = Ret tt ∧
      trace h.2 = (trace g ++ GUISpec.auto_fallback_events g command text)%list ∧
      existsb is_error_output (GUISpec.auto_fallback_events g command text) = false.
Proof.
  intros Hfailed.
  destruct (execute_command_run self command g0) as (d & Hd & Hcase).
  rewrite Hfailed in Hcase. destruct Hcase as (msg & ->).
  exists (GUISpec.engine_failure msg). split_and!; [done|done|done|].
  intros g v text Heval Hstr h. subst h.
  rewrite (handle_engine_failure msg command g v text Heval Hstr).
  split_and!; [done|apply trace_emit_all|].
  unfold GUISpec.auto_fallback_events. by destruct (python_repl_mode g).
Qed.

End Facts.

(** *** The evaluation environment *)

Lemma list_to_map_is_Some {A} (l : list (string * A)) (x : string) :
  is_Some ((list_to_map l : gmap string A) !! x) ↔ x ∈ l.*1.
Proof.
  rewrite <- not_eq_None_Some, <- not_elem_of_list_to_map.
  split; [|by intros ? ?]. intros Hnn. by destruct (decide (x ∈ l.*1)).
Qed.

(** The environment binds [__builtins__] to the empty dictionary, and
    apart from that the names of the white list and no others. *)
Lemma safe_dict_names (numpy : bool) :
  safe_dict numpy !! "__builtins__" = Some EmptyDict ∧
  ∀ x, is_Some (safe_dict numpy !! x) ↔ x = "__builtins__" ∨ x ∈ whitelist numpy.
Proof.
  split; [by destruct numpy|]. intros x.
  assert (Hmath : is_Some ((list_to_map safe_dict_math : gmap string pyobj) !! x)
                  ↔ x = "__builtins__" ∨ x ∈ whitelist false).
  { rewrite list_to_map_is_Some.
    change (safe_dict_math.*1) with ("__builtins__" :: whitelist false).
    by rewrite elem_of_cons. }
  destruct numpy; [|done].
  unfold safe_dict, dict_update. rewrite lookup_union_is_Some, Hmath.
  rewrite list_to_map_is_Some.
  change (safe_dict_numpy.*1) with ["np"; "array"; "sum"; "mean"; "std"].
  change (whitelist true)
    with (whitelist false ++ ["np"; "array"; "sum"; "mean"; "std"])%list.
  rewrite elem_of_app. tauto.
Qed.

(** *** Names in the fragment *)

Lemma arith_err (f : Z → Z → Z) (va : PyFragment.value) (e : pyexc) :
  PyFragment.arith f (PyFragment.Ok va) (PyFragment.Err e) = PyFragment.Err e.
Proof. by destruct va. Qed.

(** The first name that is looked up and not bound ends the evaluation
    with a [NameError]. *)
Lemma lookups_unbound (env : gmap string pyobj) (e : PyFragment.expr) (x : string) :
  x ∈ PyFragment.lookups env e → env !! x = None →
  ∃ y, env !! y = None ∧
       PyFragment.eval_expr env e = PyFragment.Err (PyFragment.NameError y).
Proof.
  induction e as [z|x0|a IHa|a IHa|a IHa b IHb|a IHa b IHb|a IHa b IHb
                 |a IHa b IHb|a IHa b IHb]; cbn [PyFragment.lookups PyFragment.eval_expr];
    intros Hin Hx.
  - by apply elem_of_nil in Hin.
  - apply list_elem_of_singleton in Hin as ->. exists x0. by rewrite Hx.
  - destruct (IHa Hin Hx) as (y & Hy & ->). by exists y.
  - destruct (IHa Hin Hx) as (y & Hy & ->). by exists y.
  - apply elem_of_app in Hin as [Hin|Hin].
    + destruct (IHa Hin Hx) as (y & Hy & ->). by exists y.
    + destruct (PyFragment.eval_expr env a) as [va| |]; try by apply elem_of_nil in Hin.
      destruct (IHb Hin Hx) as (y & Hy & ->). exists y. by rewrite arith_err.
  - apply elem_of_app in Hin as [Hin|Hin].
    + destruct (IHa Hin Hx) as (y & Hy & ->). by exists y.
    + destruct (PyFragment.eval_expr env a) as [va| |]; try by apply elem_of_nil in Hin.
      destruct (IHb Hin Hx) as (y & Hy & ->). exists y. by rewrite arith_err.
  - apply elem_of_app in Hin as [Hin|Hin].
    + destruct (IHa Hin Hx) as (y & Hy & ->). by exists y.
    + destruct (PyFragment.eval_expr env a) as [va| |]; try by apply elem_of_nil in Hin.
      destruct (IHb Hin Hx) as (y & Hy & ->). exists y. by rewrite arith_err.
  - apply elem_of_app in Hin as [Hin|Hin].
    + destruct (IHa Hin Hx) as (y & Hy & ->). by exists y.
    + destruct (PyFragment.eval_expr env a) as [va| |]; try by apply elem_of_nil in Hin.
      destruct (PyFragment.truthy va); [|by apply elem_of_nil in Hin].
      destruct (IHb Hin Hx) as (y & Hy & ->). by exists y.
  - apply elem_of_app in Hin as [Hin|Hin].
    + destruct (IHa Hin Hx) as (y & Hy & ->). by exists y.
    + destruct (PyFragment.eval_expr env a) as [va| |]; try by apply elem_of_nil in Hin.
      destruct (PyFragment.truthy va); [by apply elem_of_nil in Hin|].
      destruct (IHb Hin Hx) as (y & Hy & ->). by exists y.
Qed.




(** C4 at work: the engine rejects [2+2], the local evaluator knows it. *)
Lemma engine_failure_falls_back_witness :
  ∃ cpp_result,
    (execute_command GUISamples.engine_rejecting
       {| executable_path := Some "build/cpp_dynamic_calc" |} "2+2"
       GUISamples.gui_start).1 = Ret cpp_result ∧
    trace (handle_command_result PyFragment.python cpp_result "2+2"
             GUISamples.gui_start).2
    = [ EvProgressStop;
        EvEval "2+2" (GUISpec.fallback_env GUISamples.gui_start);
        EvOutput "🐍 4 (Auto-fallback)" "result";
        EvStatus "Ready";
        EvClearInput ].
Proof.
  destruct (engine_failure_falls_back PyFragment.python GUISamples.engine_rejecting
              {| executable_path := Some "build/cpp_dynamic_calc" |} "2+2"
              GUISamples.gui_start eq_refl) as (d & Hd & _ & _ & H).
  exists d. split; [exact Hd|].
  destruct (H GUISamples.gui_start (PyFragment.VInt 4) "4" eq_refl eq_refl)
    as (_ & Ht & _).
  exact Ht.
Defined.


End GUIProps.


(** ** The whole suite *)

Module QAFullProps.
Import QA QAFull.

(** The search for the executable returns the first candidate that
    exists. *)
Lemma first_existing_spec (E : Env) (paths : list string) :
  match first_existing E paths with
  | Some path =>
      ∃ before after,
        paths = (before ++ path :: after)%list ∧
        path_exists E path = true ∧
        Forall (fun q => path_exists E q = false) before
  | None => Forall (fun q => path_exists E q = false) paths
  end.
Proof.
  induction paths as [|q paths IH]; cbn; [by apply Forall_nil_2|].
  destruct (path_exists E q) eqn:Hq.
  - exists [], paths. split_and!; [done|done|by apply Forall_nil_2].
  - destruct (first_existing E paths) as [path|].
    + destruct IH as (before & after & -> & Hp & Hb).
      exists (q :: before), after. split_and!; [done|done|by apply Forall_cons_2].
    + by apply Forall_cons_2.
Qed.

(** X1.  [find_axiom_executable] answers with the first of its thirteen
    candidate paths that exists, and with [None] exactly when none of
    them exists. *)
Theorem find_axiom_executable_first (E : Env) :
  length possible_paths = 13%nat ∧
  match find_axiom_executable E with
  | Some path =>
      ∃ before after,
        possible_paths = (before ++ path :: after)%list ∧
        path_exists E path = true ∧
        Forall (fun q => path_exists E q = false) before
  | None => Forall (fun q => path_exists E q = false) possible_paths
  end.
Proof. split; [done|]. apply first_existing_spec. Qed.


(** *** What each test records, when there is an executable *)

Section Found.
Variable E : Env.
Variable axiom_path : option string.
Hypothesis found : path_missing axiom_path = false.

(** Test 1.1 records its entry. *)
Lemma binary_identity_check_records :
  QAFullSpec.records set_architecture "binary_identity"
    (binary_identity_check E axiom_path).
Proof.
  intros s. unfold binary_identity_check.
  rewrite try_except_run, bind_run, QAProps.run_run.
  destruct (subprocess_run E (runs s) _).2 as [result|e].
  - destruct (PyStr.contains IDENTITY (stdout result)); by eexists _, _, _.
  - by eexists _, _, _.
Qed.

(** The reading loop changes no result. *)
Lemma daemon_handshake_records (fuel : nat) (s : State) :
  let r := daemon_handshake E axiom_path fuel s in
  (r.1 = Ret OutOfFuel) ∨
  ∃ h v, r.1 = Ret h ∧ results r.2 = set_architecture "daemon_handshake" v (results s).
Proof.
  cbn zeta. unfold daemon_handshake.
  rewrite try_except_run, bind_run.
  destruct (Popen_daemon E axiom_path s) as [[[]|e] s0] eqn:Hpopen.
  2: { assert (s0 = s) as ->.
       { unfold Popen_daemon, option_raise in Hpopen.
         destruct axiom_path; [destruct (popen E _)|]; by inversion Hpopen. }
       right. by eexists _, _. }
  assert (s0 = s) as ->.
  { unfold Popen_daemon, option_raise in Hpopen.
    destruct axiom_path; [destruct (popen E _)|]; by inversion Hpopen. }
  clear Hpopen. rewrite bind_run. cbn [time_sleep].
  destruct (bool_decide (daemon_poll E = None)).
  2: { right. by eexists _, _. }
  rewrite bind_run. unfold stdin_write_flush. rewrite bind_run.
  unfold option_raise.
  destruct (stdin_write E test_command) as [e|].
  { right. by eexists _, _. }
  cbn [mret M_ret ret]. rewrite bind_run. cbn [modify].
  destruct (stdin_flush E) as [e|].
  { right. by eexists _, _. }
  cbn [mret M_ret ret]. rewrite bind_run. cbn [time_time gets]. rewrite bind_run.
  match goal with
  | |- context [read_response E fuel ?t "" ?s2] =>
      pose proof (QAProps.read_response_run E fuel t "" s2 eq_refl) as Hloop;
      destruct (read_response E fuel t "" s2) as [[[response|]|e] s3]
  end.
  - destruct Hloop as (new & (Hres & _) & _). cbn [snd] in Hres.
    right. rewrite bind_run. cbn [modify]. rewrite bind_run.
    destruct (PyStr.contains SENTINEL response);
      eexists _, _; (split; [reflexivity|]);
      unfold mbind, M_bind, bind, record_architecture, modify, mret, M_ret, ret;
      cbn [snd results with_results set_terminated];
      rewrite Hres; reflexivity.
  - by left.
  - destruct Hloop as (new & (Hres & _) & _). cbn [snd] in Hres.
    right. eexists _, _. split; [reflexivity|].
    unfold mbind, M_bind, bind, record_architecture, modify, mret, M_ret, ret.
    cbn [snd results with_results].
    rewrite Hres. reflexivity.
Qed.

Lemma test_daemon_handshake_records :
  QAFullSpec.records set_architecture "daemon_handshake"
    (test_daemon_handshake E axiom_path).
Proof.
  intros s.
  destruct (QAProps.test_daemon_handshake_total E axiom_path s) as (h & Hh & Hne).
  unfold test_daemon_handshake in *.
  destruct (daemon_handshake_records read_fuel s) as [Hout|(h' & v & Hh' & Hres)].
  - rewrite Hout in Hh. by inversion Hh.
  - destruct (daemon_handshake E axiom_path read_fuel s) as [o s'].
    cbn [fst snd] in *. exists h', v, s'. by rewrite Hh'.
Qed.


(** The namespace test records its entry, unless reading a file raises. *)
Lemma test_namespace_purity_records (s : State) :
  (∃ e, test_namespace_purity E s = (Raise e, s)) ∨
  ∃ v s', test_namespace_purity E s = (Ret tt, s') ∧
          results s' = set_architecture "namespace_purity" v (results s).
Proof.
  unfold test_namespace_purity. rewrite bind_run.
  pose proof (QAProps.scan_files_state E critical_files [] s) as Hscan.
  destruct (scan_files E critical_files [] s) as [[remaining|e] s1];
    cbn [snd] in Hscan; subst s1; [|left; by exists e].
  right. destruct remaining; by eexists _, _.
Qed.

(** The loop of the latency test records at most its own failure. *)
Lemma latency_loop_results (indices : list nat) (s : State) :
  let r := latency_loop E axiom_path indices s in
  match r.1 with
  | Ret true => results r.2 = results s
  | Ret false => ∃ v, results r.2 = set_performance "latency" v (results s)
  | Raise e => results r.2 = results s
  end.
Proof.
  revert s. induction indices as [|i rest IH]; intros s; [done|].
  cbn [latency_loop]. rewrite bind_run, QAProps.run_run.
  destruct (subprocess_run E (runs s) _).2 as [result|e]; [|done].
  destruct (negb _ || negb _).
  - rewrite bind_run. by eexists.
  - apply (IH (advance _ (log_run _ s))).
Qed.

Lemma test_latency_ping_records :
  QAFullSpec.records set_performance "latency" (test_latency_ping E axiom_path).
Proof.
  intros s. unfold test_latency_ping. rewrite found.
  rewrite try_except_run, bind_run. cbn [time_time gets]. rewrite bind_run.
  pose proof (latency_loop_results (seq 0 100) s) as Hloop. cbn zeta in Hloop.
  destruct (latency_loop E axiom_path (seq 0 100) s) as [[[]|e] s1];
    cbn [fst snd] in Hloop.
  - rewrite bind_run. cbn [time_time gets].
    repeat (match goal with |- context [if ?b then _ else _] => destruct b end);
      eexists _, _, _; (split; [reflexivity|]);
      unfold record_performance, modify; cbn [results with_results];
      by rewrite Hloop.
  - destruct Hloop as (v & Hv). by exists tt, v, s1.
  - eexists _, _, _. split; [reflexivity|].
    unfold record_performance, modify. cbn [results with_results].
    by rewrite Hloop.
Qed.

Lemma test_throughput_flood_records :
  QAFullSpec.records set_performance "throughput"
    (test_throughput_flood E axiom_path).
Proof.
  intros s. unfold test_throughput_flood. rewrite found.
  rewrite try_except_run, bind_run. cbn [memory_info_rss gets].
  rewrite bind_run. cbn [time_time gets]. rewrite bind_run.
  pose proof (QAProps.flood_loop_run E axiom_path (seq 0 10) s) as (Hres & _).
  destruct (flood_loop E axiom_path (seq 0 10) s) as [[[]|e] s1];
    cbn [fst snd] in Hres.
  - rewrite bind_run. cbn [time_time gets].
    rewrite bind_run. cbn [memory_info_rss gets].
    destruct (_ <? _); eexists _, _, _; (split; [reflexivity|]);
      unfold record_performance, modify; cbn [results with_results];
      by rewrite Hres.
  - eexists _, _, _. split; [reflexivity|].
    unfold record_performance, modify. cbn [results with_results].
    by rewrite Hres.
Qed.

(** The symbolic test records PARTIAL or FAIL, and nothing else. *)
Lemma test_symbolic_core_run (s : State) :
  let argv := [path_arg axiom_path; "symbolic"] in
  let o := (subprocess_run E (runs s) argv).2 in
  let working := match o with
                 | Ret result => returncode result =? 0
                 | Raise _ => false
                 end in
  test_symbolic_core E axiom_path s =
  (Ret tt,
   with_results (set_functional "symbolic" (if working then "PARTIAL" else "FAIL"))
     (advance (subprocess_run E (runs s) argv).1 (log_run argv s))).
Proof.
  cbn zeta. unfold test_symbolic_core. rewrite found.
  rewrite bind_run. cbn [symbolic_test_cases symbolic_loop].
  rewrite bind_run, try_except_run, bind_run, QAProps.run_run.
  destruct (subprocess_run E (runs s) _).2 as [result|e]; [|done].
  by destruct (returncode result =? 0).
Qed.

Lemma test_linear_algebra_records :
  QAFullSpec.records set_functional "linear_algebra"
    (test_linear_algebra E axiom_path).
Proof.
  intros s. unfold test_linear_algebra. rewrite found.
  rewrite try_except_run, bind_run, QAProps.run_run.
  destruct (subprocess_run E (runs s) _).2 as [result|e].
  - destruct (PyStr.contains "6" (stdout result)); by eexists _, _, _.
  - by eexists _, _, _.
Qed.

Lemma test_precision_check_records :
  QAFullSpec.records set_functional "precision"
    (test_precision_check E axiom_path).
Proof.
  clear found. intros s. unfold test_precision_check, run_unchecked.
  rewrite try_except_run, bind_run.
  destruct axiom_path as [path|]; [|by eexists _, _, _].
  rewrite QAProps.run_run.
  destruct (subprocess_run E (runs s) _).2 as [result|e].
  - destruct (returncode result =? 0); by eexists _, _, _.
  - by eexists _, _, _.
Qed.

Lemma test_fuzzing_records :
  QAFullSpec.records set_security "fuzzing" (test_fuzzing E axiom_path).
Proof.
  intros s. unfold test_fuzzing. rewrite found. rewrite bind_run.
  destruct (QAProps.fuzz_loop_run E axiom_path malicious_inputs 0 s)
    as (s1 & Heq & Hres & _).
  rewrite Heq.
  destruct (Nat.eqb _ 0); eexists _, _, _; (split; [reflexivity|]);
    unfold record_security, modify; cbn [results with_results];
    by rewrite Hres.
Qed.

Lemma test_buffer_overflow_records :
  QAFullSpec.records set_security "buffer_overflow"
    (test_buffer_overflow E axiom_path).
Proof.
  intros s. unfold test_buffer_overflow. rewrite found.
  rewrite try_except_run, bind_run, QAProps.run_run.
  destruct (subprocess_run E (runs s) _).2 as [result|e].
  - destruct (0 <=? returncode result); by eexists _, _, _.
  - destruct (is_timeout e); by eexists _, _, _.
Qed.


Lemma test_symbolic_core_records :
  ∀ s, ∃ v s',
    test_symbolic_core E axiom_path s = (Ret tt, s') ∧
    (v = "PARTIAL" ∨ v = "FAIL") ∧
    results s' = set_functional "symbolic" v (results s).
Proof.
  intros s. rewrite test_symbolic_core_run. eexists _, _.
  split; [reflexivity|]. split; [|reflexivity].
  match goal with |- context [if ?b then _ else _] => destruct b end; auto.
Qed.

(** Section 1 records its three entries, unless reading a file raises. *)
Lemma section_1_records (s : State) :
  (∃ e s', section_1_architecture_verification E axiom_path s = (Raise e, s')) ∨
  ∃ v1 v2 v3 s',
    section_1_architecture_verification E axiom_path s = (Ret true, s') ∧
    results s' =
      set_architecture "namespace_purity" v3
        (set_architecture "daemon_handshake" v2
           (set_architecture "binary_identity" v1 (results s))).
Proof.
  unfold section_1_architecture_verification. rewrite found.
  destruct (binary_identity_check_records s) as ([] & v1 & s1 & H1 & R1).
  rewrite bind_run, H1.
  destruct (test_daemon_handshake_records s1) as (h & v2 & s2 & H2 & R2).
  rewrite bind_run, H2.
  rewrite bind_run.
  destruct (test_namespace_purity_records s2) as [(e & H3)|(v3 & s3 & H3 & R3)];
    rewrite H3.
  - left. by exists e, s2.
  - right. exists v1, v2, v3, s3. split; [done|]. by rewrite R3, R2, R1.
Qed.

Lemma section_2_records (s : State) :
  ∃ p1 p2 s',
    section_2_performance_stress_testing E axiom_path s = (Ret tt, s') ∧
    results s' =
      set_performance "concurrency" "NOT_IMPLEMENTED"
        (set_performance "throughput" p2
           (set_performance "latency" p1 (results s))).
Proof.
  unfold section_2_performance_stress_testing.
  destruct (test_latency_ping_records s) as ([] & p1 & s1 & H1 & R1).
  rewrite bind_run, H1.
  destruct (test_throughput_flood_records s1) as ([] & p2 & s2 & H2 & R2).
  rewrite bind_run, H2.
  exists p1, p2. eexists. split; [reflexivity|].
  unfold test_concurrency_stress, record_performance, modify.
  cbn [snd results with_results]. by rewrite R2, R1.
Qed.

Lemma section_3_records (s : State) :
  ∃ f1 f2 f3 s',
    section_3_functional_audit E axiom_path s = (Ret tt, s') ∧
    (f1 = "PARTIAL" ∨ f1 = "FAIL") ∧
    results s' =
      set_functional "precision" f3
        (set_functional "linear_algebra" f2
           (set_functional "symbolic" f1 (results s))).
Proof.
  unfold section_3_functional_audit.
  destruct (test_symbolic_core_records s) as (f1 & s1 & H1 & Hf1 & R1).
  rewrite bind_run, H1.
  destruct (test_linear_algebra_records s1) as ([] & f2 & s2 & H2 & R2).
  rewrite bind_run, H2.
  destruct (test_precision_check_records s2) as ([] & f3 & s3 & H3 & R3).
  exists f1, f2, f3, s3. split_and!; [done|done|]. by rewrite R3, R2, R1.
Qed.

Lemma section_4_records (s : State) :
  ∃ s1 s2 s',
    section_4_security_stability E axiom_path s = (Ret tt, s') ∧
    results s' =
      set_security "buffer_overflow" s2 (set_security "fuzzing" s1 (results s)).
Proof.
  unfold section_4_security_stability.
  destruct (test_fuzzing_records s) as ([] & v1 & s1 & H1 & R1).
  rewrite bind_run, H1.
  destruct (test_buffer_overflow_records s1) as ([] & v2 & s2 & H2 & R2).
  exists v1, v2, s2. split; [done|]. by rewrite R2, R1.
Qed.

End Found.

(** *** Counting the results *)

Lemma values_insert (m : gmap string string) (k v : string) :
  m !! k = None →
  (map_to_list (<[k:=v]> m)).*2 ≡ₚ v :: (map_to_list m).*2.
Proof. intros Hk. by rewrite map_to_list_insert. Qed.

Lemma values_empty : (map_to_list (∅ : gmap string string)).*2 = [].
Proof. by rewrite map_to_list_empty. Qed.

Lemma verdicts_disjoint (l : list string) :
  (length (filter (fun v => Is_true (is_passed v)) l) +
   length (filter (fun v => Is_true (is_failed v)) l) ≤ length l)%nat.
Proof.
  induction l as [|v l IH]; [done|].
  rewrite !filter_cons.
  destruct (decide (Is_true (is_passed v))) as [Hp|Hp],
           (decide (Is_true (is_failed v))) as [Hf|Hf]; cbn [length]; try lia.
  exfalso. unfold is_passed, is_failed in *. by destruct (classify v).
Qed.

Lemma statuses_differ :
  SUCCESS ≠ PARTIAL_SUCCESS ∧ SUCCESS ≠ FAILURE ∧ PARTIAL_SUCCESS ≠ FAILURE.
Proof. split_and!; intros H; by inversion H. Qed.

Lemma assessment_success_iff (passed total : nat) :
  assessment passed total = SUCCESS ↔ (0 < total ∧ 4 * total ≤ 5 * passed)%nat.
Proof.
  destruct statuses_differ as (H12 & H13 & H23).
  unfold assessment, pass_rate_ge.
  destruct (0 <? total)%nat eqn:Ht.
  - apply Nat.ltb_lt in Ht.
    destruct (80 * Z.of_nat total <=? 100 * Z.of_nat passed) eqn:H80.
    + apply Z.leb_le in H80. split; [intros _; lia|done].
    + apply Z.leb_gt in H80.
      destruct (60 * Z.of_nat total <=? 100 * Z.of_nat passed);
        (split; [intros Heq; by (symmetry in Heq; first [apply H12 in Heq|apply H13 in Heq])|lia]).
  - apply Nat.ltb_ge in Ht. cbn. split; [intros Heq; by symmetry in Heq|lia].
Qed.

Lemma generate_report_run (write_report : Results -> option pyexc) (s : State) :
  let status := assessment (passed_tests (results s)) (total_tests (results s)) in
  generate_report write_report s =
    (match write_report (set_overall_status status (results s)) with
     | None => Ret (set_overall_status status (results s))
     | Some e => Raise e
     end,
     with_results (set_overall_status status) s).
Proof.
  intros status. unfold generate_report. rewrite bind_run. cbn [gets].
  fold status. rewrite bind_run. cbn [modify].
  rewrite bind_run. cbn [gets results with_results].
  by destruct (write_report _).
Qed.

Section Theorems.
Variable E : Env.
Variable axiom_path : option string.
Variable write_report : Results -> option pyexc.

(** X2.  The symbolic test cannot pass: with an executable it makes one
    run, of [symbolic], and records PARTIAL when that run returns with
    exit code zero and FAIL in every other case, also when the run
    raises; neither text counts as passed in the report.  Without an
    executable it does nothing. *)
Theorem symbolic_never_passes (s : State) :
  let argv := [path_arg axiom_path; "symbolic"] in
  let o := (subprocess_run E (runs s) argv).2 in
  let s' := (test_symbolic_core E axiom_path s).2 in
  let recorded := functional_tests (results s') !! "symbolic" in
  if path_missing axiom_path then test_symbolic_core E axiom_path s = (Ret tt, s)
  else
    run_log s' = (run_log s ++ [argv])%list ∧
    (recorded = Some "PARTIAL" ∨ recorded = Some "FAIL") ∧
    (recorded = Some "PARTIAL" ↔ ∃ result, o = Ret result ∧ returncode result = 0) ∧
    is_passed "PARTIAL" = false ∧ is_passed "FAIL" = false.
Proof.
  intros argv o s' recorded. subst s' recorded.
  destruct (path_missing axiom_path) eqn:Hfound.
  { unfold test_symbolic_core. by rewrite Hfound. }
  rewrite (test_symbolic_core_run E axiom_path Hfound). fold argv o.
  cbn [snd]. split; [done|].
  destruct o as [result|e]; [destruct (returncode result =? 0) eqn:Hrc|];
    cbn; rewrite lookup_insert_eq.
  - split_and!; [by left| |done|done]. split; [|done].
    intros _. exists result. split; [done|]. by apply Z.eqb_eq.
  - split_and!; [by right| |done|done]. split; [intros [=]|].
    intros (r & [= <-] & Hr). apply Z.eqb_neq in Hrc. done.
  - split_and!; [by right| |done|done]. split; [intros [=]|].
    by intros (r & [=] & _).
Qed.

(** X3.  The precision test is the one test without a guard: when no
    executable was found it still records a failure, without any run;
    with an executable it makes one run, of [0.1 + 0.2], and records PASS
    exactly when that run returns with exit code zero, whatever it
    printed. *)
Theorem precision_check_has_no_guard (s : State) :
  let s' := (test_precision_check E axiom_path s).2 in
  let recorded := functional_tests (results s') !! "precision" in
  match axiom_path with
  | None =>
      run_log s' = run_log s ∧ ∃ msg, recorded = Some ("FAIL - " ++ msg)
  | Some path =>
      let o := (subprocess_run E (runs s) [path; "0.1 + 0.2"]).2 in
      run_log s' = (run_log s ++ [[path; "0.1 + 0.2"]])%list ∧
      (recorded = Some "PASS" ↔ ∃ result, o = Ret result ∧ returncode result = 0)
  end.
Proof.
  intros s' recorded. subst s' recorded.
  unfold test_precision_check, run_unchecked.
  rewrite try_except_run, bind_run.
  destruct axiom_path as [path|].
  - rewrite QAProps.run_run. cbn zeta.
    destruct (subprocess_run E (runs s) [path; "0.1 + 0.2"]).2 as [result|e];
      [destruct (returncode result =? 0) eqn:Hrc|];
      cbn; rewrite lookup_insert_eq; (split; [done|]).
    + split; [|done]. intros _. exists result. split; [done|]. by apply Z.eqb_eq.
    + split; [intros [=]|]. intros (r & [= <-] & Hr).
      apply Z.eqb_neq in Hrc. done.
    + split; [intros [=]|]. by intros (r & [=] & _).
  - cbn. rewrite lookup_insert_eq. split; [done|]. by eexists.
Qed.

(** X4.  The report counts every recorded entry once; an entry counts
    as passed when its text contains PASS, also when it contains FAIL as
    well, and as failed when it contains FAIL and no PASS, so passed and
    failed together never exceed the total.  The overall status is
    SUCCESS exactly when there are tests and at least four fifths of them
    passed, FAILURE exactly when there are none or fewer than three fifths
    passed, and PARTIAL SUCCESS in between.  The status is stored before
    the report file is written: the written dictionary carries it, and it
    stays stored when the writing raises. *)
Theorem generate_report_assessment (s : State) :
  let r := results s in
  let total := total_tests r in
  let passed := passed_tests r in
  let status := assessment passed total in
  let report := set_overall_status status r in
  (passed + failed_tests r ≤ total)%nat ∧
  (∀ v, is_passed v = PyStr.contains "PASS" v) ∧
  (∀ v, is_failed v = negb (PyStr.contains "PASS" v) && PyStr.contains "FAIL" v) ∧
  (status = SUCCESS ↔ (0 < total ∧ 4 * total ≤ 5 * passed)%nat) ∧
  (status = FAILURE ↔ (total = 0 ∨ 5 * passed < 3 * total)%nat) ∧
  (status = SUCCESS ∨ status = PARTIAL_SUCCESS ∨ status = FAILURE) ∧
  generate_report write_report s =
    (match write_report report with
     | None => Ret report
     | Some e => Raise e
     end,
     with_results (set_overall_status status) s).
Proof.
  intros r total passed status report.
  destruct statuses_differ as (H12 & H13 & H23).
  split_and!.
  - apply verdicts_disjoint.
  - intros v. unfold is_passed, classify.
    destruct (PyStr.contains "PASS" v); [done|].
    by destruct (PyStr.contains "FAIL" v).
  - intros v. unfold is_failed, classify.
    destruct (PyStr.contains "PASS" v); [done|].
    by destruct (PyStr.contains "FAIL" v).
  - apply assessment_success_iff.
  - subst status. unfold assessment, pass_rate_ge.
    destruct (0 <? total)%nat eqn:Ht.
    + apply Nat.ltb_lt in Ht.
      destruct (80 * Z.of_nat total <=? 100 * Z.of_nat passed) eqn:H80.
      * apply Z.leb_le in H80. split; [done|lia].
      * apply Z.leb_gt in H80.
        destruct (60 * Z.of_nat total <=? 100 * Z.of_nat passed) eqn:H60.
        -- apply Z.leb_le in H60. split; [done|lia].
        -- apply Z.leb_gt in H60. split; [intros _; lia|done].
    + apply Nat.ltb_ge in Ht. cbn. split; [intros _; lia|done].
  - subst status. unfold assessment.
    destruct (pass_rate_ge 80 passed total); [by left|].
    destruct (pass_rate_ge 60 passed total); [right; by left|right; by right].
  - apply generate_report_run.
Qed.

End Theorems.

(** The suite, run on a fresh object with an executable, ends with the
    eleven entries of [complete_results], unless it raises. *)
Lemma run_full_test_suite_results (E : Env) (axiom_path : option string)
  (write_report : Results -> option pyexc) (s : State) :
  path_missing axiom_path = false →
  results s = initial_results →
  let r := run_full_test_suite E axiom_path write_report s in
  match r.1 with
  | Raise e => True
  | Ret report =>
      ∃ a1 a2 a3 p1 p2 f1 f2 f3 s1 s2 status,
        report = QAFullSpec.complete_results a1 a2 a3 p1 p2 f1 f2 f3 s1 s2 status ∧
        (f1 = "PARTIAL" ∨ f1 = "FAIL") ∧
        status = assessment (passed_tests report) (total_tests report) ∧
        results r.2 = report
  end.
Proof.
  intros Hfound Hinit. cbn zeta. unfold run_full_test_suite.
  rewrite bind_run.
  destruct (section_1_records E axiom_path Hfound s)
    as [(e & s' & H1)|(a1 & a2 & a3 & s1 & H1 & R1)]; rewrite H1; [done|].
  rewrite bind_run.
  destruct (section_2_records E axiom_path Hfound s1) as (p1 & p2 & s2 & H2 & R2).
  rewrite H2, bind_run.
  destruct (section_3_records E axiom_path Hfound s2)
    as (f1 & f2 & f3 & s3 & H3 & Hf1 & R3).
  rewrite H3, bind_run.
  destruct (section_4_records E axiom_path Hfound s3) as (x1 & x2 & s4 & H4 & R4).
  rewrite H4.
  pose proof (generate_report_run write_report s4) as Hrep.
  cbn zeta in Hrep. rewrite Hrep. clear Hrep.
  rewrite R4, R3, R2, R1, Hinit.
  match goal with
  | |- context [set_overall_status ?st ?R] =>
      set (status := st);
      assert (set_overall_status status R
              = QAFullSpec.complete_results a1 a2 a3 p1 p2 f1 f2 f3 x1 x2 status)
        as -> by reflexivity
  end.
  destruct (write_report _); [done|]. cbn [fst snd].
  exists a1, a2, a3, p1, p2, f1, f2, f3, x1, x2, status.
  split_and!; [reflexivity|done|reflexivity|].
  unfold with_results. cbn [results].
  rewrite R4, R3, R2, R1, Hinit. reflexivity.
Qed.

Lemma complete_results_entries (a1 a2 a3 p1 p2 f1 f2 f3 s1 s2 status : string) :
  entries (QAFullSpec.complete_results a1 a2 a3 p1 p2 f1 f2 f3 s1 s2 status)
  ≡ₚ [a3; a2; a1; "NOT_IMPLEMENTED"; p2; p1; f3; f2; f1; s2; s1].
Proof.
  unfold entries, QAFullSpec.complete_results.
  cbn [architecture_tests performance_tests functional_tests security_tests].
  rewrite !values_insert, values_empty by (by simplify_map_eq).
  done.
Qed.

(** X5.  When none of the candidate paths exists, the main program makes
    no run at all and records three entries: the missing executable, the
    concurrency test that is not implemented, and the precision test,
    which fails on the missing path.  None of them passes, and the
    overall status is FAILURE. *)
Theorem main_without_executable (E : Env) (write_report : Results -> option pyexc)
  (t0 : Z) :
  find_axiom_executable E = None →
  let report :=
    {| architecture_tests := {["binary_identity" := "FAIL - Executable not found"]};
       performance_tests := {["concurrency" := "NOT_IMPLEMENTED"]};
       functional_tests :=
         {["precision" :=
             "FAIL - expected str, bytes or os.PathLike object, not NoneType"]};
       security_tests := ∅;
       overall_status := FAILURE |} in
  main E write_report t0 =
    (match write_report report with
     | None => Ret report
     | Some e => Raise e
     end,
     with_results (fun _ => report) (initial_state t0)) ∧
  total_tests report = 3%nat ∧ passed_tests report = 0%nat ∧
  failed_tests report = 2%nat.
Proof.
  intros Hnone report. split; [|by vm_compute].
  unfold main. rewrite Hnone. subst report. vm_compute.
  by destruct (write_report _).
Qed.

(** X6.  On an executable that was found, a suite that runs to its end
    on a fresh object has recorded eleven entries, of which at most nine
    count as passed: the concurrency test always records NOT_IMPLEMENTED
    and the symbolic test never more than PARTIAL.  The overall status is
    therefore SUCCESS exactly when all of the other nine entries count as
    passed. *)
Theorem full_suite_passes_at_most_nine (E : Env) (axiom_path : option string)
  (write_report : Results -> option pyexc) (t0 : Z) :
  path_missing axiom_path = false →
  let r := run_full_test_suite E axiom_path write_report (initial_state t0) in
  match r.1 with
  | Raise e => True
  | Ret report =>
      results r.2 = report ∧
      total_tests report = 11%nat ∧
      (passed_tests report ≤ 9)%nat ∧
      performance_tests report !! "concurrency" = Some "NOT_IMPLEMENTED" ∧
      (functional_tests report !! "symbolic" = Some "PARTIAL" ∨
       functional_tests report !! "symbolic" = Some "FAIL") ∧
      (overall_status report = SUCCESS ↔ passed_tests report = 9%nat)
  end.
Proof.
  intros Hfound r. subst r.
  pose proof (run_full_test_suite_results E axiom_path write_report
                (initial_state t0) Hfound eq_refl) as Hrun.
  cbn zeta in Hrun.
  destruct (run_full_test_suite E axiom_path write_report (initial_state t0)).1
    as [report|e]; [|done].
  destruct Hrun as (a1 & a2 & a3 & p1 & p2 & f1 & f2 & f3 & s1 & s2 & status
                    & Hrep & Hf1 & Hstatus & Hres).
  pose proof (complete_results_entries a1 a2 a3 p1 p2 f1 f2 f3 s1 s2 status) as Hperm.
  rewrite <- Hrep in Hperm.
  assert (Htotal : total_tests report = 11%nat).
  { unfold total_tests. by rewrite Hperm. }
  assert (Hpassed : (passed_tests report ≤ 9)%nat).
  { unfold passed_tests. rewrite Hperm.
    assert (is_passed f1 = false) as Hsym by (by destruct Hf1 as [-> | ->]).
    rewrite !filter_cons, filter_nil. rewrite Hsym.
    change (is_passed "NOT_IMPLEMENTED") with false.
    repeat case_decide; cbn [length]; try done; lia. }
  split_and!; [done|done|done| | |].
  - rewrite Hrep. cbn. by simplify_map_eq.
  - rewrite Hrep. cbn. simplify_map_eq. destruct Hf1 as [-> | ->]; auto.
  - assert (overall_status report = status) as -> by by rewrite Hrep.
    rewrite Hstatus, Htotal, assessment_success_iff. lia.
Qed.


(** The main program in a directory without any build. *)
Lemma main_without_executable_witness :
  total_tests (results (main Samples.env_good (fun _ => None) 0).2) = 3%nat ∧
  overall_status (results (main Samples.env_good (fun _ => None) 0).2) = FAILURE.
Proof.
  destruct (main_without_executable Samples.env_good (fun _ => None) 0 eq_refl)
    as (Hmain & Htotal & _).
  rewrite Hmain. split; [exact Htotal|reflexivity].
Defined.

(** The suite on an engine that computes: nine of eleven. *)
Lemma full_suite_passes_at_most_nine_witness :
  match (run_full_test_suite Samples.env_good Samples.found (fun _ => None)
           (initial_state 0)).1 with
  | Raise e => True
  | Ret report =>
      total_tests report = 11%nat ∧ passed_tests report = 9%nat ∧
      overall_status report = SUCCESS
  end.
Proof.
  pose proof (full_suite_passes_at_most_nine Samples.env_good Samples.found
                (fun _ => None) 0 eq_refl) as H.
  cbn zeta in H.
  destruct (run_full_test_suite Samples.env_good Samples.found (fun _ => None)
              (initial_state 0)).1 as [report|e] eqn:Hrun; [|exact I].
  destruct H as (_ & Htotal & _ & _ & _ & Hstatus).
  assert (passed_tests report = 9%nat) as Hnine.
  { vm_compute in Hrun. injection Hrun as <-. by vm_compute. }
  split_and!; [exact Htotal|exact Hnine|by apply Hstatus].
Defined.

End QAFullProps.

(** ** The core architecture test *)

Module CoreProps.
Import QA CoreTest CoreSpec.

Lemma runs_after_run (d : N) (argv : list string) (s : State) :
  runs (advance d (log_run argv s)) = S (runs s).
Proof. unfold runs. cbn. rewrite length_app. cbn. lia. Qed.

Lemma core_operations_run (E : Env) (p : string) (cases : list (string * string))
  (passed : nat) (s : State) :
  ∃ s', core_operations E p cases passed s
        = (Ret (passed + operations_passed E p (runs s) cases)%nat, s') ∧
        run_log s' = (run_log s ++ map (fun c => [p; c.1]) cases)%list ∧
        runs s' = (runs s + length cases)%nat.
Proof.
  revert passed s. induction cases as [|[expr expected] rest IH]; intros passed s.
  - exists s. cbn. rewrite Nat.add_0_r, app_nil_r. done.
  - cbn [core_operations]. rewrite bind_run, try_except_run, bind_run, QAProps.run_run.
    cbn [operations_passed operation_ok].
    set (s1 := advance _ (log_run _ s)).
    assert (runs s1 = S (runs s)) as Hruns by apply runs_after_run.
    assert (run_log s1 = (run_log s ++ [[p; expr]])%list) as Hlog by reflexivity.
    destruct (subprocess_run E (runs s) [p; expr]).2 as [result|e]; cbn [operation_ok].
    + destruct ((returncode result =? 0) && PyStr.contains expected (stdout result));
        cbn [mret M_ret ret];
        match goal with
        | |- context [core_operations E p rest ?n s1] =>
            destruct (IH n s1) as (s' & -> & Hl & Hr)
        | |- context [enterprise E p rest ?n s1] =>
            destruct (IH n s1) as (s' & -> & Hl & Hr)
        end; exists s';
        rewrite Hruns in *; (split; [f_equal; f_equal; lia|]);
        rewrite Hl, Hr, Hlog; cbn [map length fst]; rewrite <- app_assoc;
        (split; [done|lia]).
    + cbn [mret M_ret ret].
      destruct (IH passed s1) as (s' & -> & Hl & Hr); exists s'.
      rewrite Hruns in *. split; [f_equal|].
      rewrite Hl, Hr, Hlog; cbn [map length fst]; rewrite <- app_assoc.
      split; [done|lia].
Qed.

Lemma enterprise_run (E : Env) (p : string) (tests : list (string * string))
  (passed : nat) (s : State) :
  ∃ s', enterprise E p tests passed s
        = (Ret (passed + features_passed E p (runs s) tests)%nat, s') ∧
        run_log s' = (run_log s ++ map (fun t => [p; t.1]) tests)%list ∧
        runs s' = (runs s + length tests)%nat.
Proof.
  revert passed s. induction tests as [|[flag keyword] rest IH]; intros passed s.
  - exists s. cbn. rewrite Nat.add_0_r, app_nil_r. done.
  - cbn [enterprise]. rewrite bind_run, try_except_run, bind_run, QAProps.run_run.
    cbn [features_passed].
    set (s1 := advance _ (log_run _ s)).
    assert (runs s1 = S (runs s)) as Hruns by apply runs_after_run.
    assert (run_log s1 = (run_log s ++ [[p; flag]])%list) as Hlog by reflexivity.
    destruct (subprocess_run E (runs s) [p; flag]).2 as [result|e]; cbn [feature_ok].
    + destruct (PyStr.contains (PyStr.lower keyword) (PyStr.lower (stdout result))
                || (returncode result =? 0));
        cbn [mret M_ret ret];
        match goal with
        | |- context [core_operations E p rest ?n s1] =>
            destruct (IH n s1) as (s' & -> & Hl & Hr)
        | |- context [enterprise E p rest ?n s1] =>
            destruct (IH n s1) as (s' & -> & Hl & Hr)
        end; exists s';
        rewrite Hruns in *; (split; [f_equal; f_equal; lia|]);
        rewrite Hl, Hr, Hlog; cbn [map length fst]; rewrite <- app_assoc;
        (split; [done|lia]).
    + cbn [mret M_ret ret].
      destruct (IH passed s1) as (s' & -> & Hl & Hr); exists s'.
      rewrite Hruns in *. split; [f_equal|].
      rewrite Hl, Hr, Hlog; cbn [map length fst]; rewrite <- app_assoc.
      split; [done|lia].
Qed.

Lemma benchmark_run (E : Env) (p : string) (indices : list nat) (times : list Z)
  (s : State) :
  ∃ times' s', benchmark E p indices times s = (Ret times', s') ∧
    run_log s' = (run_log s ++ replicate (length indices) [p; "2+2"])%list ∧
    runs s' = (runs s + length indices)%nat.
Proof.
  revert times s. induction indices as [|i rest IH]; intros times s.
  - exists times, s. cbn. rewrite Nat.add_0_r, app_nil_r. done.
  - cbn [benchmark]. rewrite bind_run, try_except_run, bind_run.
    cbn [time_time gets]. rewrite bind_run, QAProps.run_run.
    set (s1 := advance _ (log_run _ s)).
    assert (runs s1 = S (runs s)) as Hruns by apply runs_after_run.
    assert (run_log s1 = (run_log s ++ [[p; "2+2"]])%list) as Hlog by reflexivity.
    destruct (subprocess_run E (runs s) [p; "2+2"]).2 as [result|e].
    + rewrite bind_run. unfold time_time, gets, mret, M_ret, ret. cbn beta iota.
      match goal with
      | |- context [benchmark E p rest ?t s1] =>
          destruct (IH t s1) as (t' & s' & -> & Hl & Hr)
      end.
      exists t', s'. split; [done|].
      rewrite Hl, Hr, Hlog, Hruns. cbn [length replicate]. rewrite <- app_assoc.
      cbn [app].
      split; [done|lia].
    + cbn [mret M_ret ret].
      destruct (IH times s1) as (t' & s' & -> & Hl & Hr).
      exists t', s'. split; [done|].
      rewrite Hl, Hr, Hlog, Hruns. cbn [length replicate]. rewrite <- app_assoc.
      cbn [app].
      split; [done|lia].
Qed.


Lemma core_architecture_verdict_sample :
  (test_core_architecture CoreSamples.env_ninja (initial_state 0)).1 = Ret false.
Proof. vm_compute. reflexivity. Qed.

(** X8.  The two test scripts look for the executable independently.
    Whenever the core architecture test finds one, the QA suite finds one
    too, and it is the same file unless the core test settled for the
    CLion debug build while a [build/Debug] or [build/Release] build
    exists, which the QA suite prefers. *)
Theorem scripts_agree_on_executable (E : Env) (path : string) :
  first_existing E possible_paths = Some path →
  ∃ qa_path, QAFull.find_axiom_executable E = Some qa_path ∧
    (qa_path = path ∨
     (path = "cmake-build-debug/axiom.exe" ∧
      (qa_path = "build/Debug/axiom.exe" ∨ qa_path = "build/Release/axiom.exe"))).
Proof.
  unfold QAFull.find_axiom_executable, QAFull.possible_paths, possible_paths.
  cbn [first_existing QAFull.first_existing].
  destruct (path_exists E "ninja-build/axiom.exe");
    [intros [= <-]; eexists; split; [reflexivity|by left]|].
  destruct (path_exists E "build/axiom.exe");
    [intros [= <-]; eexists; split; [reflexivity|by left]|].
  destruct (path_exists E "cmake-build-debug/axiom.exe"); [|done].
  intros [= <-].
  destruct (path_exists E "build/Debug/axiom.exe");
    [eexists; split; [reflexivity|right; split; [done|by left]]|].
  destruct (path_exists E "build/Release/axiom.exe");
    [eexists; split; [reflexivity|right; split; [done|by right]]|].
  eexists; split; [reflexivity|by left].
Qed.

(** With both a CLion debug build and a release build on disk the two
    scripts test different files. *)
Lemma scripts_agree_on_executable_witness :
  ∃ qa_path, QAFull.find_axiom_executable CoreSamples.env_two_builds = Some qa_path ∧
    (qa_path = "cmake-build-debug/axiom.exe" ∨
     ("cmake-build-debug/axiom.exe" = "cmake-build-debug/axiom.exe" ∧
      (qa_path = "build/Debug/axiom.exe" ∨ qa_path = "build/Release/axiom.exe"))).
Proof.
  apply (scripts_agree_on_executable CoreSamples.env_two_builds
           "cmake-build-debug/axiom.exe").
  reflexivity.
Defined.

End CoreProps.

(** ** The whole GUI *)

Module GUIFullProps.
Import GUI GUIFull GUIFullSpec.

(** *** Facts about [strip] and [split] *)

Lemma startswith_trans (a b c : string) :
  PyStr.startswith a b = true → PyStr.startswith b c = true →
  PyStr.startswith a c = true.
Proof.
  revert b c. induction a as [|x a IH]; intros b c; [done|].
  destruct b as [|y b]; [done|]. destruct c as [|z c]; [done|].
  cbn. intros [Hxy Hab]%andb_true_iff [Hyz Hbc]%andb_true_iff.
  apply Ascii.eqb_eq in Hxy as ->. rewrite Hyz. cbn. by apply (IH b c).
Qed.

Lemma contains_cons (needle : string) (c : ascii) (hay : string) :
  PyStr.contains needle hay = true →
  PyStr.contains needle (String c hay) = true.
Proof. intros H. cbn [PyStr.contains]. rewrite H. apply orb_true_r. Qed.

(** What a prefix contains, the whole contains. *)
Lemma contains_prefix (needle p s : string) :
  PyStr.startswith p s = true → PyStr.contains needle p = true →
  PyStr.contains needle s = true.
Proof.
  revert s. induction p as [|x p IH]; intros s Hp Hn.
  - destruct needle; [by destruct s|by cbn in Hn].
  - destruct s as [|y s]; [done|].
    cbn [PyStr.startswith] in Hp. apply andb_true_iff in Hp as [Hxy Hps].
    cbn [PyStr.contains] in Hn. apply orb_true_iff in Hn as [Hn|Hn].
    + cbn [PyStr.contains]. apply orb_true_iff. left.
      apply (startswith_trans _ (String x p)); [done|].
      cbn. by rewrite Hxy, Hps.
    + apply contains_cons. by apply IH.
Qed.

Lemma rstrip_prefix (s : string) : PyStr.startswith (PyStr.rstrip s) s = true.
Proof.
  induction s as [|c s IH]; [done|]. cbn [PyStr.rstrip].
  destruct (PyStr.rstrip s) as [|d r].
  - destruct (PyStr.is_space c); [done|]. cbn. by rewrite Ascii.eqb_refl.
  - cbn [PyStr.startswith]. rewrite Ascii.eqb_refl. exact IH.
Qed.

Lemma contains_lstrip (needle s : string) :
  PyStr.contains needle (PyStr.lstrip s) = true → PyStr.contains needle s = true.
Proof.
  induction s as [|c s IH]; [done|]. cbn [PyStr.lstrip].
  destruct (PyStr.is_space c); [|done].
  intros H. apply contains_cons. by apply IH.
Qed.

Lemma contains_strip (needle s : string) :
  PyStr.contains needle (PyStr.strip s) = true → PyStr.contains needle s = true.
Proof.
  intros H. apply contains_lstrip.
  by apply (contains_prefix needle _ _ (rstrip_prefix (PyStr.lstrip s))).
Qed.

Lemma rstrip_idemp (s : string) : PyStr.rstrip (PyStr.rstrip s) = PyStr.rstrip s.
Proof.
  induction s as [|c s IH]; [done|]. cbn [PyStr.rstrip].
  destruct (PyStr.rstrip s) as [|d r] eqn:Hr.
  - destruct (PyStr.is_space c) eqn:Hc; [done|]. cbn. by rewrite Hc.
  - cbn [PyStr.rstrip]. cbn [PyStr.rstrip] in IH.
    destruct (match PyStr.rstrip r with
              | "" => if PyStr.is_space d then "" else String d ""
              | String a s0 => String d (String a s0)
              end) as [|x y] eqn:Hm; [done|].
    by rewrite IH.
Qed.

Lemma lstrip_head (s : string) :
  match PyStr.lstrip s with
  | EmptyString => True
  | String c _ => PyStr.is_space c = false
  end.
Proof.
  induction s as [|c s IH]; [done|]. cbn [PyStr.lstrip].
  by destruct (PyStr.is_space c) eqn:Hc.
Qed.

Lemma rstrip_head (c : ascii) (s : string) :
  PyStr.is_space c = false → ∃ r, PyStr.rstrip (String c s) = String c r.
Proof.
  intros Hc. cbn [PyStr.rstrip]. rewrite Hc.
  destruct (PyStr.rstrip s); by eexists.
Qed.

Lemma strip_idemp (s : string) : PyStr.strip (PyStr.strip s) = PyStr.strip s.
Proof.
  unfold PyStr.strip. pose proof (lstrip_head s) as Hhead.
  destruct (PyStr.lstrip s) as [|c t]; [done|].
  destruct (rstrip_head c t Hhead) as (r & Hr). rewrite Hr.
  cbn [PyStr.lstrip]. rewrite Hhead, <- Hr. apply rstrip_idemp.
Qed.

(** The pieces of a split hold no separator. *)
Lemma split_pieces (sep : ascii) (s line : string) :
  line ∈ PyStr.split sep s →
  PyStr.contains (String sep EmptyString) line = false.
Proof.
  revert line. induction s as [|c s IH]; intros line Hin.
  - apply list_elem_of_singleton in Hin as ->. done.
  - cbn [PyStr.split] in Hin. destruct (Ascii.eqb c sep) eqn:Hc.
    + apply elem_of_cons in Hin as [->|Hin]; [done|by apply IH].
    + destruct (PyStr.split sep s) as [|piece pieces].
      * apply list_elem_of_singleton in Hin as ->. cbn.
        rewrite (Ascii.eqb_sym sep c), Hc. done.
      * apply elem_of_cons in Hin as [->|Hin].
        -- cbn [PyStr.contains PyStr.startswith].
           rewrite (Ascii.eqb_sym sep c), Hc. cbn.
           apply IH. by left.
        -- apply IH. by right.
Qed.

(** Every clean line is a single stripped line, not empty, without any
    loading message. *)
Lemma clean_lines_clean (result_text text : string) :
  text ∈ clean_lines result_text →
  text ≠ "" ∧ PyStr.strip text = text ∧ one_line text = true ∧
  no_loading_message text = true.
Proof.
  unfold clean_lines. intros Hin.
  apply list_elem_of_fmap in Hin as (line & -> & Hin).
  apply list_elem_of_filter in Hin as [Hkeep Hin].
  apply Is_true_true, andb_true_iff in Hkeep as [Hne Hmsg].
  split_and!.
  - intros Heq. by rewrite Heq in Hne.
  - apply strip_idemp.
  - unfold one_line. apply negb_true_iff.
    destruct (PyStr.contains _ (PyStr.strip line)) eqn:Hc; [|done].
    apply contains_strip in Hc.
    by rewrite (split_pieces _ _ _ Hin) in Hc.
  - unfold no_loading_message. apply negb_true_iff.
    apply negb_true_iff in Hmsg.
    apply not_true_is_false. intros Hex.
    apply existsb_exists in Hex as (msg & Hmem & Hc).
    apply contains_strip in Hc.
    assert (existsb (fun msg => PyStr.contains msg line) loading_messages = true)
      as Hex' by (apply existsb_exists; by exists msg).
    congruence.
Qed.

Section Facts.
Variable P : Python.
Variable subprocess_run : nat -> list string -> N * outcome CompletedProcess.


End Facts.

(** *** The dispatcher of math commands *)

Lemma lower_char_space (c : ascii) :
  PyStr.lower_char c = " "%char → c = " "%char.
Proof. destruct c as [[] [] [] [] [] [] [] []]; vm_compute; congruence. Qed.

Lemma lower_char_of_space : PyStr.lower_char " " = " "%char.
Proof. reflexivity. Qed.

(** A command whose lower-case form starts with [mode ] is a four-letter
    keyword, a space and the rest; the rest is what the dispatcher takes
    for the mode. *)
Lemma mode_prefix (command : string) :
  PyStr.startswith "mode " (PyStr.lower command) = true →
  ∃ keyword mode,
    command = keyword ++ " " ++ mode ∧ PyStr.lower keyword = "mode" ∧
    PyStr.after_first " " command = Some mode.
Proof.
  destruct command as [|c1 [|c2 [|c3 [|c4 [|c5 mode]]]]];
    cbn [PyStr.lower PyStr.startswith]; intros H;
    repeat (apply andb_true_iff in H as [?%Ascii.eqb_eq H]); try discriminate H.
  assert (c5 = " "%char) as -> by (by apply lower_char_space).
  exists (String c1 (String c2 (String c3 (String c4 ""))))%string, mode.
  split_and!; [done|cbn; congruence|].
  cbn [PyStr.after_first].
  assert (Hns : ∀ c x, x ≠ " "%char → x = PyStr.lower_char c → Ascii.eqb c " " = false).
  { intros c x Hx Hc. apply Ascii.eqb_neq. intros ->. by rewrite lower_char_of_space in Hc. }
  rewrite (Hns c1 "m"%char), (Hns c2 "o"%char), (Hns c3 "d"%char), (Hns c4 "e"%char)
    by done.
  done.
Qed.

Lemma mode_is_not_help (command : string) :
  PyStr.startswith "mode " (PyStr.lower command) = true →
  String.eqb (PyStr.lower command) "help" = false.
Proof.
  destruct (PyStr.lower command) as [|c1 [|c2 [|c3 [|c4 [|c5 rest]]]]];
    cbn [PyStr.startswith]; intros H;
    repeat (apply andb_true_iff in H as [?%Ascii.eqb_eq H]); try discriminate H.
  by subst.
Qed.

(** The keys of [mode_map] are in lower case. *)
Lemma mode_map_lower (mode name : string) :
  mode_map !! mode = Some name → PyStr.lower mode = mode.
Proof.
  unfold mode_map. intros H.
  apply elem_of_list_to_map_2 in H.
  repeat (apply elem_of_cons in H as [[= -> ->]|H]; [reflexivity|]).
  by apply elem_of_nil in H.
Qed.

Section Dispatcher.
Variable P : Python.
Variable subprocess_run : nat -> list string -> N * outcome CompletedProcess.

(** X10.  The mode command: the keyword is recognised in any case, the
    name of the mode only as it is spelled in the table, which is in
    lower case.  A known name sets the mode and the mode label; for any
    other text after the first space, upper-case spellings and names with
    more white space included, the command fails with [Unknown mode] and
    changes nothing.  Neither the engine nor the evaluator is used. *)
Theorem mode_names_are_case_sensitive (command : string) (g : Gui) :
  PyStr.startswith "mode " (PyStr.lower command) = true →
  ∃ keyword mode,
    command = keyword ++ " " ++ mode ∧ PyStr.lower keyword = "mode" ∧
    let r := execute_math_command P subprocess_run command g in
    match mode_map !! mode with
    | Some name =>
        PyStr.lower mode = mode ∧
        r.1 = Ret (list_to_map
                     [ ("success", VBool true);
                       ("result", VStr ("✓ Switched to " ++ name ++ " mode")) ]) ∧
        current_mode r.2 = name ∧
        trace r.2 = (trace g ++ [EvLabel "mode_label" ("Mode: " ++ name)])%list ∧
        runs r.2 = runs g
    | None =>
        r = (Ret (list_to_map
                    [ ("success", VBool false); ("result", VNone);
                      ("error", VStr ("Unknown mode: " ++ mode)) ]), g)
    end.
Proof.
  intros Hmode.
  destruct (mode_prefix command Hmode) as (keyword & mode & Hcmd & Hkw & Hafter).
  exists keyword, mode. split_and!; [done|done|].
  cbn zeta. unfold execute_math_command.
  rewrite (mode_is_not_help command Hmode), Hmode, Hafter.
  unfold change_mode_command.
  destruct (mode_map !! mode) as [name|] eqn:Hname; [|done].
  split; [by apply (mode_map_lower mode name)|]. done.
Qed.

End Dispatcher.

(** *** The result handler *)

Section Handler.
Variable P : Python.
Variable subprocess_run : nat -> list string -> N * outcome CompletedProcess.

Lemma show_result_run (d : gmap string pyval) (g : Gui) :
  ∃ line,
    show_result d g =
    (Ret tt, if truth (d !! "result") then emit (EvOutput line "result") g else g).
Proof.
  unfold show_result. destruct (truth (d !! "result")); [|by exists ""].
  repeat match goal with
         | |- context [if truth ?v then _ else _] => destruct (truth v)
         end; by eexists.
Qed.

Lemma clear_unless_repl_run (d : gmap string pyval) (g : Gui) :
  clear_unless_repl d g =
  (Ret tt, if negb (python_repl_mode g) && negb (truth (d !! "special"))
           then emit EvClearInput g else g).
Proof.
  unfold clear_unless_repl. rewrite bind_run. cbn [get].
  by destruct (negb (python_repl_mode g) && negb (truth (d !! "special"))).
Qed.

Lemma handle_command_result_run (d : gmap string pyval) (command : string)
  (g : Gui) (success : pyval) :
  d !! "success" = Some success →
  ∃ middle g',
    handle_command_result P d command g = (Ret tt, g') ∧
    trace g' = (trace g ++ EvProgressStop :: mode_label d g ++ middle
                        ++ EvStatus "Ready" :: clearing d g)%list ∧
    runs g' = runs g ∧ python_repl_mode g' = python_repl_mode g ∧
    current_mode g' = current_mode g ∧
    List.filter is_status middle = [] ∧ List.filter is_run middle = [] ∧
    List.filter (fun ev => negb (is_output ev || is_eval ev)) middle = [] ∧
    length (List.filter is_output middle)
    = (if truth (Some success) then if truth (d !! "result") then 1 else 0
       else 1)%nat ∧
    (truth (d !! "fallback_needed") = false ∨ truth (Some success) = true →
     List.filter is_eval middle = []).
Proof.
  intros Hs. unfold handle_command_result.
  rewrite bind_run. cbn [do modify]. rewrite bind_run.
  set (g1 := emit EvProgressStop g).
  assert (Hlabel :
    (if truth (d !! "mode_change")
     then g0 ← get;
          if python_repl_mode g0
          then do (EvLabel "input_mode_label" "🐍 Python REPL")
          else do (EvLabel "input_mode_label" "Normal Mode")
     else mret tt) g1
    = (Ret tt, fold_left (fun g ev => emit ev g) (mode_label d g) g1)).
  { unfold mode_label. destruct (truth (d !! "mode_change")); [|done].
    rewrite bind_run. cbn [get]. change (python_repl_mode g1) with (python_repl_mode g).
    by destruct (python_repl_mode g). }
  rewrite Hlabel. clear Hlabel.
  set (g2 := fold_left _ (mode_label d g) g1).
  assert (Hg2 : trace g2 = (trace g ++ EvProgressStop :: mode_label d g)%list
                ∧ runs g2 = runs g ∧ python_repl_mode g2 = python_repl_mode g
                ∧ current_mode g2 = current_mode g
                ∧ available_packages g2 = available_packages g).
  { subst g2. unfold mode_label. destruct (truth (d !! "mode_change")); cbn;
      rewrite <- ?app_assoc; done. }
  destruct Hg2 as (Ht2 & Hr2 & Hp2 & Hm2 & Ha2).
  assert (Hclear : ∀ g3, python_repl_mode g3 = python_repl_mode g →
            clear_unless_repl d g3
            = (Ret tt, fold_left (fun g ev => emit ev g) (clearing d g) g3)).
  { intros g3 H3. rewrite clear_unless_repl_run, H3. unfold clearing.
    by destruct (negb (python_repl_mode g) && negb (truth (d !! "special"))). }
  assert (Hfinish : ∀ middle g3,
            trace g3 = (trace g2 ++ middle)%list →
            runs g3 = runs g → python_repl_mode g3 = python_repl_mode g →
            current_mode g3 = current_mode g →
            ∃ g',
              (do (EvStatus "Ready");; clear_unless_repl d) g3 = (Ret tt, g') ∧
              trace g' = (trace g ++ EvProgressStop :: mode_label d g ++ middle
                                  ++ EvStatus "Ready" :: clearing d g)%list ∧
              runs g' = runs g ∧ python_repl_mode g' = python_repl_mode g ∧
              current_mode g' = current_mode g).
  { intros middle g3 H3 Hr3 Hp3 Hm3. rewrite bind_run. cbn [do modify].
    rewrite Hclear by done. eexists. split; [reflexivity|].
    rewrite GUIProps.trace_emit_all. cbn [trace emit]. rewrite H3, Ht2.
    split; [by rewrite <- !app_assoc|].
    unfold clearing.
    by destruct (negb (python_repl_mode g) && negb (truth (d !! "special"))). }
  rewrite Hs. destruct (truth (Some success)) eqn:Htruth.
  - (* success *)
    rewrite bind_run.
    destruct (show_result_run d g2) as (line & ->).
    destruct (truth (d !! "result")).
    + destruct (Hfinish [EvOutput line "result"] (emit (EvOutput line "result") g2))
        as (g' & -> & Ht & Hr & Hp & Hm); [done..|].
      exists [EvOutput line "result"], g'. by split_and!.
    + destruct (Hfinish [] g2) as (g' & -> & Ht & Hr & Hp & Hm);
        [by rewrite app_nil_r|done..|].
      exists [], g'. by split_and!.
  - (* failure *)
    rewrite bind_run.
    destruct (truth (d !! "fallback_needed")) eqn:Hneeded.
    + rewrite try_except_run, bind_run, GUIProps.python_math_fallback_run.
      set (env := GUISpec.fallback_env g2).
      set (g3 := emit (EvEval command env) g2).
      destruct (py_eval P command env) as [v|e];
        [destruct (py_str P v) as [text|e]|].
      * rewrite GUIProps.fallback_truth_success.
        rewrite !bind_run. cbn [do modify]. rewrite bind_run. cbn [do modify].
        rewrite bind_run, Hclear by done.
        eexists [EvEval command env; EvOutput _ "result"], _.
        split; [reflexivity|]. subst g3.
        rewrite GUIProps.trace_emit_all. cbn [trace emit]. rewrite Ht2.
        split; [by rewrite <- !app_assoc|].
        split_and!; try done; try (intros [?|?]; done);
          unfold clearing;
          by destruct (negb (python_repl_mode g) && negb (truth (d !! "special"))).
      * rewrite GUIProps.fallback_truth_failure. cbn [mret M_ret ret].
        rewrite bind_run. cbn [do modify].
        destruct (Hfinish [EvEval command env; EvOutput
                             ("❌ Error: " ++ fmt (default (VStr "Unknown error") (d !! "error")))
                             "error"]
                    (emit (EvOutput ("❌ Error: " ++ fmt (default (VStr "Unknown error") (d !! "error"))) "error") g3))
          as (g' & -> & Ht & Hr & Hp & Hm);
          [by cbn; rewrite <- app_assoc|done..|].
        eexists _, g'. split; [reflexivity|].
        split_and!; try done. intros [?|?]; done.
      * rewrite GUIProps.fallback_truth_failure. cbn [mret M_ret ret].
        rewrite bind_run. cbn [do modify].
        destruct (Hfinish [EvEval command env; EvOutput
                             ("❌ Error: " ++ fmt (default (VStr "Unknown error") (d !! "error")))
                             "error"]
                    (emit (EvOutput ("❌ Error: " ++ fmt (default (VStr "Unknown error") (d !! "error"))) "error") g3))
          as (g' & -> & Ht & Hr & Hp & Hm);
          [by cbn; rewrite <- app_assoc|done..|].
        eexists _, g'. split; [reflexivity|].
        split_and!; try done. intros [?|?]; done.
    + cbn [mret M_ret ret]. rewrite bind_run. cbn [do modify].
      destruct (Hfinish [EvOutput
                           ("❌ Error: " ++ fmt (default (VStr "Unknown error") (d !! "error")))
                           "error"]
                  (emit (EvOutput ("❌ Error: " ++ fmt (default (VStr "Unknown error") (d !! "error"))) "error") g2))
        as (g' & -> & Ht & Hr & Hp & Hm); [done..|].
      eexists _, g'. split; [reflexivity|]. by split_and!.
Qed.

End Handler.

(** The handler leaves the engine and the package table alone. *)
Lemma handler_keeps_settings (P : Python) (d : gmap string pyval)
  (command : string) (g : Gui) :
  same_settings g (handle_command_result P d command g).2.
Proof.
  unfold handle_command_result, show_result, clear_unless_repl,
    python_math_fallback, try_except, eval, str, do, modify, get, gets,
    mbind, M_bind, bind, mret, M_ret, ret, raise.
  repeat case_match; simplify_eq; done.
Qed.

(** *** What the dispatcher does to the world *)

Section Discipline.
Variable P : Python.
Variable subprocess_run : nat -> list string -> N * outcome CompletedProcess.

Lemma dispatcher_event_settings (g g1 : Gui) (command : string) (ev : event) :
  same_settings g g1 → dispatcher_event g1 command ev → dispatcher_event g command ev.
Proof.
  intros (He & Ha & Hp). destruct ev; cbn; try done.
  - unfold GUISpec.fallback_env. by rewrite Hp.
  - by rewrite Ha, He.
Qed.

Lemma execute_command_events (self : CppEngineInterface) (command : string)
  (g : Gui) :
  ∃ d later g',
    execute_command subprocess_run self command g = (Ret d, g') ∧
    well_formed d ∧
    trace g' = (trace g ++ later)%list ∧
    (later = [] ∨
     ∃ path, executable_path self = Some path ∧ path ≠ "" ∧
             later = [EvRun [path; command]]) ∧
    runs g' = (runs g + length later)%nat ∧
    same_settings g g' ∧ python_repl_mode g' = python_repl_mode g ∧
    current_mode g' = current_mode g ∧
    truth (d !! "special") = false ∧ truth (d !! "mode_change") = false ∧
    truth (d !! "cpp_failed") = false ∧
    (if truth (d !! "success") then truth (d !! "fallback_needed") = false
     else ∃ msg, d = GUISpec.engine_failure msg).
Proof.
  unfold execute_command.
  destruct (executable_path self) as [[|c path]|] eqn:Hpath.
  1,3: eexists _, [], g; split; [reflexivity|];
    split; [exists false; split; [reflexivity|by eexists]|];
    rewrite app_nil_r, Nat.add_0_r; split_and!; try done; [by left|by eexists].
  rewrite try_except_run, bind_run. unfold run.
  set (argv := [String c path; command]).
  assert (Hlater : ∃ path0, Some (String c path) = Some path0 ∧ path0 ≠ "" ∧
                     [EvRun argv] = [EvRun [path0; command]]) by (by eexists).
  set (g1 := count_run (emit (EvRun argv) g)).
  assert (Hg1 : trace g1 = (trace g ++ [EvRun argv])%list ∧
                runs g1 = (runs g + length [EvRun argv])%nat ∧
                same_settings g g1 ∧ python_repl_mode g1 = python_repl_mode g ∧
                current_mode g1 = current_mode g).
  { subst g1. cbn. split_and!; try done. lia. }
  destruct Hg1 as (Ht & Hr & Hs & Hp & Hm).
  destruct (subprocess_run (runs g) argv) as [us [result|e]].
  - destruct (returncode result =? 0).
    + destruct (last (clean_lines (PyStr.strip (stdout result)))) as [final|];
        eexists _, [EvRun argv], g1; (split; [reflexivity|]);
        (split; [exists true; split; [reflexivity|by eexists]|]);
        split_and!; try done; by right.
    + eexists _, [EvRun argv], g1; split; [reflexivity|].
      split; [exists false; split; [reflexivity|by eexists]|].
      split_and!; try done; [by right|]. by eexists.
  - destruct (is_timeout e);
      eexists _, [EvRun argv], g1; (split; [reflexivity|]);
      (split; [exists false; split; [reflexivity|by eexists]|]);
      split_and!; try done; try (by right); by eexists.
Qed.

(** The answer of the local evaluator. *)
Lemma python_math_fallback_value (command : string) (g : Gui) :
  ∃ d,
    python_math_fallback P command g
    = (Ret d, emit (EvEval command (GUISpec.fallback_env g)) g) ∧
    match local_value P command (GUISpec.fallback_env g) with
    | Some text => d = GUISpec.fallback_success text
    | None => ∃ e, d = GUISpec.fallback_failure e
    end.
Proof.
  rewrite GUIProps.python_math_fallback_run. eexists. split; [reflexivity|].
  unfold local_value.
  destruct (py_eval P command _) as [v|e]; [destruct (py_str P v) as [text|e]|];
    try done; by eexists.
Qed.

(** The second half of the dispatcher. *)
Lemma engine_then_fallback_cases (command : string) (g : Gui) :
  ∃ d later g',
    engine_then_fallback P subprocess_run command g = (Ret d, g') ∧
    well_formed d ∧
    trace g' = (trace g ++ later)%list ∧
    Forall (dispatcher_event g command) later ∧
    (length (List.filter is_run later) ≤ 1)%nat ∧
    runs g' = (runs g + length (List.filter is_run later))%nat ∧
    (length (List.filter is_eval later) ≤ 1)%nat ∧
    same_settings g g' ∧ python_repl_mode g' = python_repl_mode g ∧
    current_mode g' = current_mode g ∧
    ((engine_available g = false ∨ cpp_engine g = None) →
     List.filter is_run later = []) ∧
    (truth (d !! "fallback_needed") = true →
     local_value P command (GUISpec.fallback_env g) = None) ∧
    (truth (d !! "cpp_failed") = true → truth (d !! "fallback") = true) ∧
    truth (d !! "special") = false ∧ truth (d !! "mode_change") = false.
Proof.
  unfold engine_then_fallback. rewrite bind_run. cbn [get].
  assert (Heval : dispatcher_event g command (EvEval command (GUISpec.fallback_env g)))
    by done.
  destruct (engine_available g) eqn:Havail;
    [destruct (cpp_engine g) as [engine|] eqn:Hengine|].
  - rewrite bind_run.
    destruct (execute_command_events engine command g)
      as (d & later & g1 & -> & Hwf & Ht & Hlater & Hr & Hs & Hp & Hm
          & Hspecial & Hmode & Hcpp & Hcase).
    assert (Hev : Forall (dispatcher_event g command) later).
    { destruct Hlater as [->|(path & Hpath & Hne & ->)]; [by apply Forall_nil_2|].
      apply Forall_singleton. cbn. rewrite Havail. split; [done|]. exists path.
      destruct engine as [p]. cbn in Hpath. by subst p. }
    assert (Hruns : List.filter is_run later = later)
      by (by destruct Hlater as [->|(path & _ & _ & ->)]).
    assert (Hevals : List.filter is_eval later = [])
      by (by destruct Hlater as [->|(path & _ & _ & ->)]).
    assert (Hlen : (length later ≤ 1)%nat)
      by (destruct Hlater as [->|(path & _ & _ & ->)]; cbn; lia).
    destruct (truth (d !! "success")) eqn:Hsucc.
    + exists d, later, g1. split; [reflexivity|].
      rewrite Hruns, Hevals.
      split_and!; try done; try (cbn; lia).
      * by intros [?|?].
      * intros H. by rewrite Hcase in H.
      * intros H. by rewrite Hcpp in H.
    + destruct Hcase as (msg & ->).
      rewrite bind_run.
      destruct (python_math_fallback_value command g1) as (d' & -> & Hd').
      assert (Henv : GUISpec.fallback_env g1 = GUISpec.fallback_env g).
      { unfold GUISpec.fallback_env. destruct Hs as (_ & _ & ->). done. }
      rewrite Henv in *.
      set (g2 := emit (EvEval command (GUISpec.fallback_env g)) g1).
      assert (Hg2 : trace g2 = (trace g ++ later ++ [EvEval command (GUISpec.fallback_env g)])%list
                    ∧ runs g2 = (runs g + length later)%nat ∧ same_settings g g2
                    ∧ python_repl_mode g2 = python_repl_mode g
                    ∧ current_mode g2 = current_mode g).
      { subst g2. cbn. rewrite Ht, <- app_assoc. done. }
      destruct Hg2 as (Ht2 & Hr2 & Hs2 & Hp2 & Hm2).
      assert (Hruns2 : List.filter is_run (later ++ [EvEval command (GUISpec.fallback_env g)])
                       = later).
      { rewrite List.filter_app, Hruns. cbn. by rewrite app_nil_r. }
      assert (Hevals2 : List.filter is_eval (later ++ [EvEval command (GUISpec.fallback_env g)])
                        = [EvEval command (GUISpec.fallback_env g)]).
      { rewrite List.filter_app, Hevals. done. }
      assert (Hev2 : Forall (dispatcher_event g command)
                       (later ++ [EvEval command (GUISpec.fallback_env g)])).
      { apply Forall_app. split; [done|]. by apply Forall_singleton. }
      destruct (local_value P command (GUISpec.fallback_env g)) as [text|] eqn:Hlocal.
      * subst d'. rewrite GUIProps.fallback_truth_success.
        eexists _, _, g2. split; [reflexivity|].
        rewrite Hruns2, Hevals2.
        split_and!; try done.
        -- exists true. split; [reflexivity|by eexists].
        -- intros [H|H]; [done|congruence].
      * destruct Hd' as (e & ->). rewrite GUIProps.fallback_truth_failure.
        eexists _, _, g2. split; [reflexivity|].
        rewrite Hruns2, Hevals2.
        split_and!; try done.
        intros [H|H]; [done|congruence].
  - destruct (python_math_fallback_value command g) as (d & -> & Hd).
    eexists d, [EvEval command (GUISpec.fallback_env g)], _.
    split; [reflexivity|].
    assert (Hmarks : well_formed d ∧ truth (d !! "fallback_needed") = false ∧
                     truth (d !! "cpp_failed") = false ∧
                     truth (d !! "special") = false ∧
                     truth (d !! "mode_change") = false).
    { destruct (local_value P command _) as [text|]; [subst d|destruct Hd as (e & ->)];
        (split; [eexists; split; [reflexivity|by eexists]|done]). }
    destruct Hmarks as (Hwf & Hn & Hc & Hsp & Hmc).
    split_and!; try done; try (cbn; lia); try (by apply Forall_singleton).
    + intros H. by rewrite Hn in H.
    + intros H. by rewrite Hc in H.
  - destruct (python_math_fallback_value command g) as (d & -> & Hd).
    eexists d, [EvEval command (GUISpec.fallback_env g)], _.
    split; [reflexivity|].
    assert (Hmarks : well_formed d ∧ truth (d !! "fallback_needed") = false ∧
                     truth (d !! "cpp_failed") = false ∧
                     truth (d !! "special") = false ∧
                     truth (d !! "mode_change") = false).
    { destruct (local_value P command _) as [text|]; [subst d|destruct Hd as (e & ->)];
        (split; [eexists; split; [reflexivity|by eexists]|done]). }
    destruct Hmarks as (Hwf & Hn & Hc & Hsp & Hmc).
    split_and!; try done; try (cbn; lia); try (by apply Forall_singleton).
    + intros H. by rewrite Hn in H.
    + intros H. by rewrite Hc in H.
Qed.

End Discipline.

Section Answers.
Variable P : Python.
Variable subprocess_run : nat -> list string -> N * outcome CompletedProcess.

(** The dispatcher, case by case. *)
Lemma execute_math_command_cases (command : string) (g : Gui) :
  ∃ d later g',
    execute_math_command P subprocess_run command g = (Ret d, g') ∧
    well_formed d ∧
    trace g' = (trace g ++ later)%list ∧
    Forall (dispatcher_event g command) later ∧
    (length (List.filter is_run later) ≤ 1)%nat ∧
    runs g' = (runs g + length (List.filter is_run later))%nat ∧
    (length (List.filter is_eval later) ≤ 2)%nat ∧
    same_settings g g' ∧
    ((engine_available g = false ∨ cpp_engine g = None) →
     List.filter is_run later = []) ∧
    (truth (d !! "fallback_needed") = true →
     local_value P command (GUISpec.fallback_env g) = None) ∧
    (truth (d !! "cpp_failed") = true → truth (d !! "fallback") = true) ∧
    (python_repl_mode g' = python_repl_mode g ∨
     (python_repl_mode g' = true ∧ PyStr.lower command ∈ ["python"; "py"; "repl"])).
Proof.
  unfold execute_math_command.
  destruct (String.eqb (PyStr.lower command) "help") eqn:Hhelp.
  { eexists _, [EvAfter "show_help"], _. split; [reflexivity|].
    split; [exists true; split; [reflexivity|by eexists]|].
    split_and!; try done; try (cbn; lia); [by apply Forall_singleton|by left]. }
  destruct (PyStr.startswith "mode " (PyStr.lower command)) eqn:Hmode.
  { destruct (mode_prefix command Hmode) as (keyword & mode & _ & _ & ->).
    unfold change_mode_command.
    destruct (mode_map !! mode) as [name|].
    - eexists _, [EvLabel "mode_label" _], _. split; [reflexivity|].
      split; [exists true; split; [reflexivity|by eexists]|].
      split_and!; try done; try (cbn; lia); [by apply Forall_singleton|by left].
    - eexists _, [], g. split; [reflexivity|].
      split; [exists false; split; [reflexivity|by eexists]|].
      rewrite app_nil_r.
      split_and!; try done; try (cbn; lia); by left. }
  destruct (bool_decide (PyStr.lower command ∈ ["python"; "py"; "repl"])) eqn:Hrepl.
  { apply bool_decide_eq_true in Hrepl.
    eexists _, [], _. split; [reflexivity|].
    split; [exists true; split; [reflexivity|by eexists]|].
    cbn [trace set_python_repl_mode]. rewrite app_nil_r.
    split_and!; try done; try (cbn; lia). by right. }
  rewrite bind_run.
  assert (Hslow : ∀ g1 first,
            trace g1 = (trace g ++ first)%list → same_settings g g1 →
            runs g1 = runs g → python_repl_mode g1 = python_repl_mode g →
            Forall (dispatcher_event g command) first →
            List.filter is_run first = [] →
            (length (List.filter is_eval first) ≤ 1)%nat →
            ∃ d later g',
              engine_then_fallback P subprocess_run command g1 = (Ret d, g') ∧
              well_formed d ∧
              trace g' = (trace g ++ later)%list ∧
              Forall (dispatcher_event g command) later ∧
              (length (List.filter is_run later) ≤ 1)%nat ∧
              runs g' = (runs g + length (List.filter is_run later))%nat ∧
              (length (List.filter is_eval later) ≤ 2)%nat ∧
              same_settings g g' ∧
              ((engine_available g = false ∨ cpp_engine g = None) →
               List.filter is_run later = []) ∧
              (truth (d !! "fallback_needed") = true →
               local_value P command (GUISpec.fallback_env g) = None) ∧
              (truth (d !! "cpp_failed") = true → truth (d !! "fallback") = true) ∧
              (python_repl_mode g' = python_repl_mode g ∨
               (python_repl_mode g' = true ∧
                PyStr.lower command ∈ ["python"; "py"; "repl"]))).
  { intros g1 first Ht1 Hs1 Hr1 Hp1 Hfirst Hnorun Hevals.
    destruct (engine_then_fallback_cases P subprocess_run command g1)
      as (d & later & g' & -> & Hwf & Ht & Hev & Hrun & Hr & Hevs & Hs & Hp & Hm
          & Hnone & Hneeded & Hcpp & _).
    assert (Henv : GUISpec.fallback_env g1 = GUISpec.fallback_env g).
    { unfold GUISpec.fallback_env. destruct Hs1 as (_ & _ & ->). done. }
    destruct Hs1 as (He1 & Ha1 & Hk1). destruct Hs as (He & Ha & Hk).
    exists d, (first ++ later)%list, g'. split; [reflexivity|].
    rewrite !List.filter_app, Hnorun, !length_app. cbn [app length].
    split_and!; try done.
    - by rewrite Ht, Ht1, <- app_assoc.
    - apply Forall_app. split; [done|].
      eapply Forall_impl; [exact Hev|]. intros ev.
      by apply dispatcher_event_settings.
    - by rewrite Hr, Hr1.
    - lia.
    - split_and!; congruence.
    - rewrite Ha1, He1 in Hnone. done.
    - by rewrite <- Henv.
    - left. congruence. }
  destruct (is_simple_arithmetic command).
  - rewrite bind_run.
    destruct (python_math_fallback_value P command g) as (d1 & -> & Hd1).
    set (env := GUISpec.fallback_env g) in *.
    destruct (local_value P command env) as [text|].
    + subst d1. rewrite GUIProps.fallback_truth_success. cbn [mret M_ret ret].
      eexists _, [EvEval command env], _. split; [reflexivity|].
      split; [exists true; split; [reflexivity|by eexists]|].
      split_and!; try done; try (cbn; lia); [by apply Forall_singleton|by left].
    + destruct Hd1 as (e & ->). rewrite GUIProps.fallback_truth_failure.
      cbn [mret M_ret ret].
      apply (Hslow _ [EvEval command env]); try done; try (cbn; lia).
      by apply Forall_singleton.
  - cbn [mret M_ret ret]. apply (Hslow g []); try done; try (cbn; lia).
    by rewrite app_nil_r.
Qed.


(** X12.  What the dispatcher of math commands does to the world while
    it answers: it evaluates nothing but the command itself, in the
    restricted environment, and at most twice; it runs the engine at most
    once, on the command as the only argument, and not at all when no
    engine was found; beyond that it only queues the help dialog and sets
    the mode label.  It shows nothing, and it leaves the engine and the
    package table as they are. *)
Theorem math_command_discipline (command : string) (g : Gui) :
  let r := execute_math_command P subprocess_run command g in
  ∃ later,
    trace r.2 = (trace g ++ later)%list ∧
    Forall (dispatcher_event g command) later ∧
    (length (List.filter is_run later) ≤ 1)%nat ∧
    (length (List.filter is_eval later) ≤ 2)%nat ∧
    List.filter is_output later = [] ∧
    runs r.2 = (runs g + length (List.filter is_run later))%nat ∧
    ((engine_available g = false ∨ cpp_engine g = None) →
     List.filter is_run later = []) ∧
    same_settings g r.2.
Proof.
  destruct (execute_math_command_cases command g)
    as (d & later & g' & Hrun & Hwf & Ht & Hev & Hruns & Hr & Hevals & Hs & Hnone & _).
  cbn zeta. rewrite Hrun. cbn [snd].
  exists later. split_and!; try done.
  clear -Hev. induction Hev as [|ev later Hev _ IH]; [done|].
  cbn. rewrite IH. by destruct ev.
Qed.

End Answers.

Section Display.
Variable P : Python.
Variable subprocess_run : nat -> list string -> N * outcome CompletedProcess.

(** X13.  The result handler stops the progress bar first and sets the
    label of the input mode when the result asks for it.  On a result
    without [success] it then raises a key error, and the status is never
    set back.  On every other result it runs to its end: it shows exactly
    one line for a failure, and one line for a success unless its result
    is empty or missing, in which case it shows nothing; then it sets the
    status to [Ready], once, and clears the input unless the calculator is
    in REPL mode or the result is marked special.  It evaluates the
    command only for a failure that asks for the fallback, and it never
    runs the engine or changes the mode. *)
Theorem handler_reports_once (d : gmap string pyval) (command : string) (g : Gui) :
  let r := handle_command_result P d command g in
  match d !! "success" with
  | None =>
      r.1 = Raise (PyExc OtherException "'success'") ∧
      trace r.2 = (trace g ++ EvProgressStop :: mode_label d g)%list
  | Some success =>
      ∃ middle,
        r.1 = Ret tt ∧
        trace r.2 = (trace g ++ EvProgressStop :: mode_label d g ++ middle
                             ++ EvStatus "Ready" :: clearing d g)%list ∧
        List.filter (fun ev => negb (is_output ev || is_eval ev)) middle = [] ∧
        length (List.filter is_output middle)
        = (if truth (Some success)
           then if truth (d !! "result") then 1 else 0
           else 1)%nat ∧
        (truth (d !! "fallback_needed") = false ∨ truth (Some success) = true →
         List.filter is_eval middle = []) ∧
        runs r.2 = runs g ∧ python_repl_mode r.2 = python_repl_mode g ∧
        current_mode r.2 = current_mode g
  end.
Proof.
  cbn zeta. destruct (d !! "success") as [success|] eqn:Hs.
  - destruct (handle_command_result_run P d command g success Hs)
      as (middle & g' & -> & Ht & Hr & Hp & Hm & _ & _ & Hkinds & Hout & Hev).
    exists middle. by split_and!.
  - unfold handle_command_result. rewrite bind_run. cbn [do modify].
    rewrite bind_run. unfold mode_label.
    destruct (truth (d !! "mode_change")).
    + rewrite bind_run. cbn [get].
      change (python_repl_mode (emit EvProgressStop g)) with (python_repl_mode g).
      destruct (python_repl_mode g); cbn [do modify]; rewrite Hs; cbn;
        by rewrite <- app_assoc.
    + cbn [mret M_ret ret]. by rewrite Hs.
Qed.



End Display.

(** *** The REPL and the worker thread *)

Section Repl.
Variable P : Python.
Variable subprocess_run : nat -> list string -> N * outcome CompletedProcess.
Variable I : Interpreter.

Lemma update_keeps_names (ns : gmap string (Obj I)) (s : Session I) (k : string) :
  is_Some (python_globals s !! k) → is_Some (python_globals (update_globals ns s) !! k).
Proof.
  intros Hk. cbn. unfold dict_update. apply lookup_union_is_Some. by right.
Qed.

Lemma well_formed_python_success (text : string) : well_formed (python_success text).
Proof. exists true. split; [reflexivity|by eexists]. Qed.

Lemma well_formed_python_failure (msg : string) : well_formed (python_failure msg).
Proof. exists false. split; [reflexivity|by eexists]. Qed.

(** The inner [try] of the REPL. *)
Lemma evaluate_expression_cases (command : string)
  (globals : gmap string (Obj I)) (s : Session I) :
  ∃ r ns s',
    evaluate_expression I command globals s = (r, ns, s') ∧
    gui s' = gui s ∧
    calls s' = (calls s ++ [CallEval command globals])%list ∧
    (∀ k, is_Some (python_globals s !! k) → is_Some (python_globals s' !! k)) ∧
    match r with
    | Returned d => ∃ text, d = python_success text
    | Threw _ => True
    end.
Proof.
  unfold evaluate_expression.
  destruct (eval_in I command globals) as [[result|t] ns].
  - destruct (is_None I result).
    + eexists _, _, _. split; [reflexivity|]. split_and!; try done; [|by eexists].
      intros k Hk. by apply update_keeps_names.
    + destruct (obj_str I result) as [text|t];
        eexists _, _, _; (split; [reflexivity|]); split_and!; try done;
        try (by eexists); intros k Hk; by apply update_keeps_names.
  - eexists _, _, _. split; [reflexivity|]. by split_and!.
Qed.

(** The REPL, case by case. *)
Lemma execute_python_command_cases (command : string) (s : Session I) :
  let r := execute_python_command I command s in
  let globals := exec_globals I (available_packages (gui s)) (python_globals s) in
  (∀ k, is_Some (python_globals s !! k) → is_Some (python_globals r.2 !! k)) ∧
  (if bool_decide (PyStr.lower command ∈ exit_words)
   then r = (Returned exit_result, with_gui (set_python_repl_mode false) s)
   else gui r.2 = gui s ∧
        ∃ more, calls r.2 = (calls s ++ CallEval command globals :: more)%list) ∧
  match r.1 with
  | Returned d => well_formed d
  | Threw t => is_exception t = false
  end.
Proof.
  cbn zeta. unfold execute_python_command.
  destruct (bool_decide (PyStr.lower command ∈ exit_words)).
  { split_and!; [done|done|]. exists true. split; [reflexivity|by eexists]. }
  set (globals := exec_globals I _ _).
  destruct (evaluate_expression_cases command globals s)
    as (r & ns & s1 & -> & Hg & Hc & Hk & Hr).
  assert (Hcaught : ∀ t s2,
            match (caught I t s2).1 with
            | Returned d => well_formed d
            | Threw t => is_exception t = false
            end ∧ (caught I t s2).2 = s2).
  { intros t s2. unfold caught. destruct (is_exception t) eqn:Ht; cbn; [|done].
    split; [apply well_formed_python_failure|done]. }
  destruct r as [d|t].
  - destruct Hr as (text & ->). cbn [fst snd]. split; [done|split].
    + split; [done|]. exists []. done.
    + apply well_formed_python_success.
  - assert (Hother : ∀ t0, 
              let r := caught I t0 s1 in
              (∀ k, is_Some (python_globals s !! k) → is_Some (python_globals r.2 !! k)) ∧
              (gui r.2 = gui s ∧
               ∃ more, calls r.2 = (calls s ++ CallEval command globals :: more)%list) ∧
              match r.1 with
              | Returned d => well_formed d
              | Threw t => is_exception t = false
              end).
    { intros t0. cbn zeta. destruct (Hcaught t0 s1) as (H1 & ->).
      split_and!; [done|done| |done]. by exists []. }
    destruct t as [msg|e|name]; [|apply Hother..].
    destruct (exec_in I command ns) as [[[]|t] ns'].
    + cbn [fst snd]. split; [|split].
      * intros k Hk'. apply update_keeps_names. cbn. by apply Hk.
      * cbn. split; [done|]. rewrite Hc. exists [CallExec command ns].
        by rewrite <- app_assoc.
      * apply well_formed_python_success.
    + destruct (Hcaught t (log_call (CallExec command ns) s1)) as (H1 & ->).
      split; [|split; [|done]].
      * intros k Hk'. cbn. by apply Hk.
      * cbn. split; [done|]. rewrite Hc. exists [CallExec command ns].
        by rewrite <- app_assoc.
Qed.


(** X17.  The namespace of the REPL.  What the user has bound wins over
    the modules and functions the REPL offers, which are always there
    otherwise.  A name that is bound stays bound whatever is entered: the
    namespace is only ever updated, so a deletion is undone by the next
    command, which finds the old value again.  When a command that is no
    exit word is evaluated to a value that is [None] or can be printed,
    the namespace becomes the one the evaluation left, on top of the old
    one; when its evaluation raises an exception that is no syntax error,
    the namespace stays as it was and the answer is a failure with the
    text of the exception. *)
Theorem repl_bindings_persist (command : string) (s : Session I) :
  PyStr.lower command ∉ exit_words →
  let globals := exec_globals I (available_packages (gui s)) (python_globals s) in
  let r := execute_python_command I command s in
  (∀ k v, python_globals s !! k = Some v → globals !! k = Some v) ∧
  Forall (fun k => is_Some (globals !! k)) ("__builtins__" :: "math" :: math_names) ∧
  (∀ k, is_Some (python_globals s !! k) → is_Some (python_globals r.2 !! k)) ∧
  (∀ result ns,
     eval_in I command globals = (Returned result, ns) →
     is_None I result = true ∨ (∃ text, obj_str I result = Returned text) →
     python_globals r.2 = dict_update (python_globals s) ns ∧
     ∀ k old, python_globals s !! k = Some old → ns !! k = None →
              python_globals r.2 !! k = Some old) ∧
  (∀ e ns,
     eval_in I command globals = (Threw (OtherError e), ns) →
     r.1 = Returned (python_failure (exc_str e)) ∧
     python_globals r.2 = python_globals s).
Proof.
  intros Hexit globals r.
  pose proof (execute_python_command_cases command s) as Hcases.
  cbn zeta in Hcases. destruct Hcases as (Hkeep & _ & _).
  assert (Hshadow : ∀ k v, python_globals s !! k = Some v → globals !! k = Some v).
  { intros k v Hk. unfold globals, exec_globals, dict_update.
    by apply lookup_union_Some_l. }
  split_and!; [done| |done| |].
  - assert (Hbase : ∀ (base : gmap string (Obj I)) k,
              k ∈ "math" :: math_names ∨ is_Some (base !! k) →
              is_Some (dict_update
                         (dict_update base
                            (list_to_map
                               (("math", math_module I)
                                :: map (fun name => (name, math_attr I name)) math_names)))
                         (python_globals s) !! k)).
    { intros base k Hk. unfold dict_update.
      apply lookup_union_is_Some. right. apply lookup_union_is_Some.
      destruct Hk as [Hk|Hk]; [left|by right].
      repeat (apply elem_of_cons in Hk as [->|Hk]; [by eexists|]).
      by apply elem_of_nil in Hk. }
    assert (Hb : ∀ k, k ∈ "__builtins__" :: "math" :: math_names → is_Some (globals !! k)).
    { intros k Hk. unfold globals, exec_globals. apply Hbase.
      apply elem_of_cons in Hk as [->|Hk]; [right|by left].
      destruct (default false (available_packages (gui s) !! "numpy"));
        destruct (default false (available_packages (gui s) !! "scipy"));
        by eexists. }
    apply Forall_forall. intros k Hk. by apply Hb.
  - intros result ns Heval Hstr.
    assert (Hnew : python_globals r.2 = dict_update (python_globals s) ns).
    { subst r. unfold execute_python_command.
      rewrite bool_decide_eq_false_2 by done.
      fold globals. unfold evaluate_expression. rewrite Heval.
      destruct Hstr as [->|(text & Hstr)]; [done|].
      destruct (is_None I result); [done|]. by rewrite Hstr. }
    split; [done|]. intros k old Hold Hns. rewrite Hnew.
    unfold dict_update. rewrite lookup_union_r; done.
  - intros e ns Heval. subst r. unfold execute_python_command.
    rewrite bool_decide_eq_false_2 by done.
    fold globals. unfold evaluate_expression. rewrite Heval. done.
Qed.

(** X18.  The buttons of the twelve modes.  Outside the REPL a button
    always switches to its mode, without a run of the engine and without
    a call into any interpreter.  In REPL mode the same button changes
    nothing: its command, [mode] and the name, is handed to the REPL as
    Python text. *)
Theorem mode_buttons (mode : string) (s : Session I) :
  mode ∈ (basic_modes ++ python_modes)%list →
  let r := change_mode P subprocess_run I mode s in
  if python_repl_mode (gui s) then
    current_mode (gui r.2) = current_mode (gui s) ∧
    ∃ more,
      calls r.2
      = (calls s
         ++ CallEval ("mode " ++ mode)
              (exec_globals I (available_packages (gui s)) (python_globals s))
            :: more)%list
  else
    ∃ name,
      mode_map !! mode = Some name ∧
      r.1 = Scheduled (list_to_map
                         [ ("success", VBool true);
                           ("result", VStr ("✓ Switched to " ++ name ++ " mode")) ]) ∧
      current_mode (gui r.2) = name ∧ calls r.2 = calls s ∧
      runs (gui r.2) = runs (gui s) ∧ python_globals r.2 = python_globals s.
Proof.
  intros Hmode r. subst r. unfold change_mode, execute_command_thread.
  assert (Hcmd : PyStr.lower ("mode " ++ mode) = "mode " ++ mode ∧
                 ∃ name, mode_map !! mode = Some name).
  { repeat (apply elem_of_cons in Hmode as [->|Hmode]; [split; [reflexivity|by eexists]|]).
    by apply elem_of_nil in Hmode. }
  destruct Hcmd as (Hlower & name & Hname).
  destruct (python_repl_mode (gui s)) eqn:Hrepl.
  - pose proof (execute_python_command_cases ("mode " ++ mode) s) as Hcases.
    cbn zeta in Hcases. destruct Hcases as (_ & Hexit & _).
    rewrite bool_decide_eq_false_2 in Hexit.
    2: { rewrite Hlower. intros Hin.
         repeat (apply elem_of_cons in Hin as [[=]|Hin]).
         by apply elem_of_nil in Hin. }
    destruct Hexit as (Hgui & more & Hcalls).
    destruct (execute_python_command I ("mode " ++ mode) s) as [[d|t] s'];
      cbn [fst snd] in *.
    + rewrite Hgui. split; [done|]. by exists more.
    + destruct (is_exception t); cbn [snd]; rewrite Hgui; (split; [done|]);
        by exists more.
  - exists name. split; [done|].
    unfold lift, execute_math_command.
    assert (Hhelp : String.eqb (PyStr.lower ("mode " ++ mode)) "help" = false)
      by (by rewrite Hlower).
    assert (Hstart : PyStr.startswith "mode " (PyStr.lower ("mode " ++ mode)) = true)
      by (by rewrite Hlower).
    assert (Hafter : PyStr.after_first " " ("mode " ++ mode) = Some mode) by done.
    rewrite Hhelp, Hstart, Hafter. unfold change_mode_command. rewrite Hname.
    done.
Qed.

End Repl.

Section RoundTrip.
Variable P : Python.
Variable subprocess_run : nat -> list string -> N * outcome CompletedProcess.
Variable I : Interpreter.

Lemma repl_word_dispatch (command : string) (g : Gui) :
  PyStr.lower command ∈ ["python"; "py"; "repl"] →
  execute_math_command P subprocess_run command g
  = (Ret (list_to_map
            [ ("success", VBool true);
              ("result",
               VStr ("=== Python Interactive REPL Mode ===" ++
                     String PyStr.newline "Type exit() to return to calculator mode"));
              ("mode_change", VBool true) ]),
     set_python_repl_mode true g).
Proof.
  intros Hin. unfold execute_math_command.
  rewrite (bool_decide_eq_true_2 _ Hin).
  repeat (apply elem_of_cons in Hin as [->|Hin]; [reflexivity|]).
  by apply elem_of_nil in Hin.
Qed.

(** X19.  Entering and leaving the REPL is a round trip.  One of the
    words [python], [py] and [repl], in any case, puts the calculator into
    REPL mode; one of the exit words, in any case, puts it back, without a
    call into the interpreter and without a change to the namespace, the
    mode or the engine.  Both messages are shown with the label of an
    engine result, because an answer without any mark gets that label.
    The input is not cleared after entering, since the handler already
    finds the calculator in REPL mode, and is cleared after leaving. *)
Theorem repl_round_trip (enter leave : string) (s : Session I) :
  python_repl_mode (gui s) = false →
  PyStr.lower enter ∈ ["python"; "py"; "repl"] →
  PyStr.lower leave ∈ exit_words →
  let s1 := (submit P subprocess_run I enter s).2 in
  let s2 := (submit P subprocess_run I leave s1).2 in
  python_repl_mode (gui s1) = true ∧ python_repl_mode (gui s2) = false ∧
  python_globals s2 = python_globals s ∧ calls s2 = calls s ∧
  runs (gui s2) = runs (gui s) ∧ current_mode (gui s2) = current_mode (gui s) ∧
  trace (gui s2)
  = (trace (gui s) ++
     [ EvProgressStop;
       EvLabel "input_mode_label" "🐍 Python REPL";
       EvOutput ("🚀 " ++ ("=== Python Interactive REPL Mode ===" ++
                           String PyStr.newline "Type exit() to return to calculator mode")
                 ++ " (C++ engine)") "result";
       EvStatus "Ready";
       EvProgressStop;
       EvLabel "input_mode_label" "Normal Mode";
       EvOutput ("🚀 " ++ "=== Exited Python REPL ===" ++ " (C++ engine)") "result";
       EvStatus "Ready";
       EvClearInput ])%list.
Proof.
  intros Hcalc Henter Hleave s1 s2.
  assert (Hs1 : s1 =
    with_gui (fun _ =>
      fold_left (fun g ev => emit ev g)
        [ EvProgressStop;
          EvLabel "input_mode_label" "🐍 Python REPL";
          EvOutput ("🚀 " ++ ("=== Python Interactive REPL Mode ===" ++
                              String PyStr.newline "Type exit() to return to calculator mode")
                    ++ " (C++ engine)") "result";
          EvStatus "Ready" ]
        (set_python_repl_mode true (gui s))) s).
  { subst s1. unfold submit, execute_command_thread. rewrite Hcalc.
    unfold lift. rewrite (repl_word_dispatch enter (gui s) Henter).
    unfold run_queued. cbn [fst snd]. unfold lift. reflexivity. }
  assert (Hrepl1 : python_repl_mode (gui s1) = true) by (by rewrite Hs1).
  assert (Hs2 : s2 =
    with_gui (fun _ =>
      fold_left (fun g ev => emit ev g)
        [ EvProgressStop;
          EvLabel "input_mode_label" "Normal Mode";
          EvOutput ("🚀 " ++ "=== Exited Python REPL ===" ++ " (C++ engine)") "result";
          EvStatus "Ready";
          EvClearInput ]
        (set_python_repl_mode false (gui s1))) s1).
  { subst s2. unfold submit, execute_command_thread. rewrite Hrepl1.
    unfold execute_python_command. rewrite (bool_decide_eq_true_2 _ Hleave).
    unfold run_queued. cbn [fst snd]. unfold lift. reflexivity. }
  rewrite Hs2, Hs1. cbn. rewrite <- !app_assoc. done.
Qed.

End RoundTrip.

Section ReplDisplay.
Variable P : Python.
Variable subprocess_run : nat -> list string -> N * outcome CompletedProcess.
Variable I : Interpreter.

(** The answers of the REPL to a command that is no exit word. *)
Lemma execute_python_command_answer (command : string) (s : Session I) :
  PyStr.lower command ∉ exit_words →
  let r := execute_python_command I command s in
  gui r.2 = gui s ∧
  match r.1 with
  | Returned d =>
      (∃ text, d = python_success text) ∨ (∃ msg, d = python_failure msg)
  | Threw t => is_exception t = false
  end.
Proof.
  intros Hword. cbn zeta. unfold execute_python_command.
  rewrite bool_decide_eq_false_2 by done.
  set (globals := exec_globals I _ _).
  destruct (evaluate_expression_cases I command globals s)
    as (r & ns & s1 & -> & Hg & _ & _ & Hr).
  assert (Hcaught : ∀ t s2, gui s2 = gui s →
            gui (caught I t s2).2 = gui s ∧
            match (caught I t s2).1 with
            | Returned d =>
                (∃ text, d = python_success text) ∨ (∃ msg, d = python_failure msg)
            | Threw t => is_exception t = false
            end).
  { intros t s2 H2. unfold caught. destruct (is_exception t) eqn:Ht; cbn; [|done].
    split; [done|]. right. by eexists. }
  destruct r as [d|t].
  - destruct Hr as (text & ->). cbn. split; [done|]. left. by eexists.
  - destruct t as [msg|e|name]; [|by apply Hcaught..].
    destruct (exec_in I command ns) as [[[]|t] ns'].
    + cbn. split; [done|]. left. by eexists.
    + by apply Hcaught.
Qed.

(** X21.  What the REPL shows.  For a command that is no exit word the
    handler shows the value behind the prompt [>>>], shows nothing at all
    when the value is [None] or the command was a statement, and shows
    the text of the exception as an error when the command raised one.
    It never clears the input, and the evaluator of the calculator is
    never asked: a failure of the REPL does not ask for the fallback. *)
Theorem repl_answers_are_shown (command : string) (s : Session I) :
  python_repl_mode (gui s) = true →
  PyStr.lower command ∉ exit_words →
  let r := execute_command_thread P subprocess_run I command s in
  match r.1 with
  | Died t => is_exception t = false
  | Scheduled d =>
      ∃ shown,
        trace (gui (run_queued P I command r).2)
        = (trace (gui s) ++ EvProgressStop :: shown ++ [EvStatus "Ready"])%list ∧
        ((∃ text, d = python_success text ∧
                  shown = if PyStr.truthy text
                          then [EvOutput (">>> " ++ text) "result"] else []) ∨
         (∃ msg, d = python_failure msg ∧
                 shown = [EvOutput ("❌ Error: " ++ msg) "error"]))
  end.
Proof.
  intros Hrepl Hword. cbn zeta. unfold execute_command_thread. rewrite Hrepl.
  pose proof (execute_python_command_answer command s Hword) as Hanswer.
  cbn zeta in Hanswer. destruct Hanswer as (Hgui & Hd).
  destruct (execute_python_command I command s) as [[d|t] s1]; cbn [fst snd] in *.
  - unfold run_queued, lift. cbn [fst snd]. rewrite Hgui.
    destruct Hd as [(text & ->)|(msg & ->)].
    + exists (if PyStr.truthy text then [EvOutput (">>> " ++ text) "result"] else []).
      split; [|left; by eexists].
      unfold handle_command_result, show_result, clear_unless_repl.
      change (truth (python_success text !! "mode_change")) with false.
      change (python_success text !! "success") with (Some (VBool true)).
      change (truth (python_success text !! "result")) with (PyStr.truthy text).
      change (truth (python_success text !! "special")) with false.
      change (truth (python_success text !! "senna_speed")) with false.
      change (truth (python_success text !! "f1_speed")) with false.
      change (truth (python_success text !! "execution_time")) with false.
      change (truth (python_success text !! "fast_eval")) with false.
      change (truth (python_success text !! "fallback")) with false.
      change (truth (python_success text !! "cpp_failed")) with false.
      change (truth (python_success text !! "is_python")) with true.
      change (fmt (default VNone (python_success text !! "result"))) with text.
      unfold mbind, M_bind, bind, do, modify, get, mret, M_ret, ret.
      cbn [truth]. destruct (PyStr.truthy text); cbn; rewrite Hrepl; cbn;
        by rewrite <- !app_assoc.
    + exists [EvOutput ("❌ Error: " ++ msg) "error"].
      split; [|right; by eexists].
      unfold handle_command_result, clear_unless_repl.
      change (truth (python_failure msg !! "mode_change")) with false.
      change (python_failure msg !! "success") with (Some (VBool false)).
      change (truth (python_failure msg !! "fallback_needed")) with false.
      change (truth (python_failure msg !! "special")) with false.
      change (fmt (default (VStr "Unknown error") (python_failure msg !! "error")))
        with msg.
      unfold mbind, M_bind, bind, do, modify, get, mret, M_ret, ret.
      cbn. rewrite Hrepl. cbn. by rewrite <- !app_assoc.
  - by rewrite Hd.
Qed.

End ReplDisplay.


(** [MODE linear] switches to the linear system mode. *)
Lemma mode_names_are_case_sensitive_witness :
  ∃ keyword mode,
    "MODE linear" = keyword ++ " " ++ mode ∧ PyStr.lower keyword = "mode" ∧
    let r := execute_math_command PyFragment.python GUISamples.engine_42
               "MODE linear" GUISamples.gui_start in
    match mode_map !! mode with
    | Some name =>
        PyStr.lower mode = mode ∧
        r.1 = Ret (list_to_map
                     [ ("success", VBool true);
                       ("result", VStr ("✓ Switched to " ++ name ++ " mode")) ]) ∧
        current_mode r.2 = name ∧
        trace r.2 = (trace GUISamples.gui_start
                     ++ [EvLabel "mode_label" ("Mode: " ++ name)])%list ∧
        runs r.2 = runs GUISamples.gui_start
    | None =>
        r = (Ret (list_to_map
                    [ ("success", VBool false); ("result", VNone);
                      ("error", VStr ("Unknown mode: " ++ mode)) ]),
             GUISamples.gui_start)
    end.
Proof.
  apply (mode_names_are_case_sensitive PyFragment.python GUISamples.engine_42
           "MODE linear" GUISamples.gui_start).
  reflexivity.
Defined.

(** [mode LINEAR] does not. *)
Example mode_upper_case_is_unknown :
  (execute_math_command PyFragment.python GUISamples.engine_42
     "mode LINEAR" GUISamples.gui_start).1
  = Ret (list_to_map
           [ ("success", VBool false); ("result", VNone);
             ("error", VStr "Unknown mode: LINEAR") ]).
Proof. vm_compute. reflexivity. Qed.



(** In the toy REPL, [x] evaluates to the 7 the user has bound, and stays
    bound. *)
Lemma repl_bindings_persist_witness :
  is_Some (python_globals
             (execute_python_command GUIFullSamples.toy "x"
                GUIFullSamples.session_x).2 !! "x").
Proof.
  assert (Hword : PyStr.lower "x" ∉ exit_words).
  { apply (bool_decide_unpack _). vm_compute. exact I. }
  apply (proj1 (proj2 (proj2
           (repl_bindings_persist GUIFullSamples.toy "x" GUIFullSamples.session_x
              Hword)))).
  exists 7. reflexivity.
Defined.

(** A deletion is undone: after [del x], [x] is still 7. *)
Example deletion_is_undone :
  (execute_python_command GUIFullSamples.toy "del x" GUIFullSamples.session_x).1
  = Returned (python_success "") ∧
  python_globals
    (execute_python_command GUIFullSamples.toy "del x" GUIFullSamples.session_x).2
  !! "x" = Some 7.
Proof. split; vm_compute; reflexivity. Qed.

(** [exit(0)] kills the worker of the toy REPL. *)
Example exit_call_kills_the_worker :
  (execute_command_thread PyFragment.python GUISamples.engine_42
     GUIFullSamples.toy "exit(0)" GUIFullSamples.session_x).1
  = Died (NotAnException "SystemExit").
Proof. vm_compute. reflexivity. Qed.

(** The button of the linear mode, outside the REPL. *)
Lemma mode_buttons_witness :
  ∃ name,
    mode_map !! "linear" = Some name ∧
    (change_mode PyFragment.python GUISamples.engine_42 GUIFullSamples.toy
       "linear" GUIFullSamples.session_start).1
    = Scheduled (list_to_map
                   [ ("success", VBool true);
                     ("result", VStr ("✓ Switched to " ++ name ++ " mode")) ]) ∧
    current_mode
      (gui (change_mode PyFragment.python GUISamples.engine_42 GUIFullSamples.toy
              "linear" GUIFullSamples.session_start).2) = name ∧
    calls (change_mode PyFragment.python GUISamples.engine_42 GUIFullSamples.toy
             "linear" GUIFullSamples.session_start).2
    = calls GUIFullSamples.session_start ∧
    runs (gui (change_mode PyFragment.python GUISamples.engine_42 GUIFullSamples.toy
                 "linear" GUIFullSamples.session_start).2)
    = runs (gui GUIFullSamples.session_start) ∧
    python_globals
      (change_mode PyFragment.python GUISamples.engine_42 GUIFullSamples.toy
         "linear" GUIFullSamples.session_start).2
    = python_globals GUIFullSamples.session_start.
Proof.
  apply (mode_buttons PyFragment.python GUISamples.engine_42 GUIFullSamples.toy
           "linear" GUIFullSamples.session_start).
  apply (bool_decide_unpack _). vm_compute. exact I.
Defined.

(** [Python] and [EXIT()] from the start of the calculator. *)
Lemma repl_round_trip_witness :
  python_repl_mode
    (gui (submit PyFragment.python GUISamples.engine_42 GUIFullSamples.toy "Python"
            GUIFullSamples.session_start).2) = true ∧
  python_repl_mode
    (gui (submit PyFragment.python GUISamples.engine_42 GUIFullSamples.toy "EXIT()"
            (submit PyFragment.python GUISamples.engine_42 GUIFullSamples.toy
               "Python" GUIFullSamples.session_start).2).2) = false.
Proof.
  assert (Henter : PyStr.lower "Python" ∈ ["python"; "py"; "repl"]).
  { apply (bool_decide_unpack _). vm_compute. exact I. }
  assert (Hleave : PyStr.lower "EXIT()" ∈ exit_words).
  { apply (bool_decide_unpack _). vm_compute. exact I. }
  destruct (repl_round_trip PyFragment.python GUISamples.engine_42
              GUIFullSamples.toy "Python" "EXIT()" GUIFullSamples.session_start
              eq_refl Henter Hleave) as (H1 & H2 & _).
  split; [exact H1|exact H2].
Defined.

(** The toy REPL shows the 7 behind its prompt. *)
Lemma repl_answers_are_shown_witness :
  ∃ shown,
    trace (gui (run_queued PyFragment.python GUIFullSamples.toy "x"
                  (execute_command_thread PyFragment.python GUISamples.engine_42
                     GUIFullSamples.toy "x" GUIFullSamples.session_x)).2)
    = (trace (gui GUIFullSamples.session_x)
       ++ EvProgressStop :: shown ++ [EvStatus "Ready"])%list ∧
    ((∃ text, python_success "7" = python_success text ∧
              shown = if PyStr.truthy text
                      then [EvOutput (">>> " ++ text) "result"] else []) ∨
     (∃ msg, python_success "7" = python_failure msg ∧
             shown = [EvOutput ("❌ Error: " ++ msg) "error"])).
Proof.
  assert (Hword : PyStr.lower "x" ∉ exit_words).
  { apply (bool_decide_unpack _). vm_compute. exact I. }
  exact (repl_answers_are_shown PyFragment.python GUISamples.engine_42
           GUIFullSamples.toy "x" GUIFullSamples.session_x eq_refl Hword).
Defined.

End GUIFullProps.

(** ** The engine of the GUI *)

Module GUIEngineProps.
Import GUI GUIEngine GUIEngineSpec.

Lemma init_cpp_engine_run (F : Files) (g : Gui) :
  match find_cpp_executable F with
  | Some (String c path) =>
      init_cpp_engine F g
      = (Ret true,
         set_cpp_engine (Some {| executable_path := Some (String c path) |}) g)
  | _ => init_cpp_engine F g = (Ret false, g)
  end.
Proof.
  unfold init_cpp_engine. by destruct (find_cpp_executable F) as [[|c path]|].
Qed.

Lemma emit_agrees (ev : event) (g : Gui) : agrees g → agrees (emit ev g).
Proof. done. Qed.

Lemma agrees_settings (g g' : Gui) :
  GUIFullSpec.same_settings g g' → agrees g → agrees g'.
Proof. intros (He & Ha & _). unfold agrees. by rewrite He, Ha. Qed.



End GUIEngineProps.
